(** * Parallel raster chunk processing: tiling, halo geometry, trim and write

    A shallow embedding of [raster_chunk_processing.py]: the grid partition of
    [ParallelRCP], the super-array geometry, population, trimming, no-data
    masking and write-back of [ProcessSuperArray], and the temporary-file
    handling of [mdenoise].

    Python integers are [Z]; raster samples are binary64 floats
    ([PrimFloat.float], compared with the IEEE [==]); a numpy array is a shape
    together with its cells; files on disk form a finite map from paths to
    rasters; exceptions are values of an error monad, threaded together with
    the file system through a state monad. *)

From Stdlib Require Import ZArith Lia Bool.
From Stdlib Require Import Floats.PrimFloat.
From stdpp Require Import base option list gmap strings pretty.

Local Open Scope Z_scope.

(** ** Exceptions and the error monad *)

Inductive exn : Type :=
  | ValueError
  | KeyError
  | TypeError
  | NotImplementedError
  | IOError
  | RuntimeError
  | CalledProcessError
  | FileNotFoundError
  | Exception.

#[global] Instance exn_eq_dec : EqDecision exn.
Proof. solve_decision. Defined.

Inductive result (A : Type) : Type :=
  | Ok (a : A)
  | Raise (e : exn).
Arguments Ok {A} a.
Arguments Raise {A} e.

Definition bindR {A B} (m : result A) (k : A -> result B) : result B :=
  match m with
  | Ok a => k a
  | Raise e => Raise e
  end.

Notation "'let!' x ':=' m 'in' k" := (bindR m (fun x => k))
  (at level 10, x pattern, m at level 100, k at level 200).

(** ** numpy arrays

    A two-dimensional array is its shape and its cells.  Cells outside the
    shape are never read by a well-formed program; the definitions below only
    look at indices inside the shape. *)

Record ndarray (A : Type) : Type := mk_ndarray {
  shape0 : Z;
  shape1 : Z;
  item : Z -> Z -> A
}.
Arguments mk_ndarray {A} shape0 shape1 item.
Arguments shape0 {A} _.
Arguments shape1 {A} _.
Arguments item {A} _ _ _.

Definition size {A} (a : ndarray A) : Z := shape0 a * shape1 a.

(** [np.full((r, c), v)]: a negative dimension is a [ValueError]. *)
Definition np_full (r c : Z) (v : float) : result (ndarray float) :=
  if (r <? 0) || (c <? 0) then Raise ValueError
  else Ok (mk_ndarray r c (fun _ _ => v)).

(** Python's resolution of one bound of a slice with step 1 on a sequence of
    length [n]: a negative bound counts from the end, and the outcome is
    clamped to [0, n]. *)
Definition slice_bound (n i : Z) : Z :=
  if i <? 0 then Z.max (i + n) 0 else Z.min i n.

(** The half-open index range [lo, hi) selected by [start:stop] on length
    [n]; it is empty when the resolved stop is not above the resolved
    start. *)
Definition slice_range (n start stop : Z) : Z * Z :=
  let lo := slice_bound n start in
  let hi := slice_bound n stop in
  (lo, Z.max lo hi).

(** [a[ys:ye, xs:xe]] *)
Definition getitem_slice {A} (a : ndarray A) (ys ye xs xe : Z) : ndarray A :=
  let '(r0, r1) := slice_range (shape0 a) ys ye in
  let '(c0, c1) := slice_range (shape1 a) xs xe in
  mk_ndarray (r1 - r0) (c1 - c0) (fun r c => item a (r0 + r) (c0 + c)).

(** numpy broadcasting of one axis of the assigned value onto the selected
    extent: equal lengths, or a value of length one repeated. *)
Definition broadcastable (n extent : Z) : bool :=
  (n =? extent) || (n =? 1).

Definition broadcast_index (n i : Z) : Z :=
  if n =? 1 then 0 else i.

(** [a[ys:ye, xs:xe] = v], the updated array. *)
Definition setitem_slice {A} (a : ndarray A) (ys ye xs xe : Z)
    (v : ndarray A) : result (ndarray A) :=
  let '(r0, r1) := slice_range (shape0 a) ys ye in
  let '(c0, c1) := slice_range (shape1 a) xs xe in
  if broadcastable (shape0 v) (r1 - r0) && broadcastable (shape1 v) (c1 - c0)
  then Ok (mk_ndarray (shape0 a) (shape1 a) (fun r c =>
         if (r0 <=? r) && (r <? r1) && (c0 <=? c) && (c <? c1)
         then item v (broadcast_index (shape0 v) (r - r0))
                     (broadcast_index (shape1 v) (c - c0))
         else item a r c))
  else Raise ValueError.

(** [a == v], a boolean array of the same shape. *)
Definition eq_scalar (a : ndarray float) (v : float) : ndarray bool :=
  mk_ndarray (shape0 a) (shape1 a) (fun r c => PrimFloat.eqb (item a r c) v).

(** The [n]-th cell in row-major order. *)
Definition flat {A} (a : ndarray A) (n : Z) : A :=
  item a (n / shape1 a) (n mod shape1 a).

(** [np.putmask(a, mask, v)] with a scalar [v]: sets [a.flat[n] = v] wherever
    [mask.flat[n]] holds.  numpy compares the cell counts of [a] and [mask],
    not their shapes, and raises [ValueError] when they differ. *)
Definition putmask (a : ndarray float) (mask : ndarray bool) (v : float)
    : result (ndarray float) :=
  if size mask =? size a
  then Ok (mk_ndarray (shape0 a) (shape1 a) (fun r c =>
         if flat mask (r * shape1 a + c) then v else item a r c))
  else Raise ValueError.

(** The cells in row-major order. *)
Definition ravel {A} (a : ndarray A) : list A :=
  flat_map (fun r => map (fun c => item a r c) (seqZ 0 (shape1 a)))
           (seqZ 0 (shape0 a)).

(** Building an array from literal rows, and reading one back. *)
Definition of_rows (rows : list (list float)) : ndarray float :=
  mk_ndarray (Z.of_nat (length rows))
             (Z.of_nat (length (default [] (head rows))))
             (fun r c => default 0%float
                (rows !! Z.to_nat r ≫= fun row => row !! Z.to_nat c)).

Definition to_rows {A} (a : ndarray A) : list (list A) :=
  map (fun r => map (fun c => item a r c) (seqZ 0 (shape1 a)))
      (seqZ 0 (shape0 a)).

(** [a.mean()]: the sum of the cells divided by their number.  The sum is
    taken in row-major order; numpy orders the additions of a long array
    differently, with the same result wherever the additions are exact.  An
    array without cells has mean [0/0 = nan]. *)
Definition np_mean (a : ndarray float) : float :=
  let cells := ravel a in
  PrimFloat.div (fold_left PrimFloat.add cells 0%float)
                (fold_left (fun n _ => PrimFloat.add n 1%float) cells 0%float).

(** ** Files, the external program, and the state monad *)

(** Values of the [options] dictionary. *)
Inductive optval : Type :=
  | VInt (n : Z)
  | VFloat (x : float)
  | VStr (s : string)
  | VLines (l : list (list string)).

(** A raster file with one band: its samples, its no-data value if one is
    set, and the pixel height of its geotransform.  An [.asc] grid is a
    raster as well. *)
Record raster : Type := mk_raster {
  band : ndarray float;
  nodata_value : option float;
  pixel_height : float
}.

(** One invocation of the mesh-denoising executable:
    [exe -i input -t t -n n -v v -o output]. *)
Record mdenoise_call : Type := mk_call {
  call_exe : string;
  call_input : string;
  call_t : optval;
  call_n : optval;
  call_v : optval;
  call_output : string
}.

(** The state: the files on disk and the log of external invocations. *)
Record world : Type := mk_world {
  files : gmap string raster;
  exe_log : list mdenoise_call
}.

Definition M (A : Type) : Type := world -> result A * world.

Definition ret {A} (a : A) : M A := fun w => (Ok a, w).
Definition raise {A} (e : exn) : M A := fun w => (Raise e, w).
Definition liftR {A} (m : result A) : M A := fun w => (m, w).

(** An exception leaves the state as it was when it was raised. *)
Definition bindM {A B} (m : M A) (k : A -> M B) : M B := fun w =>
  match m w with
  | (Ok a, w') => k a w'
  | (Raise e, w') => (Raise e, w')
  end.

Notation "'let*' x ':=' m 'in' k" := (bindM m (fun x => k))
  (at level 10, x pattern, m at level 100, k at level 200).

(** [with contextlib.suppress(e): body] *)
Definition suppress (e : exn) (body : M unit) : M unit := fun w =>
  match body w with
  | (Ok tt, w') => (Ok tt, w')
  | (Raise e', w') =>
      if bool_decide (e' = e) then (Ok tt, w') else (Raise e', w')
  end.

(** [for x in l: f(x)], stopping at the first exception. *)
Fixpoint for_each {A} (f : A -> M unit) (l : list A) : M unit :=
  match l with
  | [] => ret tt
  | x :: l' => let* _ := f x in for_each f l'
  end.

(** What the program takes from its environment. *)
Record env : Type := mk_env {
  (** [tempfile.gettempdir()] *)
  temp_dir : string;
  (** [mp.current_process().pid] *)
  pid : Z;
  (** [os.path.join] *)
  path_join : string -> string -> string;
  (** the mesh-denoising executable: its exit status and the files it
      leaves behind *)
  run_mdenoise : mdenoise_call -> gmap string raster -> Z * gmap string raster;
  (** the numeric filters, by method name, given the no-data value, the cell
      size and the option values they are called with *)
  kernel : string -> float -> float -> list optval -> ndarray float ->
           result (ndarray float);
  (** the rows of a csv file *)
  read_csv : optval -> result (list (list string));
  (** what a sample of a newly created raster reads as *)
  created_cell : float
}.

Definition mdenoise_path : string := "c:\temp\gis\lidar\MDenoise.exe".

(** ** GDAL *)

(** [gdal.Open(path, ...)]: a missing file is an error. *)
Definition gdal_Open (path : string) : M raster := fun w =>
  match files w !! path with
  | Some r => (Ok r, w)
  | None => (Raise RuntimeError, w)
  end.

(** [fh.ReadAsArray(xoff, yoff, xsize, ysize)]: the window must lie inside
    the raster.  A window without cells is rejected here too. *)
Definition ReadAsArray (fh : raster) (xoff yoff xsize ysize : Z)
    : result (ndarray float) :=
  if (xoff <? 0) || (yoff <? 0) || (xsize <? 1) || (ysize <? 1)
     || (xoff + xsize >? shape1 (band fh))
     || (yoff + ysize >? shape0 (band fh))
  then Raise RuntimeError
  else Ok (mk_ndarray ysize xsize
             (fun r c => item (band fh) (yoff + r) (xoff + c))).

(** [band.WriteArray(array, xoff, yoff)] on the file at [path], opened as
    [fh]: an array reaching beyond the raster is a [ValueError]; an array
    without cells is skipped by the raster I/O without any change; a
    negative offset is an error of the raster I/O.  The conversion of the
    samples to the 32-bit type of the target is not modelled. *)
Definition WriteArray (path : string) (fh : raster) (array : ndarray float)
    (xoff yoff : Z) : M unit := fun w =>
  if (shape1 array + xoff >? shape1 (band fh))
     || (shape0 array + yoff >? shape0 (band fh))
  then (Raise ValueError, w)
  else if (shape1 array <? 1) || (shape0 array <? 1) then (Ok tt, w)
  else if (xoff <? 0) || (yoff <? 0) then (Raise RuntimeError, w)
  else
    let b := mk_ndarray (shape0 (band fh)) (shape1 (band fh)) (fun r c =>
      if (yoff <=? r) && (r <? yoff + shape0 array)
         && (xoff <=? c) && (c <? xoff + shape1 array)
      then item array (r - yoff) (c - xoff)
      else item (band fh) r c) in
    (Ok tt,
     mk_world (<[path := mk_raster b (nodata_value fh) (pixel_height fh)]>
                 (files w))
              (exe_log w)).

(** [os.remove(path)] *)
Definition os_remove (path : string) : M unit := fun w =>
  match files w !! path with
  | Some _ => (Ok tt, mk_world (delete path (files w)) (exe_log w))
  | None => (Raise FileNotFoundError, w)
  end.

(** [WriteASC(in_array, asc_path, xll, yll, c_size, nodata)]: the header and
    the rows of the grid, kept here as the raster they describe. *)
Definition WriteASC (in_array : ndarray float) (asc_path : string)
    (xll yll : Z) (c_size nodata : float) : M unit := fun w =>
  (Ok tt,
   mk_world (<[asc_path := mk_raster in_array (Some nodata) c_size]> (files w))
            (exe_log w)).

(** ** The chunk descriptor

    [class Chunk: pass], with the attributes [ParallelRCP] sets on it (the
    start time, used for the progress line only, is left out). *)
Module Chunk.
Record t : Type := mk {
  progress : Z;
  tile : string;
  x_start : Z;
  y_start : Z;
  x_end : Z;
  y_end : Z;
  s_nodata : float;
  cell_size : float;
  mdenoise_path : string;
  in_dem_path : string;
  out_dem_path : string;
  f2 : Z;
  rows : Z;
  cols : Z;
  total_chunks : Z;
  method : string;
  options : gmap string optval;
  verbose : bool
}.
End Chunk.

(** [options[k]] *)
Definition getopt (options : gmap string optval) (k : string)
    : result optval :=
  match options !! k with
  | Some v => Ok v
  | None => Raise KeyError
  end.

(** The values computed by the super-array calculations and the edge logic
    of [ProcessSuperArray]. *)
Record geometry : Type := mk_geometry {
  x_size : Z;
  y_size : Z;
  read_x_off : Z;
  read_y_off : Z;
  read_x_size : Z;
  read_y_size : Z;
  sa_x_start : Z;
  sa_x_end : Z;
  sa_y_start : Z;
  sa_y_end : Z
}.

Definition super_array_geometry (chunk_info : Chunk.t) : geometry :=
  let x_start := Chunk.x_start chunk_info in
  let y_start := Chunk.y_start chunk_info in
  let x_end := Chunk.x_end chunk_info in
  let y_end := Chunk.y_end chunk_info in
  let f2 := Chunk.f2 chunk_info in
  let rows := Chunk.rows chunk_info in
  let cols := Chunk.cols chunk_info in
  let x_size := x_end - x_start + 2 * f2 in
  let y_size := y_end - y_start + 2 * f2 in
  let x_off := x_start - f2 in
  let y_off := y_start - f2 in
  let '(read_x_off, read_x_size, sa_x_start, sa_x_end) :=
    if x_off <? 0 then (0, x_size - f2, f2, x_size)
    else if x_off + x_size >? cols then (x_off, x_size - f2, 0, -1 * f2)
    else (x_off, x_size, 0, x_size) in
  let '(read_y_off, read_y_size, sa_y_start, sa_y_end) :=
    if y_off <? 0 then (0, y_size - f2, f2, y_size)
    else if y_off + y_size >? rows then (y_off, y_size - f2, 0, -1 * f2)
    else (y_off, y_size, 0, y_size) in
  mk_geometry x_size y_size read_x_off read_y_off read_x_size read_y_size
              sa_x_start sa_x_end sa_y_start sa_y_end.

(** [new_data[f2:-1*f2, f2:-1*f2]] *)
Definition strip_overlap {A} (a : ndarray A) (f2 : Z) : ndarray A :=
  getitem_slice a f2 (-1 * f2) f2 (-1 * f2).

(** The stripping of the overlap and the resetting of the no-data cells:
    [temp_array], as it is handed to [WriteArray]. *)
Definition trim_and_mask (f2 : Z) (s_nodata : float)
    (super_array new_data : ndarray float) : result (ndarray float) :=
  let temp_array := strip_overlap new_data f2 in
  let read_sub_array := strip_overlap super_array f2 in
  putmask temp_array (eq_scalar read_sub_array s_nodata) s_nodata.

Section Program.
Context (E : env).

(** [subprocess.check_output(args)]: the program runs, and a non-zero exit
    status raises [CalledProcessError]. *)
Definition check_output (args : mdenoise_call) : M unit := fun w =>
  let '(status, fs) := run_mdenoise E args (files w) in
  let w' := mk_world fs (exe_log w ++ [args]) in
  if status =? 0 then (Ok tt, w') else (Raise CalledProcessError, w').

(** The paths of the two temporary files of [mdenoise]: named after the
    tile if there is one (an empty name counts as none), after the process
    id otherwise. *)
Definition mesh_paths (tile : option string) : string * string :=
  let differentiator :=
    match tile with
    | Some name => if bool_decide (name = "") then pretty (pid E) else name
    | None => pretty (pid E)
    end in
  (path_join E (temp_dir E) ("mesh_source_" +:+ differentiator +:+ ".asc"),
   path_join E (temp_dir E) ("mesh_target_" +:+ differentiator +:+ ".asc")).

(** [mdenoise(in_array, t, n, v, tile)], with the globals [s_nodata] and
    [cell_size] it reads passed in front. *)
Definition mdenoise (s_nodata cell_size : float) (in_array : ndarray float)
    (t n v : optval) (tile : option string) : M (ndarray float) :=
  if PrimFloat.eqb (np_mean in_array) s_nodata then ret in_array
  else
    let '(temp_s_path, temp_t_path) := mesh_paths tile in
    let* _ := WriteASC in_array temp_s_path 1 1 cell_size s_nodata in
    let* _ := check_output
                (mk_call mdenoise_path temp_s_path t n v temp_t_path) in
    let* temp_t_fh := gdal_Open temp_t_path in
    let mdenoised_array := band temp_t_fh in
    let* _ := suppress FileNotFoundError
                (let* _ := os_remove temp_s_path in os_remove temp_t_path) in
    ret mdenoised_array.

(** The read of the resolved window and the paste into the super array,
    which starts as all no-data. *)
Definition read_super_array (chunk_info : Chunk.t) : M (ndarray float) :=
  let g := super_array_geometry chunk_info in
  let* s_fh := gdal_Open (Chunk.in_dem_path chunk_info) in
  let* read_array :=
    liftR (ReadAsArray s_fh (read_x_off g) (read_y_off g)
                       (read_x_size g) (read_y_size g)) in
  let* super_array :=
    liftR (np_full (y_size g) (x_size g) (Chunk.s_nodata chunk_info)) in
  liftR (setitem_slice super_array (sa_y_start g) (sa_y_end g)
                       (sa_x_start g) (sa_x_end g) read_array).

(** The dispatch on the method name. *)
Definition apply_method (chunk_info : Chunk.t) (super_array : ndarray float)
    : M (ndarray float) :=
  let method := Chunk.method chunk_info in
  let options := Chunk.options chunk_info in
  let s_nodata := Chunk.s_nodata chunk_info in
  let cell_size := Chunk.cell_size chunk_info in
  let filter := kernel E method s_nodata cell_size in
  if String.eqb method "blur_gauss" then
    liftR (let! fs := getopt options "filter_size" in
           filter [fs] super_array)
  else if String.eqb method "mdenoise" then
    let* t := liftR (getopt options "t") in
    let* n := liftR (getopt options "n") in
    let* v := liftR (getopt options "v") in
    mdenoise s_nodata cell_size super_array t n v
             (Some (Chunk.tile chunk_info))
  else if String.eqb method "clahe" then
    liftR (let! fs := getopt options "filter_size" in
           let! clip := getopt options "clip_limit" in
           filter [fs; clip] super_array)
  else if String.eqb method "TPI" then
    liftR (let! fs := getopt options "filter_size" in
           filter [fs] super_array)
  else if String.eqb method "blur_mean" then
    liftR (let! fs := getopt options "filter_size" in
           filter [fs] super_array)
  else if String.eqb method "hillshade" then
    liftR (let! az := getopt options "az" in
           let! alt := getopt options "alt" in
           filter [az; alt] super_array)
  else if String.eqb method "skymodel" then
    liftR (let! lum_lines := getopt options "lum_lines" in
           filter [lum_lines] super_array)
  else raise NotImplementedError.

(** The end of [ProcessSuperArray]: strip the overlap, reset the no-data
    cells, and write the chunk at its own offset in the target. *)
Definition write_back (chunk_info : Chunk.t)
    (super_array new_data : ndarray float) : M unit :=
  let* temp_array :=
    liftR (trim_and_mask (Chunk.f2 chunk_info) (Chunk.s_nodata chunk_info)
                         super_array new_data) in
  let* t_fh := gdal_Open (Chunk.out_dem_path chunk_info) in
  WriteArray (Chunk.out_dem_path chunk_info) t_fh temp_array
             (Chunk.x_start chunk_info) (Chunk.y_start chunk_info).

Definition ProcessSuperArray (chunk_info : Chunk.t) : M unit :=
  let* super_array := read_super_array chunk_info in
  let* new_data := apply_method chunk_info super_array in
  write_back chunk_info super_array new_data.
End Program.

(** ** The scheduler *)

(** [list(range(start, stop, step))]; a zero step is a [ValueError]. *)
Definition py_range (start stop step : Z) : result (list Z) :=
  if step =? 0 then Raise ValueError
  else
    let len :=
      if 0 <? step
      then (if start <? stop then (stop - start - 1) / step + 1 else 0)
      else (if stop <? start then (start - stop - 1) / (- step) + 1 else 0) in
    Ok ((fun i => start + i * step) <$> seqZ 0 len).

(** The loop over the required option names of a method. *)
Definition require_options (opts : list string)
    (options : gmap string optval) : result unit :=
  if forallb (fun opt => bool_decide (is_Some (options !! opt))) opts
  then Ok tt else Raise ValueError.

(** [if overlap < 2 * options["filter_size"]: overlap = 2 * options["filter_size"]].
    The filter size is taken to be an integer; another kind of value is
    rejected here. *)
Definition check_overlap (overlap : Z) (options : gmap string optval)
    : result Z :=
  match options !! "filter_size" with
  | Some (VInt filter_size) =>
      Ok (if overlap <? 2 * filter_size then 2 * filter_size else overlap)
  | Some _ => Raise TypeError
  | None => Raise KeyError
  end.

(** The method name and option checks at the head of [ParallelRCP]; the
    result is the overlap the rest of the run uses. *)
Definition method_checks (method : string) (options : gmap string optval)
    (overlap : Z) : result Z :=
  if String.eqb method "blur_gauss" then
    let! _ := require_options ["filter_size"] options in
    check_overlap overlap options
  else if String.eqb method "mdenoise" then
    let! _ := require_options ["t"; "n"; "v"] options in
    Ok overlap
  else if String.eqb method "clahe" then
    let! _ := require_options ["filter_size"; "clip_limit"] options in
    check_overlap overlap options
  else if String.eqb method "TPI" then
    let! _ := require_options ["filter_size"] options in
    check_overlap overlap options
  else if String.eqb method "blur_mean" then
    let! _ := require_options ["filter_size"] options in
    check_overlap overlap options
  else if String.eqb method "hillshade" then
    let! _ := require_options ["alt"; "az"] options in
    Ok overlap
  else if String.eqb method "skymodel" then
    let! _ := require_options ["lum_file"] options in
    Ok overlap
  else Raise NotImplementedError.

(** What is the same for every chunk of a run. *)
Record run_info : Type := mk_run_info {
  run_s_nodata : float;
  run_cell_size : float;
  run_in_dem_path : string;
  run_out_dem_path : string;
  run_f2 : Z;
  run_rows : Z;
  run_cols : Z;
  run_method : string;
  run_options : gmap string optval;
  run_verbose : bool
}.

(** The body of the inner loop: the chunk for row break [i] and column break
    [j], numbered [progress]. *)
Definition make_chunk (R : run_info) (row_splits col_splits : list Z)
    (total_chunks : Z) (i j : nat) (progress : Z) : Chunk.t :=
  Chunk.mk progress
           (pretty (Z.of_nat i) +:+ "-" +:+ pretty (Z.of_nat j))
           (col_splits !!! j) (row_splits !!! i)
           (col_splits !!! S j) (row_splits !!! S i)
           (run_s_nodata R) (run_cell_size R) mdenoise_path
           (run_in_dem_path R) (run_out_dem_path R) (run_f2 R)
           (run_rows R) (run_cols R) total_chunks
           (run_method R) (run_options R) (run_verbose R).

(** The two nested loops that fill [iterables], with their running
    [progress] counter. *)
Definition make_iterables (R : run_info) (row_splits col_splits : list Z)
    : list Chunk.t :=
  let total_chunks :=
    (Z.of_nat (length row_splits) - 1) * (Z.of_nat (length col_splits) - 1) in
  snd (fold_left
         (fun st i =>
            fold_left
              (fun '(progress, iterables) j =>
                 let progress := progress + 1 in
                 (progress,
                  iterables ++
                    [make_chunk R row_splits col_splits total_chunks
                                i j progress]))
              (seq 0 (length col_splits - 1)) st)
         (seq 0 (length row_splits - 1))
         (0, [])).

(** The breaks of one axis: every [chunk_size] cells, and the dimension
    itself as the last break. *)
Definition splits (dim chunk_size : Z) : result (list Z) :=
  let! breaks := py_range 0 dim chunk_size in
  Ok (breaks ++ [dim]).

(** The chunks of a run, for a raster of [rows] by [cols]: the branch taken
    when both dimensions exceed the chunk size. *)
Definition chunks_of (R : run_info) (chunk_size : Z)
    : result (list Chunk.t) :=
  let! row_splits := splits (run_rows R) chunk_size in
  let! col_splits := splits (run_cols R) chunk_size in
  Ok (make_iterables R row_splits col_splits).

Section Scheduler.
Context (E : env).

(** [ParallelRCP(in_dem_path, out_dem_path, chunk_size, overlap, method,
    options, num_threads, verbose)].  The pool maps [ProcessSuperArray]
    over the chunks; it is run here one chunk after the other, in the order
    of the list, and the first exception ends the run. *)
Definition ParallelRCP (in_dem_path out_dem_path : string)
    (chunk_size overlap : Z) (method : string)
    (options : gmap string optval) (num_threads : Z) (verbose : bool)
    : M unit :=
  let* overlap := liftR (method_checks method options overlap) in
  let* s_fh := gdal_Open in_dem_path in
  let rows := shape0 (band s_fh) in
  let cols := shape1 (band s_fh) in
  let cell_size := PrimFloat.abs (pixel_height s_fh) in
  let* s_nodata :=
    match nodata_value s_fh with
    | Some v => ret v
    | None => raise Exception
    end in
  let* _ := fun w =>
    if bool_decide (is_Some (files w !! out_dem_path))
    then (Raise IOError, w)
    else (Ok tt,
          mk_world
            (<[out_dem_path :=
                 mk_raster (mk_ndarray rows cols (fun _ _ => created_cell E))
                           (Some s_nodata) (pixel_height s_fh)]> (files w))
            (exe_log w)) in
  let* options :=
    if String.eqb method "skymodel" then
      liftR (let! lum_file := getopt options "lum_file" in
             let! lines := read_csv E lum_file in
             Ok (<["lum_lines" := VLines lines]> options))
    else ret options in
  if (rows >? chunk_size) && (cols >? chunk_size) then
    let f2 := 2 * overlap in
    let* iterables :=
      liftR (chunks_of (mk_run_info s_nodata cell_size in_dem_path
                          out_dem_path f2 rows cols method options verbose)
                       chunk_size) in
    for_each (ProcessSuperArray E) iterables
  else
    ret tt.
End Scheduler.


(** ** Notions used to state the properties *)

(** The number of chunks along an axis of [dim] cells. *)
Definition tiles_along (dim chunk_size : Z) : Z := (dim - 1) / chunk_size + 1.

(** [ni] rows of [nj] items each, in row-major order. *)
Fixpoint grid {A} (ni nj : nat) (g : nat -> nat -> A) : list A :=
  match ni with
  | O => []
  | S n => grid n nj g ++ (g n <$> seq 0 nj)
  end.

(** The chunk the loops build at row [i], column [j]. *)
Definition chunk_at (R : run_info) (row_splits col_splits : list Z)
    (i j : nat) : Chunk.t :=
  make_chunk R row_splits col_splits
    ((Z.of_nat (length row_splits) - 1) * (Z.of_nat (length col_splits) - 1))
    i j (Z.of_nat (i * (length col_splits - 1) + j) + 1).

(** The cell at row [r], column [c] lies in the half-open rectangle of the
    chunk. *)
Definition contains (ch : Chunk.t) (r c : Z) : Prop :=
  (Chunk.y_start ch <= r < Chunk.y_end ch)
  /\ (Chunk.x_start ch <= c < Chunk.x_end ch).

Definition containsb (ch : Chunk.t) (r c : Z) : bool :=
  (Chunk.y_start ch <=? r) && (r <? Chunk.y_end ch)
  && (Chunk.x_start ch <=? c) && (c <? Chunk.x_end ch).

(** The rectangles of the chunks at different positions of the list share
    no cell, every cell of the raster lies in one of them, and none reaches
    outside the raster. *)
Definition tiles_partition (rows cols : Z) (l : list Chunk.t) : Prop :=
  (forall (p q : nat) a b r c,
     l !! p = Some a -> l !! q = Some b ->
     contains a r c -> contains b r c -> p = q)
  /\ (forall r c, 0 <= r < rows -> 0 <= c < cols ->
      exists a, a ∈ l /\ contains a r c)
  /\ (forall a r c, a ∈ l -> contains a r c ->
      0 <= r < rows /\ 0 <= c < cols).

(** The array has the shape of the chunk's super array. *)
Definition padded_shape (ch : Chunk.t) (a : ndarray float) : Prop :=
  shape0 a = y_size (super_array_geometry ch)
  /\ shape1 a = x_size (super_array_geometry ch).

(** The target after a write that goes through. *)
Definition written (fh : raster) (array : ndarray float) (xoff yoff : Z)
    : raster :=
  mk_raster
    (mk_ndarray (shape0 (band fh)) (shape1 (band fh)) (fun r c =>
       if (yoff <=? r) && (r <? yoff + shape0 array)
          && (xoff <=? c) && (c <? xoff + shape1 array)
       then item array (r - yoff) (c - xoff)
       else item (band fh) r c))
    (nodata_value fh) (pixel_height fh).

(** For a super array and an operation output of the padded shape, the end
    of [ProcessSuperArray] writes an array of the chunk's own extent at the
    chunk's own offset: afterwards the target holds that array on the
    rectangle of the chunk and is unchanged elsewhere. *)
Definition writes_native_extent (ch : Chunk.t) : Prop :=
  forall (super_array new_data : ndarray float) (w : world) (t_fh : raster),
    padded_shape ch super_array -> padded_shape ch new_data ->
    files w !! Chunk.out_dem_path ch = Some t_fh ->
    shape0 (band t_fh) = Chunk.rows ch ->
    shape1 (band t_fh) = Chunk.cols ch ->
    exists temp_array,
      trim_and_mask (Chunk.f2 ch) (Chunk.s_nodata ch) super_array new_data
        = Ok temp_array
      /\ shape0 temp_array = Chunk.y_end ch - Chunk.y_start ch
      /\ shape1 temp_array = Chunk.x_end ch - Chunk.x_start ch
      /\ exists w' t',
           write_back ch super_array new_data w = (Ok tt, w')
           /\ files w' !! Chunk.out_dem_path ch = Some t'
           /\ forall r c,
                item (band t') r c =
                  if containsb ch r c
                  then item temp_array (r - Chunk.y_start ch)
                                       (c - Chunk.x_start ch)
                  else item (band t_fh) r c.

(** The partition and write claim for one run: whenever both dimensions
    exceed the chunk size, the chunks partition the raster and each of them
    writes its own extent at its own offset. *)
Definition partition_write_claim (R : run_info) (chunk_size : Z) : Prop :=
  run_rows R > chunk_size -> run_cols R > chunk_size ->
  exists iterables,
    chunks_of R chunk_size = Ok iterables
    /\ tiles_partition (run_rows R) (run_cols R) iterables
    /\ forall ch, ch ∈ iterables -> writes_native_extent ch.

(** The shape-mismatch claim for one chunk: an operation output whose shape
    is not that of the super array ends the chunk with an exception and
    without any change to the files. *)
Definition shape_mismatch_fatal (ch : Chunk.t)
    (super_array new_data : ndarray float) (w : world) : Prop :=
  shape0 new_data <> shape0 super_array
  \/ shape1 new_data <> shape1 super_array ->
  exists e, write_back ch super_array new_data w = (Raise e, w).

(** The edge logic of one axis, as [super_array_geometry] applies it to the
    columns and to the rows: the read offset, the read size, and the start
    and end of the slice of the super array that receives the read. *)
Definition edge_logic (start end_ f2 dim : Z) : Z * Z * Z * Z :=
  let size := end_ - start + 2 * f2 in
  let off := start - f2 in
  if off <? 0 then (0, size - f2, f2, size)
  else if off + size >? dim then (off, size - f2, 0, -1 * f2)
  else (off, size, 0, size).

(** The super array of a chunk at the top-left corner of the raster [fh]:
    no-data in the first [f2] rows and columns, the raster's cells from its
    origin behind them. *)
Definition corner_super_array (ch : Chunk.t) (fh : raster) : ndarray float :=
  let f2 := Chunk.f2 ch in
  mk_ndarray (Chunk.y_end ch + 2 * f2) (Chunk.x_end ch + 2 * f2)
    (fun r c => if (r <? f2) || (c <? f2) then Chunk.s_nodata ch
                else item (band fh) (r - f2) (c - f2)).

(** ** Concrete inputs for the examples *)

(** An environment with identity filters and a denoising executable that
    fails with status 1 and touches no file. *)
Definition demo_env : env :=
  mk_env "/tmp" 4242 (fun d f => d +:+ "/" +:+ f)
         (fun _ fs => (1, fs))
         (fun _ _ _ _ a => Ok a)
         (fun _ => Ok [])
         0%float.

(** A run over a raster of [rows] by [cols] with no-data value [-9999]. *)
Definition demo_run (rows cols f2 : Z) : run_info :=
  mk_run_info (-9999)%float 1%float "in.tif" "out.tif" f2 rows cols
              "hillshade" ∅ false.

(** A raster of [rows] by [cols] whose every sample is [v]. *)
Definition flat_raster (rows cols : Z) (v : float) : raster :=
  mk_raster (mk_ndarray rows cols (fun _ _ => v)) (Some (-9999)%float) 1%float.

(** A world holding a source and a target of [rows] by [cols]. *)
Definition demo_world (rows cols : Z) : world :=
  mk_world {[ "in.tif" := flat_raster rows cols 5%float;
              "out.tif" := flat_raster rows cols 0%float ]} [].

(** The first chunk of a run over 9 by 9 cells with chunks of 4 and
    [f2 = 2]. *)
Definition demo_chunk : Chunk.t :=
  Chunk.mk 1 "0-0" 0 0 4 4 (-9999)%float 1%float mdenoise_path
           "in.tif" "out.tif" 2 9 9 9 "hillshade" ∅ false.

(** A source raster of 6 by 6 with pairwise different samples. *)
Definition demo_grid : list (list float) :=
  [[11; 12; 13; 14; 15; 16];
   [21; 22; 23; 24; 25; 26];
   [31; 32; 33; 34; 35; 36];
   [41; 42; 43; 44; 45; 46];
   [51; 52; 53; 54; 55; 56];
   [61; 62; 63; 64; 65; 66]]%float.

Definition demo_grid_world : world :=
  mk_world {[ "in.tif" :=
                mk_raster (of_rows demo_grid) (Some (-9999)%float) 1%float ]}
           [].

(** ** Further notions: the super array as a function of the source *)

(** The super array of a chunk, given the opened source: what
    [read_super_array] computes once the source file is found. *)
Definition super_array_of (chunk_info : Chunk.t) (s_fh : raster)
    : result (ndarray float) :=
  let g := super_array_geometry chunk_info in
  let! read_array :=
    ReadAsArray s_fh (read_x_off g) (read_y_off g)
                (read_x_size g) (read_y_size g) in
  let! super_array :=
    np_full (y_size g) (x_size g) (Chunk.s_nodata chunk_info) in
  setitem_slice super_array (sa_y_start g) (sa_y_end g)
                (sa_x_start g) (sa_x_end g) read_array.

(** An axis of a chunk on which the edge logic meets one of the three cases
    it is written for: the chunk lies inside the raster, and if it is nearer
    than [f2] to the start of the axis it starts there and ends at least
    [f2] before the end. *)
Definition axis_regular (start end_ f2 dim : Z) : Prop :=
  0 <= start /\ start < end_ /\ end_ <= dim
  /\ (start < f2 -> start = 0 /\ end_ + f2 <= dim).

(** The cells of the axis that such a chunk reads: from [f2] before its
    start, or from the start of the axis, up to [f2] beyond its end if that
    lies inside the raster, and up to its own end otherwise. *)
Definition axis_read_lo (start f2 : Z) : Z := Z.max 0 (start - f2).

Definition axis_read_hi (end_ f2 dim : Z) : Z :=
  if end_ + f2 <=? dim then end_ + f2 else end_.

(** The chunk [0-1] of a run over the 6 by 6 raster with chunks of 4 and
    [f2 = 2]: columns 4 and 5 of rows 0 to 3. *)
Definition demo_grid_chunk : Chunk.t :=
  Chunk.mk 2 "0-1" 4 0 6 4 (-9999)%float 1%float mdenoise_path
           "in.tif" "out.tif" 2 6 6 4 "hillshade" ∅ false.

(** The float that counts up to [n]. *)
Fixpoint float_of_nat (n : nat) : float :=
  match n with
  | O => 0%float
  | S k => PrimFloat.add (float_of_nat k) 1%float
  end.

(** A raster of [rows] by [cols] whose sample at row [r], column [c] is
    [100 * r + c], with no-data value [-9999]. *)
Definition ramp_raster (rows cols : Z) : raster :=
  mk_raster (mk_ndarray rows cols
               (fun r c => float_of_nat (Z.to_nat (100 * r + c))))
            (Some (-9999)%float) 1%float.

(** A world that holds such a source and nothing else. *)
Definition ramp_world (rows cols : Z) : world :=
  mk_world {[ "in.tif" := ramp_raster rows cols ]} [].

(** A chunk of a run over a raster of [rows] by [cols], by its bounds. *)
Definition ramp_chunk (x_start y_start x_end y_end f2 rows cols : Z)
    : Chunk.t :=
  Chunk.mk 1 "tile" x_start y_start x_end y_end (-9999)%float 1%float
           mdenoise_path "in.tif" "out.tif" f2 rows cols 1 "hillshade" ∅
           false.

(** ** Further notions: the outcome of a chunk and of a run *)

(** The array a chunk hands to [WriteArray] when the dispatched method acts
    as the function [op] on the super array. *)
Definition tile_output (op : Chunk.t -> ndarray float -> ndarray float)
    (ch : Chunk.t) (s_fh : raster) : result (ndarray float) :=
  let! super_array := super_array_of ch s_fh in
  trim_and_mask (Chunk.f2 ch) (Chunk.s_nodata ch) super_array
                (op ch super_array).

(** The dispatched method of the chunk is the function [op]: it returns
    without an exception, touches no file, and keeps the shape of the super
    array. *)
Definition acts_as (E : env) (op : Chunk.t -> ndarray float -> ndarray float)
    (ch : Chunk.t) : Prop :=
  forall super_array w,
    apply_method E ch super_array w = (Ok (op ch super_array), w)
    /\ shape0 (op ch super_array) = shape0 super_array
    /\ shape1 (op ch super_array) = shape1 super_array.

(** No two chunks of the list share a cell. *)
Definition tiles_disjoint (l : list Chunk.t) : Prop :=
  forall a b r c, a ∈ l -> b ∈ l -> contains a r c -> contains b r c -> a = b.

(** A chunk that the run can process: regular on both axes, with a positive
    [f2], reading from [inp] and writing to [outp], on a raster of [rows] by
    [cols]. *)
Definition tile_ready (inp outp : string) (rows cols : Z) (ch : Chunk.t)
    : Prop :=
  Chunk.in_dem_path ch = inp /\ Chunk.out_dem_path ch = outp
  /\ Chunk.rows ch = rows /\ Chunk.cols ch = cols
  /\ 0 < Chunk.f2 ch
  /\ axis_regular (Chunk.x_start ch) (Chunk.x_end ch) (Chunk.f2 ch) cols
  /\ axis_regular (Chunk.y_start ch) (Chunk.y_end ch) (Chunk.f2 ch) rows.

(** The target after a run over the chunks of [l]: on the rectangle of each
    chunk the array that chunk hands to [WriteArray], and the cells of [t_fh]
    outside all of them. *)
Definition tiles_written (op : Chunk.t -> ndarray float -> ndarray float)
    (l : list Chunk.t) (s_fh t_fh t' : raster) : Prop :=
  shape0 (band t') = shape0 (band t_fh)
  /\ shape1 (band t') = shape1 (band t_fh)
  /\ nodata_value t' = nodata_value t_fh
  /\ pixel_height t' = pixel_height t_fh
  /\ forall r c,
       (forall ch, ch ∈ l -> contains ch r c ->
          exists temp_array,
            tile_output op ch s_fh = Ok temp_array
            /\ item (band t') r c
               = item temp_array (r - Chunk.y_start ch) (c - Chunk.x_start ch))
       /\ ((forall ch, ch ∈ l -> ~ contains ch r c) ->
           item (band t') r c = item (band t_fh) r c).

(** A hillshade run over the 6 by 6 raster: its options, its chunk [0-1],
    and a world with the source and a blank target. *)
Definition hillshade_options : gmap string optval :=
  {[ "az" := VInt 315; "alt" := VInt 45 ]}.

Definition grid_run : run_info :=
  mk_run_info (-9999)%float 1%float "in.tif" "out.tif" 2 6 6
              "hillshade" hillshade_options false.

Definition grid_tile : Chunk.t :=
  Chunk.mk 2 "0-1" 4 0 6 4 (-9999)%float 1%float mdenoise_path
           "in.tif" "out.tif" 2 6 6 4 "hillshade" hillshade_options false.

Definition grid_source : raster :=
  mk_raster (of_rows demo_grid) (Some (-9999)%float) 1%float.

Definition grid_pair_world : world :=
  mk_world {[ "in.tif" := grid_source;
              "out.tif" := flat_raster 6 6 0%float ]} [].


(** A sample after the resetting of the no-data cells. *)
Definition masked (v s_nodata : float) : float :=
  if PrimFloat.eqb v s_nodata then s_nodata else v.


(** The options each method requires: the lists named at the head of
    [ParallelRCP] ([gauss_opts], [mdenoise_opts], [clahe_opts], [TPI_opts],
    [mean_opts], [hillshade_opts], [sky_opts]); no list for a method the
    checks do not know. *)
Definition required_opts (method : string) : option (list string) :=
  if String.eqb method "blur_gauss" then Some ["filter_size"]
  else if String.eqb method "mdenoise" then Some ["t"; "n"; "v"]
  else if String.eqb method "clahe" then Some ["filter_size"; "clip_limit"]
  else if String.eqb method "TPI" then Some ["filter_size"]
  else if String.eqb method "blur_mean" then Some ["filter_size"]
  else if String.eqb method "hillshade" then Some ["alt"; "az"]
  else if String.eqb method "skymodel" then Some ["lum_file"]
  else None.

(** The target as [driver.Create] and [SetNoDataValue] leave it: the shape
    and the pixel height of the source, the no-data value of the source, and
    no sample written yet. *)
Definition created_target (E : env) (s_fh : raster) (s_nodata : float)
    : raster :=
  mk_raster (mk_ndarray (shape0 (band s_fh)) (shape1 (band s_fh))
                        (fun _ _ => created_cell E))
            (Some s_nodata) (pixel_height s_fh).

(** Between the two states nothing has happened but, at most, changes to the
    file at [path]: the external program was not run and every other file
    is as it was. *)
Definition only_changes (path : string) (w w' : world) : Prop :=
  exe_log w' = exe_log w
  /\ forall q, q <> path -> files w' !! q = files w !! q.

(** Environments for the examples of [mdenoise]: an executable that copies
    its input to its output, one that moves it there, and one that does
    nothing; all three exit with status 0. *)
Definition copying_env : env :=
  mk_env "/tmp" 4242 (fun d f => d +:+ "/" +:+ f)
         (fun c fs =>
            (0, match fs !! call_input c with
                | Some r => <[call_output c := r]> fs
                | None => fs
                end))
         (fun _ _ _ _ a => Ok a)
         (fun _ => Ok [])
         0%float.

Definition moving_env : env :=
  mk_env "/tmp" 4242 (fun d f => d +:+ "/" +:+ f)
         (fun c fs =>
            (0, match fs !! call_input c with
                | Some r => delete (call_input c) (<[call_output c := r]> fs)
                | None => fs
                end))
         (fun _ _ _ _ a => Ok a)
         (fun _ => Ok [])
         0%float.

Definition silent_env : env :=
  mk_env "/tmp" 4242 (fun d f => d +:+ "/" +:+ f)
         (fun _ fs => (0, fs))
         (fun _ _ _ _ a => Ok a)
         (fun _ => Ok [])
         0%float.



(** The character [-] that separates the row and the column number in a
    tile name. *)
Definition dash : Ascii.ascii :=
  Ascii.Ascii true false true true false true false false.

(** The character occurs in the string. *)
Fixpoint has_char (c : Ascii.ascii) (s : string) : bool :=
  match s with
  | EmptyString => false
  | String a s' => Ascii.eqb a c || has_char c s'
  end.

(** The second chunk of the run over 9 by 9 cells with chunks of 4 and
    [f2 = 2]. *)
Definition demo_chunk_next : Chunk.t :=
  Chunk.mk 2 "0-1" 4 0 8 4 (-9999)%float 1%float mdenoise_path
           "in.tif" "out.tif" 2 9 9 9 "hillshade" ∅ false.

(** ** The sample type of the target *)

From Stdlib Require Floats.FloatOps Floats.SpecFloat.

(** The sample is one that the 32-bit floating-point type of the target
    ([gdal.GDT_Float32], the type [ParallelRCP] creates the target with)
    holds exactly: a zero, an infinity, not a number, or a finite value with
    at most 24 significant bits that is a multiple of [2^-149] and lies
    below [2^128].  Such a sample is stored as it is; any other sample is
    rounded when it is written, which the files of this development do not
    show, so that what is stated of a stored sample is stated of the samples
    that are held exactly. *)
Definition is_float32 (v : float) : bool :=
  match FloatOps.Prim2SF v with
  | SpecFloat.S754_finite _ m e =>
      let digits := Z.log2 (Z.pos m) + 1 in
      let drop := Z.max (digits - 24) (-149 - e) in
      (digits + e <=? 128)
      && ((drop <=? 0) || (Z.pos m mod 2 ^ drop =? 0))
  | _ => true
  end.

(** The zero-overlap claim for one call, as it is worded: with
    [overlap = 0] on a raster whose dimensions exceed the chunk size, the
    result of every chunk is lost instead of written, so that the target
    holds no sample but those it was created with. *)
Definition zero_overlap_claim (E : env) (in_dem_path out_dem_path : string)
    (chunk_size : Z) (method : string) (options : gmap string optval)
    (num_threads : Z) (verbose : bool) (w : world) : Prop :=
  forall (s_fh t' : raster) (res : result unit) (w' : world),
    files w !! in_dem_path = Some s_fh ->
    shape0 (band s_fh) > chunk_size -> shape1 (band s_fh) > chunk_size ->
    ParallelRCP E in_dem_path out_dem_path chunk_size 0 method options
                num_threads verbose w = (res, w') ->
    files w' !! out_dem_path = Some t' ->
    forall r c, item (band t') r c = created_cell E.

(** * Properties *)

(** ** Slices *)

Lemma slice_bound_range n i : 0 <= n -> 0 <= slice_bound n i <= n.
Proof. unfold slice_bound. destruct (Z.ltb_spec i 0); lia. Qed.

(** [n[f2:-1*f2]] for a positive [f2] that fits twice: the middle part. *)
Lemma slice_range_strip n f2 :
  0 < f2 -> 2 * f2 <= n -> slice_range n f2 (-1 * f2) = (f2, n - f2).
Proof.
  intros Hf Hn. unfold slice_range, slice_bound.
  destruct (Z.ltb_spec f2 0), (Z.ltb_spec (-1 * f2) 0); try lia.
  f_equal; lia.
Qed.

(** With [f2 = 0] the stop [-1*0 = 0] is the start: nothing is selected. *)
Lemma slice_range_strip_zero n : slice_range n 0 (-1 * 0) = (Z.min 0 n, Z.min 0 n).
Proof. unfold slice_range, slice_bound. simpl. f_equal. lia. Qed.

(** Whenever the stripped slice selects anything, it starts at [f2]. *)
Lemma slice_range_strip_start n f2 lo hi :
  0 <= n -> 0 <= f2 -> slice_range n f2 (-1 * f2) = (lo, hi) -> lo < hi ->
  lo = f2 /\ hi = n - f2 /\ 0 < f2.
Proof.
  unfold slice_range, slice_bound. intros Hn Hf [= <- <-] Hlt.
  destruct (Z.ltb_spec f2 0), (Z.ltb_spec (-1 * f2) 0); lia.
Qed.

Lemma strip_overlap_shape {A} (a : ndarray A) f2 :
  0 < f2 -> 2 * f2 <= shape0 a -> 2 * f2 <= shape1 a ->
  shape0 (strip_overlap a f2) = shape0 a - 2 * f2
  /\ shape1 (strip_overlap a f2) = shape1 a - 2 * f2.
Proof.
  intros Hf H0 H1. unfold strip_overlap, getitem_slice.
  rewrite !slice_range_strip by done. simpl. lia.
Qed.

Lemma strip_overlap_zero {A} (a : ndarray A) :
  shape0 (strip_overlap a 0) = 0 /\ shape1 (strip_overlap a 0) = 0.
Proof.
  unfold strip_overlap, getitem_slice.
  rewrite !slice_range_strip_zero. simpl. lia.
Qed.

Lemma strip_overlap_shape_nonneg {A} (a : ndarray A) f2 :
  0 <= shape0 (strip_overlap a f2) /\ 0 <= shape1 (strip_overlap a f2).
Proof.
  unfold strip_overlap, getitem_slice, slice_range. simpl. lia.
Qed.

Lemma strip_overlap_item {A} (a : ndarray A) f2 r c :
  0 <= shape0 a -> 0 <= shape1 a -> 0 <= f2 ->
  0 <= r < shape0 (strip_overlap a f2) ->
  0 <= c < shape1 (strip_overlap a f2) ->
  item (strip_overlap a f2) r c = item a (f2 + r) (f2 + c).
Proof.
  intros H0 H1 Hf. unfold strip_overlap, getitem_slice.
  destruct (slice_range (shape0 a) f2 (-1 * f2)) as [r0 r1] eqn:Hr.
  destruct (slice_range (shape1 a) f2 (-1 * f2)) as [c0 c1] eqn:Hc.
  simpl. intros Hrr Hcc.
  apply slice_range_strip_start in Hr as (-> & _ & _); [|done|done|lia].
  apply slice_range_strip_start in Hc as (-> & _ & _); [|done|done|lia].
  done.
Qed.

(** On equal shapes the row-major position of a cell of one array is the
    same cell of the other. *)
Lemma flat_same_shape {A} (m : ndarray A) w r c :
  shape1 m = w -> 0 <= r -> 0 <= c < w -> flat m (r * w + c) = item m r c.
Proof.
  intros Hw Hr Hc. unfold flat. rewrite Hw.
  replace ((r * w + c) / w) with r.
  - replace ((r * w + c) mod w) with c; [done|].
    rewrite Z.add_comm, Z.mod_add by lia. symmetry. apply Z.mod_small. lia.
  - rewrite Z.div_add_l by lia. rewrite Z.div_small by lia. lia.
Qed.

(** ** C4: trimming and masking *)

(** [putmask] goes through exactly when the two stripped arrays have the same
    number of cells. *)
Lemma trim_and_mask_size f2 s_nodata (super_array new_data : ndarray float) :
  trim_and_mask f2 s_nodata super_array new_data =
    if size (strip_overlap super_array f2) =? size (strip_overlap new_data f2)
    then Ok (mk_ndarray
               (shape0 (strip_overlap new_data f2))
               (shape1 (strip_overlap new_data f2))
               (fun r c =>
                  if flat (eq_scalar (strip_overlap super_array f2) s_nodata)
                          (r * shape1 (strip_overlap new_data f2) + c)
                  then s_nodata
                  else item (strip_overlap new_data f2) r c))
    else Raise ValueError.
Proof. reflexivity. Qed.

Lemma strip_overlap_same_shape {A B} (a : ndarray A) (b : ndarray B) f2 :
  shape0 a = shape0 b -> shape1 a = shape1 b ->
  shape0 (strip_overlap a f2) = shape0 (strip_overlap b f2)
  /\ shape1 (strip_overlap a f2) = shape1 (strip_overlap b f2).
Proof.
  intros H0 H1. unfold strip_overlap, getitem_slice. rewrite H0, H1.
  destruct (slice_range (shape0 b) f2 (-1 * f2)),
           (slice_range (shape1 b) f2 (-1 * f2)). done.
Qed.

(** What [trim_and_mask] yields on two arrays of one shape. *)
Lemma trim_and_mask_same_shape f2 s_nodata
    (super_array new_data : ndarray float) :
  0 <= f2 ->
  0 <= shape0 super_array -> 0 <= shape1 super_array ->
  shape0 new_data = shape0 super_array ->
  shape1 new_data = shape1 super_array ->
  exists temp_array,
    trim_and_mask f2 s_nodata super_array new_data = Ok temp_array
    /\ shape0 temp_array = shape0 (strip_overlap super_array f2)
    /\ shape1 temp_array = shape1 (strip_overlap super_array f2)
    /\ (0 < f2 -> 2 * f2 <= shape0 super_array ->
        2 * f2 <= shape1 super_array ->
        shape0 temp_array = shape0 super_array - 2 * f2
        /\ shape1 temp_array = shape1 super_array - 2 * f2)
    /\ forall r c,
         0 <= r < shape0 temp_array -> 0 <= c < shape1 temp_array ->
         item temp_array r c =
           if PrimFloat.eqb (item super_array (f2 + r) (f2 + c)) s_nodata
           then s_nodata
           else item new_data (f2 + r) (f2 + c).
Proof.
  intros Hf Hs0 Hs1 H0 H1.
  destruct (strip_overlap_same_shape new_data super_array f2 H0 H1)
    as [E0 E1].
  rewrite trim_and_mask_size. unfold size. rewrite E0, E1, Z.eqb_refl.
  eexists. split; [reflexivity|]. cbn [shape0 shape1 item].
  split; [done|]. split; [done|]. split.
  - intros Hpos Hr Hc. by apply strip_overlap_shape.
  - intros r c Hr Hc.
    rewrite flat_same_shape by (cbn [eq_scalar shape1]; lia).
    cbn [eq_scalar item].
    rewrite !strip_overlap_item by lia. done.
Qed.

(** C4. For an operation output of the padded shape, the post-processing
    yields the output stripped of its overlap, in which a cell is the no-data
    value exactly where the cell of the stripped super array compares equal
    to [s_nodata], and is the cell the operation produced everywhere else. *)
Theorem nodata_mask_restored f2 s_nodata (super_array new_data : ndarray float) :
  0 <= f2 ->
  0 <= shape0 super_array -> 0 <= shape1 super_array ->
  shape0 new_data = shape0 super_array ->
  shape1 new_data = shape1 super_array ->
  exists temp_array,
    trim_and_mask f2 s_nodata super_array new_data = Ok temp_array
    /\ shape0 temp_array = shape0 (strip_overlap super_array f2)
    /\ shape1 temp_array = shape1 (strip_overlap super_array f2)
    /\ (0 < f2 -> 2 * f2 <= shape0 super_array ->
        2 * f2 <= shape1 super_array ->
        shape0 temp_array = shape0 super_array - 2 * f2
        /\ shape1 temp_array = shape1 super_array - 2 * f2)
    /\ forall r c,
         0 <= r < shape0 temp_array -> 0 <= c < shape1 temp_array ->
         item temp_array r c =
           if PrimFloat.eqb (item super_array (f2 + r) (f2 + c)) s_nodata
           then s_nodata
           else item new_data (f2 + r) (f2 + c).
Proof. apply trim_and_mask_same_shape. Qed.

Lemma nodata_mask_restored_witness :
  exists temp_array,
    trim_and_mask 1 0%float
      (of_rows [[0; 0; 0]; [0; 5; 0]; [0; 0; 0]]%float)
      (of_rows [[1; 2; 3]; [4; 7; 6]; [7; 8; 9]]%float) = Ok temp_array
    /\ shape0 temp_array = 1 /\ shape1 temp_array = 1
    /\ item temp_array 0 0 = 7%float.
Proof.
  destruct (nodata_mask_restored 1 0%float
              (of_rows [[0; 0; 0]; [0; 5; 0]; [0; 0; 0]]%float)
              (of_rows [[1; 2; 3]; [4; 7; 6]; [7; 8; 9]]%float))
    as (temp_array & Heq & H0 & H1 & _ & Hcell);
    [lia | by vm_compute | by vm_compute | reflexivity | reflexivity |].
  exists temp_array. split; [exact Heq|].
  split; [exact H0|]. split; [exact H1|].
  rewrite Hcell by (rewrite ?H0, ?H1; by vm_compute). reflexivity.
Defined.

(** ** The breaks of one axis *)

Lemma tiles_along_bounds dim chunk_size :
  0 < chunk_size -> 0 < dim ->
  0 < tiles_along dim chunk_size
  /\ (tiles_along dim chunk_size - 1) * chunk_size < dim
  /\ dim <= tiles_along dim chunk_size * chunk_size.
Proof.
  intros Hc Hd. unfold tiles_along.
  pose proof (Z.div_mod (dim - 1) chunk_size ltac:(lia)) as Hdm.
  pose proof (Z.mod_pos_bound (dim - 1) chunk_size Hc) as Hmod.
  pose proof (Z.div_pos (dim - 1) chunk_size ltac:(lia) Hc) as Hq.
  nia.
Qed.

Lemma splits_pos dim chunk_size :
  0 < chunk_size -> 0 < dim ->
  splits dim chunk_size =
    Ok (((fun i => 0 + i * chunk_size)
           <$> seqZ 0 (tiles_along dim chunk_size)) ++ [dim]).
Proof.
  intros Hc Hd. unfold splits, py_range, tiles_along.
  destruct (Z.eqb_spec chunk_size 0); [lia|].
  destruct (Z.ltb_spec 0 chunk_size); [|lia].
  destruct (Z.ltb_spec 0 dim); [|lia].
  simpl. by replace (dim - 0 - 1) with (dim - 1) by lia.
Qed.

Section Axis.
Context (dim chunk_size : Z) (breaks : list Z).
Hypothesis Hchunk : 0 < chunk_size.
Hypothesis Hdim : 0 < dim.
Hypothesis Hbreaks : splits dim chunk_size = Ok breaks.

Lemma breaks_eq :
  breaks = ((fun i => 0 + i * chunk_size) <$> seqZ 0 (tiles_along dim chunk_size)) ++ [dim].
Proof using Hchunk Hdim Hbreaks.
  rewrite splits_pos in Hbreaks by done. by injection Hbreaks as <-.
Qed.

Lemma breaks_length : length breaks = S (Z.to_nat (tiles_along dim chunk_size)).
Proof using Hchunk Hdim Hbreaks.
  rewrite breaks_eq, length_app, length_fmap, length_seqZ. simpl. lia.
Qed.

Lemma breaks_lookup (i : nat) :
  Z.of_nat i < (tiles_along dim chunk_size) -> breaks !!! i = Z.of_nat i * chunk_size.
Proof using Hchunk Hdim Hbreaks.
  intros Hi. apply list_lookup_total_correct.
  rewrite breaks_eq, lookup_app_l
    by (rewrite length_fmap, length_seqZ; lia).
  rewrite list_lookup_fmap.
  rewrite (proj2 (lookup_seqZ 0 (tiles_along dim chunk_size) i (0 + Z.of_nat i))) by lia.
  simpl. done.
Qed.

Lemma breaks_lookup_last : breaks !!! Z.to_nat (tiles_along dim chunk_size) = dim.
Proof using Hchunk Hdim Hbreaks.
  apply list_lookup_total_correct.
  rewrite breaks_eq, lookup_app_r
    by (rewrite length_fmap, length_seqZ; lia).
  rewrite length_fmap, length_seqZ, Nat.sub_diag. done.
Qed.

(** The end of chunk [i]: the next multiple of the chunk size, or the
    dimension for the last chunk. *)
Lemma breaks_lookup_next (i : nat) :
  Z.of_nat i < (tiles_along dim chunk_size) ->
  breaks !!! S i =
    if Z.of_nat i + 1 <? (tiles_along dim chunk_size) then (Z.of_nat i + 1) * chunk_size else dim.
Proof using Hchunk Hdim Hbreaks.
  intros Hi. destruct (Z.ltb_spec (Z.of_nat i + 1) (tiles_along dim chunk_size)) as [Hlt|Hge].
  - rewrite breaks_lookup by lia. lia.
  - replace (S i) with (Z.to_nat (tiles_along dim chunk_size)) by lia. apply breaks_lookup_last.
Qed.

(** Chunk [i] of the axis holds exactly the cells whose quotient by the
    chunk size is [i]. *)
Lemma axis_tile_cells (i : nat) (x : Z) :
  Z.of_nat i < (tiles_along dim chunk_size) ->
  breaks !!! i <= x < breaks !!! S i
  <-> 0 <= x < dim /\ x / chunk_size = Z.of_nat i.
Proof using Hchunk Hdim Hbreaks.
  intros Hi. rewrite breaks_lookup, breaks_lookup_next by done.
  pose proof (tiles_along_bounds dim chunk_size Hchunk Hdim) as (Hk & Hlo & Hhi).
  pose proof (Z.div_mod x chunk_size ltac:(lia)) as Hdm.
  pose proof (Z.mod_pos_bound x chunk_size Hchunk) as Hmod.
  destruct (Z.ltb_spec (Z.of_nat i + 1) (tiles_along dim chunk_size)) as [Hlt|Hge]; split.
  - intros Hx. split; [nia|]. nia.
  - intros [Hx Hq]. nia.
  - intros Hx. split; [nia|]. nia.
  - intros [Hx Hq]. nia.
Qed.

Lemma axis_tile_nonempty (i : nat) :
  Z.of_nat i < (tiles_along dim chunk_size) ->
  0 <= breaks !!! i /\ breaks !!! i < breaks !!! S i /\ breaks !!! S i <= dim.
Proof using Hchunk Hdim Hbreaks.
  intros Hi. rewrite breaks_lookup, breaks_lookup_next by done.
  pose proof (tiles_along_bounds dim chunk_size Hchunk Hdim) as (Hk & Hlo & Hhi).
  destruct (Z.ltb_spec (Z.of_nat i + 1) (tiles_along dim chunk_size)); nia.
Qed.

Lemma axis_quotient_bound (x : Z) :
  0 <= x < dim -> 0 <= x / chunk_size < (tiles_along dim chunk_size).
Proof using Hchunk Hdim.
  intros Hx. unfold tiles_along.
  pose proof (Z.div_le_mono x (dim - 1) chunk_size Hchunk ltac:(lia)).
  pose proof (Z.div_pos x chunk_size ltac:(lia) Hchunk). lia.
Qed.
End Axis.

(** ** The list built by the two nested loops *)

Lemma grid_length {A} ni nj (g : nat -> nat -> A) :
  length (grid ni nj g) = (ni * nj)%nat.
Proof.
  induction ni as [|n IH]; [done|].
  simpl. rewrite length_app, length_fmap, length_seq, IH. lia.
Qed.

Lemma grid_lookup {A} ni nj (g : nat -> nat -> A) (p : nat) (x : A) :
  grid ni nj g !! p = Some x
  <-> exists i j : nat,
        (i < ni)%nat /\ (j < nj)%nat /\ p = (i * nj + j)%nat /\ x = g i j.
Proof.
  induction ni as [|n IH].
  - simpl. split; [done|]. intros (i & j & Hi & _). lia.
  - simpl. rewrite lookup_app_Some, IH, grid_length, list_lookup_fmap.
    split.
    + intros [(i & j & Hi & Hj & Hp & Hx) | [Hle Hl]].
      * exists i, j. repeat split; try done. lia.
      * destruct (seq 0 nj !! (p - n * nj)%nat) as [j|] eqn:Hj; [|done].
        apply lookup_seq in Hj as [-> Hj]. injection Hl as <-.
        exists n, (p - n * nj)%nat. repeat split; lia.
    + intros (i & j & Hi & Hj & Hp & Hx).
      destruct (decide (i = n)) as [->|Hne].
      * right. split; [lia|].
        replace (p - n * nj)%nat with j by lia.
        rewrite (proj2 (lookup_seq 0 nj j j)) by lia. by rewrite Hx.
      * left. exists i, j. repeat split; try done. lia.
Qed.

Lemma elem_of_grid {A} ni nj (g : nat -> nat -> A) (x : A) :
  x ∈ grid ni nj g
  <-> exists i j : nat, (i < ni)%nat /\ (j < nj)%nat /\ x = g i j.
Proof.
  rewrite list_elem_of_lookup. split.
  - intros (p & Hp). apply grid_lookup in Hp as (i & j & Hi & Hj & _ & Hx).
    eauto.
  - intros (i & j & Hi & Hj & Hx). exists (i * nj + j)%nat.
    apply grid_lookup. exists i, j. done.
Qed.

Section Iterables.
Context (R : run_info) (row_splits col_splits : list Z).

Local Abbreviation ni := (length row_splits - 1)%nat.
Local Abbreviation nj := (length col_splits - 1)%nat.
Local Abbreviation total_chunks :=
  ((Z.of_nat (length row_splits) - 1) * (Z.of_nat (length col_splits) - 1)).

Lemma inner_loop (i n : nat) (progress : Z) (iterables : list Chunk.t) :
  fold_left
    (fun '(progress, iterables) j =>
       let progress := progress + 1 in
       (progress,
        iterables ++
          [make_chunk R row_splits col_splits total_chunks i j progress]))
    (seq 0 n) (progress, iterables)
  = (progress + Z.of_nat n,
     iterables ++
       ((fun j => make_chunk R row_splits col_splits total_chunks i j
                    (progress + Z.of_nat j + 1)) <$> seq 0 n)).
Proof.
  induction n as [|n IH].
  - simpl. f_equal; [lia|]. by rewrite app_nil_r.
  - rewrite seq_S, fold_left_app, IH. simpl.
    rewrite fmap_app, app_assoc. simpl.
    f_equal. lia.
Qed.

Lemma outer_loop (m : nat) :
  fold_left
    (fun st i =>
       fold_left
         (fun '(progress, iterables) j =>
            let progress := progress + 1 in
            (progress,
             iterables ++
               [make_chunk R row_splits col_splits total_chunks
                           i j progress]))
         (seq 0 nj) st)
    (seq 0 m) (0, [])
  = (Z.of_nat (m * nj), grid m nj (chunk_at R row_splits col_splits)).
Proof.
  induction m as [|m IH]; [done|].
  rewrite seq_S, fold_left_app, IH. simpl.
  rewrite inner_loop. f_equal; [lia|]. f_equal.
  apply list_fmap_ext. intros _ j _. unfold chunk_at.
  f_equal. lia.
Qed.

Lemma make_iterables_grid :
  make_iterables R row_splits col_splits = grid ni nj (chunk_at R row_splits col_splits).
Proof. unfold make_iterables. by rewrite outer_loop. Qed.
End Iterables.

(** ** The chunks of a run *)

Section Chunks.
Context (R : run_info) (chunk_size : Z) (iterables : list Chunk.t).
Hypothesis Hchunk : 0 < chunk_size.
Hypothesis Hrows : 0 < run_rows R.
Hypothesis Hcols : 0 < run_cols R.
Hypothesis Hiter : chunks_of R chunk_size = Ok iterables.

Local Abbreviation ki := (tiles_along (run_rows R) chunk_size).
Local Abbreviation kj := (tiles_along (run_cols R) chunk_size).

(** The chunks are a grid over the breaks of the two axes. *)
Lemma chunks_of_grid :
  exists row_splits col_splits,
    splits (run_rows R) chunk_size = Ok row_splits
    /\ splits (run_cols R) chunk_size = Ok col_splits
    /\ iterables =
         grid (Z.to_nat ki) (Z.to_nat kj) (chunk_at R row_splits col_splits).
Proof using Hchunk Hrows Hcols Hiter.
  unfold chunks_of in Hiter.
  destruct (splits (run_rows R) chunk_size) as [row_splits|] eqn:Hr;
    [|by rewrite splits_pos in Hr].
  destruct (splits (run_cols R) chunk_size) as [col_splits|] eqn:Hc;
    [|by rewrite splits_pos in Hc].
  simpl in Hiter. injection Hiter as <-.
  exists row_splits, col_splits. split; [done|]. split; [done|].
  rewrite make_iterables_grid.
  rewrite (breaks_length _ _ _ Hchunk Hrows Hr).
  rewrite (breaks_length _ _ _ Hchunk Hcols Hc).
  f_equal; lia.
Qed.

(** What a chunk at position [p] of the list is. *)
Lemma chunks_of_lookup (p : nat) (ch : Chunk.t) :
  iterables !! p = Some ch ->
  exists (i j : nat) row_splits col_splits,
    splits (run_rows R) chunk_size = Ok row_splits
    /\ splits (run_cols R) chunk_size = Ok col_splits
    /\ Z.of_nat i < ki /\ Z.of_nat j < kj
    /\ p = (i * Z.to_nat kj + j)%nat
    /\ ch = chunk_at R row_splits col_splits i j.
Proof using Hchunk Hrows Hcols Hiter.
  destruct chunks_of_grid as (row_splits & col_splits & Hr & Hc & ->).
  intros (i & j & Hi & Hj & Hp & Hx)%grid_lookup.
  exists i, j, row_splits, col_splits. repeat split; try done; lia.
Qed.

(** Every chunk carries the values of the run and a non-empty rectangle
    inside the raster. *)
Lemma chunk_fields (ch : Chunk.t) :
  ch ∈ iterables ->
  Chunk.f2 ch = run_f2 R
  /\ Chunk.rows ch = run_rows R
  /\ Chunk.cols ch = run_cols R
  /\ Chunk.s_nodata ch = run_s_nodata R
  /\ Chunk.in_dem_path ch = run_in_dem_path R
  /\ Chunk.out_dem_path ch = run_out_dem_path R
  /\ 0 <= Chunk.x_start ch /\ Chunk.x_start ch < Chunk.x_end ch
  /\ Chunk.x_end ch <= run_cols R
  /\ 0 <= Chunk.y_start ch /\ Chunk.y_start ch < Chunk.y_end ch
  /\ Chunk.y_end ch <= run_rows R.
Proof using Hchunk Hrows Hcols Hiter.
  intros (p & Hp)%list_elem_of_lookup.
  apply chunks_of_lookup in Hp
    as (i & j & row_splits & col_splits & Hr & Hc & Hi & Hj & _ & ->).
  pose proof (axis_tile_nonempty _ _ _ Hchunk Hrows Hr i Hi).
  pose proof (axis_tile_nonempty _ _ _ Hchunk Hcols Hc j Hj).
  simpl. repeat split; tauto.
Qed.

(** A chunk holds exactly the cells whose row and column quotients by the
    chunk size are its row and column numbers. *)
Lemma chunk_at_contains row_splits col_splits (i j : nat) (r c : Z) :
  splits (run_rows R) chunk_size = Ok row_splits ->
  splits (run_cols R) chunk_size = Ok col_splits ->
  Z.of_nat i < ki -> Z.of_nat j < kj ->
  contains (chunk_at R row_splits col_splits i j) r c
  <-> (0 <= r < run_rows R /\ r / chunk_size = Z.of_nat i)
      /\ (0 <= c < run_cols R /\ c / chunk_size = Z.of_nat j).
Proof using Hchunk Hrows Hcols.
  intros Hr Hc Hi Hj. unfold contains. simpl.
  rewrite (axis_tile_cells _ _ _ Hchunk Hrows Hr i r Hi).
  rewrite (axis_tile_cells _ _ _ Hchunk Hcols Hc j c Hj).
  done.
Qed.

(** Partition coverage. *)
Lemma chunks_partition :
  tiles_partition (run_rows R) (run_cols R) iterables.
Proof using Hchunk Hrows Hcols Hiter.
  split; [|split].
  - intros p q a b r c Ha Hb Hca Hcb.
    apply chunks_of_lookup in Ha
      as (i & j & rs & cs & Hr & Hc & Hi & Hj & -> & ->).
    apply chunks_of_lookup in Hb
      as (i' & j' & rs' & cs' & Hr' & Hc' & Hi' & Hj' & -> & ->).
    apply chunk_at_contains in Hca; [|done..].
    apply chunk_at_contains in Hcb; [|done..].
    assert (i = i') as -> by lia. assert (j = j') as -> by lia. done.
  - intros r c Hr Hc.
    destruct chunks_of_grid as (rs & cs & Hrs & Hcs & Hl).
    pose proof (axis_quotient_bound _ _ Hchunk Hrows r Hr) as Hi.
    pose proof (axis_quotient_bound _ _ Hchunk Hcols c Hc) as Hj.
    exists (chunk_at R rs cs (Z.to_nat (r / chunk_size))
                             (Z.to_nat (c / chunk_size))).
    split.
    + rewrite Hl. apply elem_of_grid. eexists _, _.
      split; [|split; [|reflexivity]]; lia.
    + apply chunk_at_contains; [done|done|lia|lia|]. lia.
  - intros a r c (p & Hp)%list_elem_of_lookup Hca.
    apply chunks_of_lookup in Hp
      as (i & j & rs & cs & Hr & Hc & Hi & Hj & _ & ->).
    apply chunk_at_contains in Hca; [|done..]. lia.
Qed.
End Chunks.

(** ** The write of a chunk *)

(** The super array has the extent of the chunk plus [f2] on every side,
    whatever the edge logic decides. *)
Lemma super_array_size ch :
  x_size (super_array_geometry ch)
    = Chunk.x_end ch - Chunk.x_start ch + 2 * Chunk.f2 ch
  /\ y_size (super_array_geometry ch)
    = Chunk.y_end ch - Chunk.y_start ch + 2 * Chunk.f2 ch.
Proof.
  unfold super_array_geometry.
  repeat match goal with |- context [if ?b then _ else _] => destruct b end;
    done.
Qed.

Lemma WriteArray_ok path fh array xoff yoff w :
  0 <= xoff -> 0 <= yoff -> 1 <= shape0 array -> 1 <= shape1 array ->
  shape1 array + xoff <= shape1 (band fh) ->
  shape0 array + yoff <= shape0 (band fh) ->
  WriteArray path fh array xoff yoff w =
    (Ok tt,
     mk_world (<[path := written fh array xoff yoff]> (files w)) (exe_log w)).
Proof.
  intros. unfold WriteArray.
  destruct (Z.gtb_spec (shape1 array + xoff) (shape1 (band fh))); [lia|].
  destruct (Z.gtb_spec (shape0 array + yoff) (shape0 (band fh))); [lia|].
  destruct (Z.ltb_spec (shape1 array) 1); [lia|].
  destruct (Z.ltb_spec (shape0 array) 1); [lia|].
  destruct (Z.ltb_spec xoff 0); [lia|].
  destruct (Z.ltb_spec yoff 0); [lia|].
  reflexivity.
Qed.

(** An array without cells that does not reach beyond the raster is
    skipped. *)
Lemma WriteArray_empty path fh array xoff yoff w :
  shape0 array = 0 -> shape1 array = 0 ->
  xoff <= shape1 (band fh) -> yoff <= shape0 (band fh) ->
  WriteArray path fh array xoff yoff w = (Ok tt, w).
Proof.
  intros H0 H1 Hx Hy. unfold WriteArray. rewrite H0, H1.
  destruct (Z.gtb_spec (0 + xoff) (shape1 (band fh))); [lia|].
  destruct (Z.gtb_spec (0 + yoff) (shape0 (band fh))); [lia|].
  reflexivity.
Qed.

Lemma write_back_unfold ch super_array new_data temp_array t_fh w :
  trim_and_mask (Chunk.f2 ch) (Chunk.s_nodata ch) super_array new_data
    = Ok temp_array ->
  files w !! Chunk.out_dem_path ch = Some t_fh ->
  write_back ch super_array new_data w =
    WriteArray (Chunk.out_dem_path ch) t_fh temp_array
               (Chunk.x_start ch) (Chunk.y_start ch) w.
Proof.
  intros Ht Hf. unfold write_back, bindM, liftR, gdal_Open.
  rewrite Ht, Hf. reflexivity.
Qed.

(** A failing [putmask] ends the chunk before the target is opened. *)
Lemma write_back_raise ch super_array new_data e w :
  trim_and_mask (Chunk.f2 ch) (Chunk.s_nodata ch) super_array new_data
    = Raise e ->
  write_back ch super_array new_data w = (Raise e, w).
Proof.
  intros Ht. unfold write_back, bindM, liftR. rewrite Ht. reflexivity.
Qed.

(** With a positive overlap, a chunk inside the raster writes its own
    extent at its own offset. *)
Lemma chunk_writes_native_extent (ch : Chunk.t) :
  0 < Chunk.f2 ch ->
  0 <= Chunk.x_start ch -> Chunk.x_start ch < Chunk.x_end ch ->
  Chunk.x_end ch <= Chunk.cols ch ->
  0 <= Chunk.y_start ch -> Chunk.y_start ch < Chunk.y_end ch ->
  Chunk.y_end ch <= Chunk.rows ch ->
  writes_native_extent ch.
Proof.
  intros Hf Hx0 Hx1 Hx2 Hy0 Hy1 Hy2.
  intros super_array new_data w t_fh [Hs0 Hs1] [Hn0 Hn1] Hfile Hr Hc.
  destruct (super_array_size ch) as [Hxs Hys].
  rewrite Hys in Hs0, Hn0. rewrite Hxs in Hs1, Hn1.
  destruct (trim_and_mask_same_shape (Chunk.f2 ch) (Chunk.s_nodata ch)
              super_array new_data)
    as (temp_array & Heq & _ & _ & Hshape & _); [lia..|].
  destruct Hshape as [Ht0 Ht1]; [lia..|].
  exists temp_array. split; [done|].
  split; [lia|]. split; [lia|].
  eexists _, _. split; [|split].
  - rewrite (write_back_unfold _ _ _ _ _ _ Heq Hfile).
    apply WriteArray_ok; lia.
  - simpl. apply lookup_insert_eq.
  - intros r c. simpl. unfold containsb.
    replace (Chunk.y_start ch + shape0 temp_array) with (Chunk.y_end ch)
      by lia.
    replace (Chunk.x_start ch + shape1 temp_array) with (Chunk.x_end ch)
      by lia.
    done.
Qed.

Lemma trim_and_mask_shape f2 s_nodata super_array new_data temp_array :
  trim_and_mask f2 s_nodata super_array new_data = Ok temp_array ->
  shape0 temp_array = shape0 (strip_overlap new_data f2)
  /\ shape1 temp_array = shape1 (strip_overlap new_data f2).
Proof.
  rewrite trim_and_mask_size.
  destruct (_ =? _); [|done]. by intros [= <-].
Qed.

(** ** C1: partition coverage and write rectangles *)

(** C1 as stated fails. With [overlap = 0] (so [f2 = 0]) on a raster of 2
    by 2 cut into chunks of 1, the stripped array of the first chunk has no
    cells, not the chunk's extent of 1 by 1.  And with a chunk size of -1 on
    a raster of 3 by 3 the list of chunks is empty, so that no chunk holds
    the cell at the origin. *)
Lemma partition_write_claim_fails :
  ~ partition_write_claim (demo_run 2 2 (2 * 0)) 1
  /\ ~ partition_write_claim (demo_run 3 3 (2 * 1)) (-1).
Proof.
  split.
  - intros Hclaim.
    destruct Hclaim as (iterables & Hiter & _ & Hwrite); [simpl; lia..|].
    vm_compute in Hiter. injection Hiter as <-.
    match type of Hwrite with
    | forall ch, ch ∈ ?c :: _ -> _ =>
        specialize (Hwrite c (list_elem_of_here _ _))
    end.
    destruct (Hwrite (mk_ndarray 1 1 (fun _ _ => 1%float))
                     (mk_ndarray 1 1 (fun _ _ => 1%float))
                     (demo_world 2 2) (flat_raster 2 2 0%float))
      as (temp_array & Heq & H0 & _); [by split|by split|done|done|done|].
    apply trim_and_mask_shape in Heq as [Hs _].
    cbn [Chunk.f2] in Hs.
    rewrite (proj1 (strip_overlap_zero _)) in Hs.
    simpl in H0. lia.
  - intros Hclaim.
    destruct Hclaim as (iterables & Hiter & (_ & Hcover & _) & _);
      [simpl; lia..|].
    vm_compute in Hiter. injection Hiter as <-.
    destruct (Hcover 0 0) as (a & Ha & _); [simpl; lia..|].
    by apply elem_of_nil in Ha.
Qed.

(** C1 (amended). For a positive chunk size and a positive overlap, on a
    raster whose two dimensions exceed the chunk size: the chunks of
    [ParallelRCP] are half-open rectangles that share no cell and cover
    exactly the raster, and for an operation output of the padded shape each
    chunk's stripped result has the chunk's own extent and is written at
    [(x_start, y_start)], so that the target holds it on the rectangle of the
    chunk and is unchanged elsewhere. *)
Theorem tiles_partition_and_write (R : run_info) (chunk_size overlap : Z) :
  0 < chunk_size -> 0 < overlap -> run_f2 R = 2 * overlap ->
  partition_write_claim R chunk_size.
Proof.
  intros Hchunk Hov Hf2 Hrows Hcols.
  assert (0 < run_rows R) as Hr by lia.
  assert (0 < run_cols R) as Hc by lia.
  destruct (chunks_of R chunk_size) as [iterables|] eqn:Hiter; last first.
  { unfold chunks_of in Hiter. rewrite !splits_pos in Hiter by done. done. }
  exists iterables. split; [done|]. split.
  - by apply (chunks_partition R chunk_size).
  - intros ch Hch.
    destruct (chunk_fields R chunk_size iterables Hchunk Hr Hc Hiter ch Hch)
      as (Hf & Hrw & Hcl & _ & _ & _ & ?).
    apply chunk_writes_native_extent; lia.
Qed.

Lemma tiles_partition_and_write_witness :
  exists iterables,
    chunks_of (demo_run 9 9 2) 4 = Ok iterables
    /\ tiles_partition 9 9 iterables
    /\ forall ch, ch ∈ iterables -> writes_native_extent ch.
Proof.
  apply (tiles_partition_and_write (demo_run 9 9 2) 4 1);
    [lia | lia | reflexivity | simpl; lia | simpl; lia].
Defined.

(** ** C2: the super array of the corner chunk *)

Lemma super_array_geometry_axes ch :
  super_array_geometry ch =
    let '(rxo, rxs, sxs, sxe) :=
      edge_logic (Chunk.x_start ch) (Chunk.x_end ch) (Chunk.f2 ch)
                 (Chunk.cols ch) in
    let '(ryo, rys, sys, sye) :=
      edge_logic (Chunk.y_start ch) (Chunk.y_end ch) (Chunk.f2 ch)
                 (Chunk.rows ch) in
    mk_geometry (Chunk.x_end ch - Chunk.x_start ch + 2 * Chunk.f2 ch)
                (Chunk.y_end ch - Chunk.y_start ch + 2 * Chunk.f2 ch)
                rxo ryo rxs rys sxs sxe sys sye.
Proof.
  unfold super_array_geometry, edge_logic.
  repeat match goal with |- context [if ?b then _ else _] => destruct b end;
    reflexivity.
Qed.

(** One axis of a chunk that starts at the raster's edge: if the resolved
    read lies inside the raster, it starts at 0, extends [f2] beyond the
    chunk's end, and is pasted behind the first [f2] cells of the super
    array. *)
Lemma edge_logic_corner (end_ f2 dim : Z) ro rs ss se :
  0 <= f2 ->
  edge_logic 0 end_ f2 dim = (ro, rs, ss, se) ->
  1 <= rs -> ro + rs <= dim ->
  ro = 0 /\ rs = end_ + f2
  /\ slice_range (end_ + 2 * f2) ss se = (f2, end_ + 2 * f2).
Proof.
  intros Hf. unfold edge_logic, slice_range, slice_bound.
  destruct (Z.ltb_spec (0 - f2) 0).
  - intros [= <- <- <- <-] Hrs Hdim.
    destruct (Z.ltb_spec f2 0); [lia|].
    destruct (Z.ltb_spec (end_ - 0 + 2 * f2) 0); [lia|].
    split; [done|]. split; [lia|]. f_equal; lia.
  - assert (f2 = 0) as -> by lia.
    destruct (Z.gtb_spec (0 - 0 + (end_ - 0 + 2 * 0)) dim).
    + intros [= <- <- <- <-] Hrs Hdim. lia.
    + intros [= <- <- <- <-] Hrs Hdim.
      destruct (Z.ltb_spec (end_ - 0 + 2 * 0) 0); [lia|].
      simpl. split; [done|]. split; [lia|]. f_equal; lia.
Qed.

(** The same axis when the read is known to fit. *)
Lemma edge_logic_corner_fits (end_ f2 dim : Z) :
  0 <= f2 -> 1 <= end_ + f2 -> end_ + f2 <= dim ->
  exists ss se,
    edge_logic 0 end_ f2 dim = (0, end_ + f2, ss, se).
Proof.
  intros Hf He Hd. unfold edge_logic.
  destruct (Z.ltb_spec (0 - f2) 0).
  - eexists _, _. f_equal. f_equal. f_equal. lia.
  - assert (f2 = 0) as -> by lia.
    destruct (Z.gtb_spec (0 - 0 + (end_ - 0 + 2 * 0)) dim); [lia|].
    eexists _, _. f_equal. f_equal. f_equal. lia.
Qed.

Lemma ReadAsArray_Ok fh xoff yoff xsize ysize a :
  ReadAsArray fh xoff yoff xsize ysize = Ok a ->
  (0 <= xoff /\ 0 <= yoff /\ 1 <= xsize /\ 1 <= ysize
   /\ xoff + xsize <= shape1 (band fh) /\ yoff + ysize <= shape0 (band fh))
  /\ a = mk_ndarray ysize xsize
           (fun r c => item (band fh) (yoff + r) (xoff + c)).
Proof.
  unfold ReadAsArray.
  destruct (Z.ltb_spec xoff 0), (Z.ltb_spec yoff 0), (Z.ltb_spec xsize 1),
    (Z.ltb_spec ysize 1), (Z.gtb_spec (xoff + xsize) (shape1 (band fh))),
    (Z.gtb_spec (yoff + ysize) (shape0 (band fh))); simpl; try done.
  intros [= <-]. split; [lia|done].
Qed.

Lemma ReadAsArray_fits fh xoff yoff xsize ysize :
  0 <= xoff -> 0 <= yoff -> 1 <= xsize -> 1 <= ysize ->
  xoff + xsize <= shape1 (band fh) -> yoff + ysize <= shape0 (band fh) ->
  ReadAsArray fh xoff yoff xsize ysize =
    Ok (mk_ndarray ysize xsize
          (fun r c => item (band fh) (yoff + r) (xoff + c))).
Proof.
  intros. unfold ReadAsArray.
  destruct (Z.ltb_spec xoff 0), (Z.ltb_spec yoff 0), (Z.ltb_spec xsize 1),
    (Z.ltb_spec ysize 1), (Z.gtb_spec (xoff + xsize) (shape1 (band fh))),
    (Z.gtb_spec (yoff + ysize) (shape0 (band fh))); simpl; try done; lia.
Qed.

Lemma broadcast_index_same n i : 0 <= i < n -> broadcast_index n i = i.
Proof. unfold broadcast_index. destruct (Z.eqb_spec n 1); lia. Qed.

(** The population of a corner chunk whose resolved read fits the raster. *)
Lemma read_super_array_corner (ch : Chunk.t) (w : world) (s_fh : raster) :
  Chunk.x_start ch = 0 -> Chunk.y_start ch = 0 -> 0 <= Chunk.f2 ch ->
  files w !! Chunk.in_dem_path ch = Some s_fh ->
  shape0 (band s_fh) = Chunk.rows ch -> shape1 (band s_fh) = Chunk.cols ch ->
  1 <= Chunk.x_end ch + Chunk.f2 ch ->
  Chunk.x_end ch + Chunk.f2 ch <= Chunk.cols ch ->
  1 <= Chunk.y_end ch + Chunk.f2 ch ->
  Chunk.y_end ch + Chunk.f2 ch <= Chunk.rows ch ->
  exists super_array,
    read_super_array ch w = (Ok super_array, w)
    /\ shape0 super_array = Chunk.y_end ch + 2 * Chunk.f2 ch
    /\ shape1 super_array = Chunk.x_end ch + 2 * Chunk.f2 ch
    /\ forall r c,
         0 <= r < shape0 super_array -> 0 <= c < shape1 super_array ->
         item super_array r c = item (corner_super_array ch s_fh) r c.
Proof.
  intros Hx Hy Hf Hfile Hs0 Hs1 Hx1 Hx2 Hy1 Hy2.
  unfold read_super_array. rewrite super_array_geometry_axes, Hx, Hy.
  destruct (edge_logic_corner_fits (Chunk.x_end ch) (Chunk.f2 ch)
              (Chunk.cols ch) Hf Hx1 Hx2) as (sxs & sxe & Hex).
  destruct (edge_logic_corner_fits (Chunk.y_end ch) (Chunk.f2 ch)
              (Chunk.rows ch) Hf Hy1 Hy2) as (sys & sye & Hey).
  destruct (edge_logic_corner _ _ _ _ _ _ _ Hf Hex Hx1 ltac:(lia))
    as (_ & _ & Hsx).
  destruct (edge_logic_corner _ _ _ _ _ _ _ Hf Hey Hy1 ltac:(lia))
    as (_ & _ & Hsy).
  rewrite Hex, Hey. cbn [x_size y_size read_x_off read_y_off read_x_size
    read_y_size sa_x_start sa_x_end sa_y_start sa_y_end].
  unfold bindM, gdal_Open, liftR. rewrite Hfile.
  rewrite ReadAsArray_fits by lia.
  unfold np_full.
  destruct (Z.ltb_spec (Chunk.y_end ch - 0 + 2 * Chunk.f2 ch) 0); [lia|].
  destruct (Z.ltb_spec (Chunk.x_end ch - 0 + 2 * Chunk.f2 ch) 0); [lia|].
  cbn [orb]. unfold setitem_slice. cbn [shape0 shape1 item].
  replace (Chunk.y_end ch - 0 + 2 * Chunk.f2 ch)
    with (Chunk.y_end ch + 2 * Chunk.f2 ch) by lia.
  replace (Chunk.x_end ch - 0 + 2 * Chunk.f2 ch)
    with (Chunk.x_end ch + 2 * Chunk.f2 ch) by lia.
  rewrite Hsx, Hsy. unfold broadcastable.
  destruct (Z.eqb_spec (Chunk.y_end ch + Chunk.f2 ch)
              (Chunk.y_end ch + 2 * Chunk.f2 ch - Chunk.f2 ch)); [|lia].
  destruct (Z.eqb_spec (Chunk.x_end ch + Chunk.f2 ch)
              (Chunk.x_end ch + 2 * Chunk.f2 ch - Chunk.f2 ch)); [|lia].
  cbn [orb andb]. eexists. split; [reflexivity|].
  cbn [shape0 shape1 item]. split; [done|]. split; [done|].
  intros r c Hr Hc. unfold corner_super_array. cbn [item].
  destruct (Z.leb_spec (Chunk.f2 ch) r), (Z.ltb_spec r (Chunk.f2 ch));
    try lia; cbn [andb orb]; [|done].
  destruct (Z.ltb_spec r (Chunk.y_end ch + 2 * Chunk.f2 ch)); [|lia].
  destruct (Z.leb_spec (Chunk.f2 ch) c), (Z.ltb_spec c (Chunk.f2 ch));
    try lia; cbn [andb orb]; [|done].
  destruct (Z.ltb_spec c (Chunk.x_end ch + 2 * Chunk.f2 ch)); [|lia].
  rewrite !broadcast_index_same by lia. done.
Qed.

(** A population that completes has read a window inside the raster. *)
Lemma read_super_array_corner_fits (ch : Chunk.t) (w w' : world)
    (s_fh : raster) (super_array : ndarray float) :
  Chunk.x_start ch = 0 -> Chunk.y_start ch = 0 -> 0 <= Chunk.f2 ch ->
  files w !! Chunk.in_dem_path ch = Some s_fh ->
  shape0 (band s_fh) = Chunk.rows ch -> shape1 (band s_fh) = Chunk.cols ch ->
  read_super_array ch w = (Ok super_array, w') ->
  (1 <= Chunk.x_end ch + Chunk.f2 ch
   /\ Chunk.x_end ch + Chunk.f2 ch <= Chunk.cols ch)
  /\ (1 <= Chunk.y_end ch + Chunk.f2 ch
      /\ Chunk.y_end ch + Chunk.f2 ch <= Chunk.rows ch).
Proof.
  intros Hx Hy Hf Hfile Hs0 Hs1.
  unfold read_super_array. rewrite super_array_geometry_axes, Hx, Hy.
  destruct (edge_logic 0 (Chunk.x_end ch) (Chunk.f2 ch) (Chunk.cols ch))
    as [[[rxo rxs] sxs] sxe] eqn:Hex.
  destruct (edge_logic 0 (Chunk.y_end ch) (Chunk.f2 ch) (Chunk.rows ch))
    as [[[ryo rys] sys] sye] eqn:Hey.
  cbn [x_size y_size read_x_off read_y_off read_x_size
    read_y_size sa_x_start sa_x_end sa_y_start sa_y_end].
  unfold bindM at 1. unfold gdal_Open. rewrite Hfile.
  unfold bindM at 1. unfold liftR at 1.
  destruct (ReadAsArray s_fh rxo ryo rxs rys) as [read_array|e] eqn:Hread;
    [|done].
  intros _. apply ReadAsArray_Ok in Hread as [Hb _].
  rewrite Hs0, Hs1 in Hb.
  destruct (edge_logic_corner _ _ _ _ _ _ _ Hf Hex ltac:(lia) ltac:(lia))
    as (-> & -> & _).
  destruct (edge_logic_corner _ _ _ _ _ _ _ Hf Hey ltac:(lia) ltac:(lia))
    as (-> & -> & _).
  lia.
Qed.

(** C2. For a chunk at the top-left corner of the raster ([x_start = 0] and
    [y_start = 0]) with a halo [f2]: whenever the read and the paste into the
    no-data super array complete, the first [f2] rows and the first [f2]
    columns of the super array are the no-data value and every other cell is
    the cell of the source raster [f2] rows up and [f2] columns to the left;
    and they do complete whenever the chunk, extended by [f2], lies inside
    the raster. *)
Theorem corner_tile_keeps_sentinel (ch : Chunk.t) (w : world) (s_fh : raster) :
  Chunk.x_start ch = 0 -> Chunk.y_start ch = 0 -> 0 <= Chunk.f2 ch ->
  files w !! Chunk.in_dem_path ch = Some s_fh ->
  shape0 (band s_fh) = Chunk.rows ch -> shape1 (band s_fh) = Chunk.cols ch ->
  (forall super_array w',
     read_super_array ch w = (Ok super_array, w') ->
     w' = w
     /\ shape0 super_array = Chunk.y_end ch + 2 * Chunk.f2 ch
     /\ shape1 super_array = Chunk.x_end ch + 2 * Chunk.f2 ch
     /\ forall r c,
          0 <= r < shape0 super_array -> 0 <= c < shape1 super_array ->
          item super_array r c =
            if (r <? Chunk.f2 ch) || (c <? Chunk.f2 ch)
            then Chunk.s_nodata ch
            else item (band s_fh) (r - Chunk.f2 ch) (c - Chunk.f2 ch))
  /\ (0 < Chunk.x_end ch -> 0 < Chunk.y_end ch ->
      Chunk.x_end ch + Chunk.f2 ch <= Chunk.cols ch ->
      Chunk.y_end ch + Chunk.f2 ch <= Chunk.rows ch ->
      exists super_array, read_super_array ch w = (Ok super_array, w)).
Proof.
  intros Hx Hy Hf Hfile Hs0 Hs1. split.
  - intros super_array w' Hread.
    destruct (read_super_array_corner_fits ch w w' s_fh super_array
                Hx Hy Hf Hfile Hs0 Hs1 Hread) as [[Hx1 Hx2] [Hy1 Hy2]].
    destruct (read_super_array_corner ch w s_fh Hx Hy Hf Hfile Hs0 Hs1
                Hx1 Hx2 Hy1 Hy2) as (sa & Hsa & H0 & H1 & Hcells).
    rewrite Hsa in Hread. injection Hread as -> ->.
    split; [done|]. split; [done|]. split; [done|]. exact Hcells.
  - intros Hxe Hye Hx2 Hy2.
    destruct (read_super_array_corner ch w s_fh Hx Hy Hf Hfile Hs0 Hs1
                ltac:(lia) Hx2 ltac:(lia) Hy2) as (sa & Hsa & _).
    by exists sa.
Qed.

Lemma corner_tile_keeps_sentinel_witness :
  exists super_array,
    read_super_array demo_chunk (demo_world 9 9)
      = (Ok super_array, demo_world 9 9)
    /\ shape0 super_array = 8 /\ shape1 super_array = 8
    /\ item super_array 1 5 = (-9999)%float
    /\ item super_array 5 1 = (-9999)%float
    /\ item super_array 2 2 = 5%float.
Proof.
  destruct (corner_tile_keeps_sentinel demo_chunk (demo_world 9 9)
              (flat_raster 9 9 5%float))
    as [Hcells Hruns];
    [reflexivity | reflexivity | simpl; lia | reflexivity | reflexivity
    | reflexivity |].
  destruct Hruns as [super_array Hread]; [simpl; lia..|].
  exists super_array. split; [exact Hread|].
  destruct (Hcells super_array (demo_world 9 9) Hread)
    as (_ & H0 & H1 & Hitem).
  split; [exact H0|]. split; [exact H1|].
  rewrite !Hitem by (rewrite ?H0, ?H1; simpl; lia).
  repeat split; reflexivity.
Defined.

(** ** C3: the resolved read window *)

(** An axis on which the chunk starts at the raster's edge and ends within
    [f2] of the other edge: the branch for the near edge is taken, the far
    edge is not looked at, and the read extends [f2] beyond the chunk's end,
    outside the raster. *)
Lemma edge_logic_near_both_ends (end_ f2 dim : Z) :
  0 < f2 -> end_ + f2 > dim ->
  exists ro rs ss se,
    edge_logic 0 end_ f2 dim = (ro, rs, ss, se)
    /\ ro = 0 /\ rs = end_ + f2 /\ ro + rs > dim.
Proof.
  intros Hf Hhi. unfold edge_logic.
  destruct (Z.ltb_spec (0 - f2) 0); [|lia].
  eexists _, _, _, _. split; [reflexivity|]. lia.
Qed.

(** C3 fails on the code. On a raster of 5 by 5 with chunks of 4 and
    [overlap = 1] ([f2 = 2]), the first chunk spans columns and rows 0 to 4;
    it is within [f2] of both edges of each axis, the edge logic shortens the
    read on the near side only, and the resolved window of 6 by 6 at the
    origin reaches beyond the raster: the read fails. *)
Theorem read_window_leaves_raster :
  exists ch rest,
    chunks_of (demo_run 5 5 (2 * 1)) 4 = Ok (ch :: rest)
    /\ (Chunk.x_start ch, Chunk.x_end ch, Chunk.y_start ch, Chunk.y_end ch)
       = (0, 4, 0, 4)
    /\ (read_x_off (super_array_geometry ch),
        read_y_off (super_array_geometry ch),
        read_x_size (super_array_geometry ch),
        read_y_size (super_array_geometry ch)) = (0, 0, 6, 6)
    /\ read_x_off (super_array_geometry ch)
         + read_x_size (super_array_geometry ch) > Chunk.cols ch
    /\ read_super_array ch (demo_world 5 5)
       = (Raise RuntimeError, demo_world 5 5).
Proof.
  eexists _, _. split; [reflexivity|].
  split; [reflexivity|]. split; [reflexivity|].
  split; [by vm_compute|]. reflexivity.
Qed.

(** ** C5: a raster that fits one chunk *)

(** C5 fails on the code. When neither dimension exceeds the chunk size,
    [ParallelRCP] takes its empty [else] branch: whatever the outcome of the
    run, no chunk is processed, the external program is never run, and the
    only file that can differ is the target, newly created and never
    written. *)
Theorem small_raster_is_not_processed (E : env)
    (in_dem_path out_dem_path : string) (chunk_size overlap : Z)
    (method : string) (options : gmap string optval) (num_threads : Z)
    (verbose : bool) (w w' : world) (s_fh : raster) (res : result unit) :
  files w !! in_dem_path = Some s_fh ->
  shape0 (band s_fh) <= chunk_size -> shape1 (band s_fh) <= chunk_size ->
  ParallelRCP E in_dem_path out_dem_path chunk_size overlap method options
              num_threads verbose w = (res, w') ->
  exe_log w' = exe_log w
  /\ (files w' = files w
      \/ exists s_nodata,
           files w' =
             <[out_dem_path :=
                 mk_raster (mk_ndarray (shape0 (band s_fh))
                                       (shape1 (band s_fh))
                                       (fun _ _ => created_cell E))
                           (Some s_nodata) (pixel_height s_fh)]> (files w)).
Proof.
  intros Hfile Hr Hc. unfold ParallelRCP, bindM, liftR, gdal_Open.
  destruct (method_checks method options overlap) as [ov|e];
    [|intros [= <- <-]; auto].
  rewrite Hfile.
  destruct (nodata_value s_fh) as [s_nodata|]; cbn [ret raise];
    [|intros [= <- <-]; auto].
  destruct (bool_decide (is_Some (files w !! out_dem_path)));
    [intros [= <- <-]; auto|].
  destruct (if String.eqb method "skymodel" then _ else _) as [[options'|e] w1]
    eqn:Hopt.
  - assert (w1 = mk_world
              (<[out_dem_path :=
                   mk_raster (mk_ndarray (shape0 (band s_fh))
                                         (shape1 (band s_fh))
                                         (fun _ _ => created_cell E))
                             (Some s_nodata) (pixel_height s_fh)]> (files w))
              (exe_log w)) as ->.
    { destruct (String.eqb method "skymodel"); by injection Hopt as _ <-. }
    destruct (Z.gtb_spec (shape0 (band s_fh)) chunk_size); [lia|].
    cbn [andb]. intros [= <- <-]. eauto.
  - intros [= <- <-].
    destruct (String.eqb method "skymodel"); injection Hopt as _ <-; eauto.
Qed.

Lemma small_raster_is_not_processed_witness :
  exists w',
    ParallelRCP demo_env "in.tif" "new.tif" 4 1 "hillshade"
                {[ "az" := VInt 315; "alt" := VInt 45 ]} 1 false
                (demo_world 3 3) = (Ok tt, w')
    /\ exe_log w' = []
    /\ files w' = <["new.tif" := flat_raster 3 3 0%float]>
                    (files (demo_world 3 3)).
Proof.
  destruct (ParallelRCP demo_env "in.tif" "new.tif" 4 1 "hillshade"
              {[ "az" := VInt 315; "alt" := VInt 45 ]} 1 false
              (demo_world 3 3)) as [res w'] eqn:Hrun.
  destruct (small_raster_is_not_processed demo_env "in.tif" "new.tif" 4 1
              "hillshade" {[ "az" := VInt 315; "alt" := VInt 45 ]} 1 false
              (demo_world 3 3) w' (flat_raster 3 3 5%float) res)
    as [Hlog Hfiles];
    [reflexivity | simpl; lia | simpl; lia | exact Hrun |].
  exists w'.
  assert (res = Ok tt) as -> by (by injection Hrun as <- _).
  split; [reflexivity|]. split; [exact Hlog|].
  by injection Hrun as <-.
Defined.

(** ** C6: the all-no-data short circuit of [mdenoise] *)

(** [mdenoise] returns its input at once exactly when the mean of the input
    compares equal to the no-data value. *)
Lemma mdenoise_skips (E : env) s_nodata cell_size in_array t n v tile w :
  PrimFloat.eqb (np_mean in_array) s_nodata = true ->
  mdenoise E s_nodata cell_size in_array t n v tile w = (Ok in_array, w).
Proof. intros Hmean. unfold mdenoise. by rewrite Hmean. Qed.

(** Otherwise the external program is run, on the input written to the
    temporary source file. *)
Lemma mdenoise_runs (E : env) s_nodata cell_size in_array t n v tile w :
  PrimFloat.eqb (np_mean in_array) s_nodata = false ->
  exists res w',
    mdenoise E s_nodata cell_size in_array t n v tile w = (res, w')
    /\ exists rest,
         exe_log w' =
           exe_log w
           ++ mk_call mdenoise_path (mesh_paths E tile).1 t n v
                      (mesh_paths E tile).2 :: rest.
Proof.
  intros Hmean. unfold mdenoise. rewrite Hmean.
  destruct (mesh_paths E tile) as [temp_s_path temp_t_path].
  unfold bindM at 1. unfold WriteASC at 1.
  unfold bindM at 1. unfold check_output at 1. cbn [files exe_log fst snd].
  destruct (run_mdenoise E _ _) as [status fs].
  destruct (status =? 0).
  - unfold bindM at 1. unfold gdal_Open at 1. cbn [files].
    destruct (fs !! temp_t_path) as [temp_t_fh|].
    + unfold bindM, suppress, os_remove, ret. cbn [files exe_log].
      destruct (fs !! temp_s_path); cbn [files exe_log];
        [destruct (delete temp_s_path fs !! temp_t_path)|];
        cbn [files exe_log];
        eexists _, _; (split; [reflexivity|]); exists []; reflexivity.
    + eexists _, _. split; [reflexivity|]. exists []. reflexivity.
  - eexists _, _. split; [reflexivity|]. exists []. reflexivity.
Qed.

(** The comparison of the mean is inexact the other way round as well: three
    cells that all hold the no-data value [0x1.999999999999ap-4] (the double
    nearest to 0.1) have a mean one unit in the last place above it. *)
Lemma inexact_mean_misses_all_nodata :
  let nodata := 0x1.999999999999ap-4%float in
  PrimFloat.eqb (np_mean (of_rows [[nodata; nodata; nodata]])) nodata = false.
Proof. reflexivity. Qed.

(** C6 fails on the code in its second half. With no-data value 0, the array
    [[-1, 1]] has two cells that differ from the no-data value, yet its mean
    is 0: [mdenoise] returns it unchanged and the external program is not
    run (no file is written, nothing is added to the log). *)
Theorem mean_short_circuit_skips_valid_data (E : env) (cell_size : float)
    (t n v : optval) (tile : option string) (w : world) :
  let in_array := of_rows [[(-1)%float; 1%float]] in
  PrimFloat.eqb (item in_array 0 0) 0%float = false
  /\ PrimFloat.eqb (item in_array 0 1) 0%float = false
  /\ np_mean in_array = 0%float
  /\ mdenoise E 0%float cell_size in_array t n v tile w = (Ok in_array, w).
Proof.
  split; [reflexivity|]. split; [reflexivity|]. split; [reflexivity|].
  by apply mdenoise_skips.
Qed.

(** ** C7: an operation output of another shape *)

Lemma demo_chunk_is_first :
  exists rest, chunks_of (demo_run 9 9 2) 4 = Ok (demo_chunk :: rest).
Proof. eexists. reflexivity. Qed.

(** C7 as stated fails: for the first chunk of a 9 by 9 raster (a super
    array of 8 by 8), an operation output of 6 by 12 strips to 2 by 8, the
    same 16 cells as the stripped super array; [putmask] accepts it and the
    array is written at the chunk's offset without any exception. *)
Lemma shape_mismatch_written_silently :
  ~ shape_mismatch_fatal demo_chunk
      (mk_ndarray 8 8 (fun _ _ => 5%float))
      (mk_ndarray 6 12 (fun _ _ => 7%float))
      (demo_world 9 9).
Proof.
  intros Hclaim. destruct Hclaim as [e He]; [left; simpl; lia|].
  apply (f_equal fst) in He. vm_compute in He. discriminate He.
Qed.

(** What that run leaves in the target: the 2 by 8 block at the origin. *)
Lemma shape_mismatch_written_block :
  let '(res, w') :=
    write_back demo_chunk (mk_ndarray 8 8 (fun _ _ => 5%float))
               (mk_ndarray 6 12 (fun _ _ => 7%float)) (demo_world 9 9) in
  res = Ok tt
  /\ (take 3 <$> (to_rows <$> (band <$> files w' !! "out.tif")))
     = Some [[7; 7; 7; 7; 7; 7; 7; 7; 0];
             [7; 7; 7; 7; 7; 7; 7; 7; 0];
             [0; 0; 0; 0; 0; 0; 0; 0; 0]]%float.
Proof. split; reflexivity. Qed.

(** C7 (amended). If the operation output, stripped of [f2] on every side,
    has another number of cells than the stripped super array, the chunk ends
    with the [ValueError] of [putmask], before the target is opened, and no
    file is changed. *)
Theorem cell_count_mismatch_fatal (ch : Chunk.t)
    (super_array new_data : ndarray float) (w : world) :
  size (strip_overlap new_data (Chunk.f2 ch))
    <> size (strip_overlap super_array (Chunk.f2 ch)) ->
  write_back ch super_array new_data w = (Raise ValueError, w).
Proof.
  intros Hne. apply write_back_raise.
  rewrite trim_and_mask_size.
  destruct (Z.eqb_spec (size (strip_overlap super_array (Chunk.f2 ch)))
                       (size (strip_overlap new_data (Chunk.f2 ch))));
    [congruence|done].
Qed.

Lemma cell_count_mismatch_fatal_witness :
  write_back demo_chunk (mk_ndarray 8 8 (fun _ _ => 5%float))
             (mk_ndarray 8 9 (fun _ _ => 7%float)) (demo_world 9 9)
  = (Raise ValueError, demo_world 9 9).
Proof.
  apply (cell_count_mismatch_fatal demo_chunk). by vm_compute.
Defined.

(** ** C8: the overlap raised to twice the filter size *)

(** Every chunk of a run carries the [f2] of the run. *)
Lemma chunk_f2_of_run (R : run_info) (chunk_size : Z) iterables ch :
  chunks_of R chunk_size = Ok iterables -> ch ∈ iterables ->
  Chunk.f2 ch = run_f2 R.
Proof.
  unfold chunks_of.
  destruct (splits (run_rows R) chunk_size) as [row_splits|]; [|done].
  destruct (splits (run_cols R) chunk_size) as [col_splits|]; [|done].
  simpl. intros [= <-]. rewrite make_iterables_grid.
  intros (i & j & _ & _ & ->)%elem_of_grid. reflexivity.
Qed.

Lemma check_overlap_raised overlap options filter_size :
  options !! "filter_size" = Some (VInt filter_size) ->
  check_overlap overlap options =
    Ok (if overlap <? 2 * filter_size then 2 * filter_size else overlap).
Proof. intros Hfs. unfold check_overlap. by rewrite Hfs. Qed.

(** The raised overlap is not raised again. *)
Lemma raised_overlap_stable overlap filter_size :
  let raised := if overlap <? 2 * filter_size then 2 * filter_size
                else overlap in
  (if raised <? 2 * filter_size then 2 * filter_size else raised) = raised.
Proof.
  simpl. destruct (Z.ltb_spec overlap (2 * filter_size)).
  - by rewrite Z.ltb_irrefl.
  - destruct (Z.ltb_spec overlap (2 * filter_size)); [lia|done].
Qed.

(** For the four filtering methods the checks, when they pass, return the
    raised overlap, whatever overlap they are given. *)
Lemma method_checks_filtering method options overlap filter_size :
  method = "blur_gauss" \/ method = "blur_mean" \/ method = "clahe"
  \/ method = "TPI" ->
  options !! "filter_size" = Some (VInt filter_size) ->
  method_checks method options overlap =
    let! _ := require_options
                (if String.eqb method "clahe"
                 then ["filter_size"; "clip_limit"] else ["filter_size"])
                options in
    Ok (if overlap <? 2 * filter_size then 2 * filter_size else overlap).
Proof.
  intros Hm Hfs. unfold method_checks.
  rewrite (check_overlap_raised overlap options filter_size Hfs).
  destruct Hm as [-> | [-> | [-> | ->]]]; reflexivity.
Qed.

(** C8. For [blur_gauss], [blur_mean], [clahe] and [TPI] with an integer
    filter size: when the option checks pass, the overlap used from then on
    is [2 * filter_size] if the given overlap is below it and the given
    overlap otherwise; every chunk of the run carries [f2] as twice that
    value; and the whole run is the run that would have been started with
    that value as its overlap. *)
Theorem overlap_raised_to_filter (E : env) (method : string)
    (options : gmap string optval) (overlap filter_size used : Z) :
  method = "blur_gauss" \/ method = "blur_mean" \/ method = "clahe"
  \/ method = "TPI" ->
  options !! "filter_size" = Some (VInt filter_size) ->
  method_checks method options overlap = Ok used ->
  used = (if overlap <? 2 * filter_size then 2 * filter_size else overlap)
  /\ (forall (R : run_info) chunk_size iterables ch,
        run_f2 R = 2 * used ->
        chunks_of R chunk_size = Ok iterables -> ch ∈ iterables ->
        Chunk.f2 ch =
          2 * (if overlap <? 2 * filter_size then 2 * filter_size
               else overlap))
  /\ (forall in_dem_path out_dem_path chunk_size num_threads verbose w,
        ParallelRCP E in_dem_path out_dem_path chunk_size overlap method
                    options num_threads verbose w
        = ParallelRCP E in_dem_path out_dem_path chunk_size used method
                      options num_threads verbose w).
Proof.
  intros Hm Hfs Hchecks.
  pose proof (method_checks_filtering method options overlap filter_size
                Hm Hfs) as Heq.
  rewrite Hchecks in Heq.
  assert (used =
          if overlap <? 2 * filter_size then 2 * filter_size else overlap)
    as Hused.
  { destruct (require_options _ options); simpl in Heq; congruence. }
  split; [exact Hused|]. split.
  - intros R chunk_size iterables ch Hf2 Hiter Hch.
    rewrite (chunk_f2_of_run R chunk_size iterables ch Hiter Hch), Hf2.
    by rewrite Hused.
  - intros. unfold ParallelRCP, bindM, liftR.
    rewrite Hchecks.
    rewrite (method_checks_filtering method options used filter_size Hm Hfs).
    destruct (require_options _ options) as [[]|e]; simpl in Heq;
      [|discriminate Heq].
    subst used. simpl. by rewrite raised_overlap_stable.
Qed.

Lemma overlap_raised_to_filter_witness :
  method_checks "blur_gauss" {[ "filter_size" := VInt 30 ]} 10 = Ok 60
  /\ method_checks "blur_gauss" {[ "filter_size" := VInt 30 ]} 75 = Ok 75
  /\ forall w,
       ParallelRCP demo_env "in.tif" "new.tif" 4 10 "blur_gauss"
                   {[ "filter_size" := VInt 30 ]} 1 false w
       = ParallelRCP demo_env "in.tif" "new.tif" 4 60 "blur_gauss"
                     {[ "filter_size" := VInt 30 ]} 1 false w.
Proof.
  split; [reflexivity|]. split; [reflexivity|].
  intros w.
  apply (overlap_raised_to_filter demo_env "blur_gauss"
           {[ "filter_size" := VInt 30 ]} 10 30 60);
    [by left | reflexivity | reflexivity].
Defined.

(** ** C9: the temporary files of [mdenoise] *)

(** On the path without exceptions both temporary files are removed. *)
Lemma mdenoise_success_removes_temp_files (E : env) s_nodata cell_size
    in_array t n v tile w fs s_file t_file :
  PrimFloat.eqb (np_mean in_array) s_nodata = false ->
  run_mdenoise E
    (mk_call mdenoise_path (mesh_paths E tile).1 t n v (mesh_paths E tile).2)
    (<[(mesh_paths E tile).1 := mk_raster in_array (Some s_nodata) cell_size]>
       (files w)) = (0, fs) ->
  fs !! (mesh_paths E tile).1 = Some s_file ->
  fs !! (mesh_paths E tile).2 = Some t_file ->
  (mesh_paths E tile).1 <> (mesh_paths E tile).2 ->
  exists w',
    mdenoise E s_nodata cell_size in_array t n v tile w = (Ok (band t_file), w')
    /\ files w' !! (mesh_paths E tile).1 = None
    /\ files w' !! (mesh_paths E tile).2 = None.
Proof.
  intros Hmean. unfold mdenoise. rewrite Hmean.
  destruct (mesh_paths E tile) as [temp_s_path temp_t_path]. cbn [fst snd].
  intros Hrun Hs Ht Hne.
  unfold bindM at 1. unfold WriteASC at 1.
  unfold bindM at 1. unfold check_output at 1. cbn [files exe_log].
  rewrite Hrun. cbn [Z.eqb].
  unfold bindM at 1. unfold gdal_Open at 1. cbn [files]. rewrite Ht.
  unfold bindM, suppress, os_remove, ret. cbn [files exe_log]. rewrite Hs.
  cbn [files exe_log]. rewrite lookup_delete_ne, Ht by done.
  cbn [files exe_log]. eexists. split; [reflexivity|]. cbn [files].
  split.
  - by rewrite lookup_delete_ne, lookup_delete_eq.
  - by rewrite lookup_delete_eq.
Qed.

(** C9 fails on the code. When the external program exits with a non-zero
    status, [check_output] raises and [mdenoise] passes the exception on
    without removing anything: the files are exactly those the program left
    behind, the temporary source file written just before among them unless
    the program itself removed it. *)
Theorem failed_denoise_leaves_temp_files (E : env) (s_nodata cell_size : float)
    (in_array : ndarray float) (t n v : optval) (tile : option string)
    (w : world) (status : Z) (fs : gmap string raster) :
  PrimFloat.eqb (np_mean in_array) s_nodata = false ->
  run_mdenoise E
    (mk_call mdenoise_path (mesh_paths E tile).1 t n v (mesh_paths E tile).2)
    (<[(mesh_paths E tile).1 := mk_raster in_array (Some s_nodata) cell_size]>
       (files w)) = (status, fs) ->
  status <> 0 ->
  mdenoise E s_nodata cell_size in_array t n v tile w =
    (Raise CalledProcessError,
     mk_world fs
       (exe_log w
        ++ [mk_call mdenoise_path (mesh_paths E tile).1 t n v
                    (mesh_paths E tile).2])).
Proof.
  intros Hmean. unfold mdenoise. rewrite Hmean.
  destruct (mesh_paths E tile) as [temp_s_path temp_t_path]. cbn [fst snd].
  intros Hrun Hstatus.
  unfold bindM at 1. unfold WriteASC at 1.
  unfold bindM at 1. unfold check_output at 1. cbn [files exe_log].
  rewrite Hrun. by destruct (Z.eqb_spec status 0).
Qed.

Lemma failed_denoise_leaves_temp_files_witness :
  exists w',
    mdenoise demo_env (-9999)%float 1%float
             (of_rows [[1; 2]; [3; 4]]%float)
             (VFloat 0.5%float) (VInt 50) (VInt 50) (Some "0-0")
             (demo_world 9 9)
      = (Raise CalledProcessError, w')
    /\ (band <$> files w' !! "/tmp/mesh_source_0-0.asc")
       = Some (of_rows [[1; 2]; [3; 4]]%float).
Proof.
  eexists. split.
  - apply (failed_denoise_leaves_temp_files demo_env (-9999)%float 1%float
             (of_rows [[1; 2]; [3; 4]]%float)
             (VFloat 0.5%float) (VInt 50) (VInt 50) (Some "0-0")
             (demo_world 9 9) 1);
      [reflexivity | reflexivity | lia].
  - reflexivity.
Defined.

(** ** C10: a zero overlap *)

(** A chunk size that is not positive yields no chunk at all. *)
Lemma chunks_of_nonpos (R : run_info) (chunk_size : Z) iterables :
  chunk_size <= 0 -> 0 <= run_rows R -> 0 <= run_cols R ->
  chunks_of R chunk_size = Ok iterables -> iterables = [].
Proof.
  intros Hc Hr Hcl. unfold chunks_of, splits, py_range.
  destruct (Z.eqb_spec chunk_size 0); [done|].
  destruct (Z.ltb_spec 0 chunk_size); [lia|].
  destruct (Z.ltb_spec (run_rows R) 0); [lia|].
  destruct (Z.ltb_spec (run_cols R) 0); [lia|].
  simpl. by intros [= <-].
Qed.

(** With [f2 = 0] the stripped arrays have no cells, [putmask] has nothing
    to do, and the write is skipped. *)
Lemma write_back_zero_overlap ch super_array new_data w t_fh :
  Chunk.f2 ch = 0 ->
  files w !! Chunk.out_dem_path ch = Some t_fh ->
  Chunk.x_start ch <= shape1 (band t_fh) ->
  Chunk.y_start ch <= shape0 (band t_fh) ->
  write_back ch super_array new_data w = (Ok tt, w).
Proof.
  intros Hf Hfile Hx Hy.
  destruct (trim_and_mask (Chunk.f2 ch) (Chunk.s_nodata ch)
              super_array new_data) as [temp_array|e] eqn:Heq.
  - rewrite (write_back_unfold _ _ _ _ _ _ Heq Hfile).
    apply trim_and_mask_shape in Heq as [H0 H1]. rewrite Hf in H0, H1.
    rewrite (proj1 (strip_overlap_zero _)) in H0.
    rewrite (proj2 (strip_overlap_zero _)) in H1.
    by apply WriteArray_empty.
  - rewrite trim_and_mask_size, Hf in Heq. unfold size in Heq.
    rewrite !(proj1 (strip_overlap_zero _)) in Heq. done.
Qed.

(** A chunk of a run with [f2 = 0] on a raster whose dimensions exceed the
    chunk size: whatever the operation returned, the stripped array
    [new_data[f2:-1*f2, f2:-1*f2]] has shape [(0, 0)] although the chunk
    itself is not empty, and the end of [ProcessSuperArray] completes
    without an exception and leaves the target, like every other file, as it
    was. *)
Lemma zero_f2_chunk_loses_its_tile (R : run_info) (chunk_size overlap : Z)
    (iterables : list Chunk.t) (ch : Chunk.t)
    (super_array new_data : ndarray float) (w : world) (t_fh : raster) :
  overlap = 0 -> run_f2 R = 2 * overlap ->
  run_rows R > chunk_size -> run_cols R > chunk_size ->
  chunks_of R chunk_size = Ok iterables -> ch ∈ iterables ->
  files w !! run_out_dem_path R = Some t_fh ->
  shape0 (band t_fh) = run_rows R -> shape1 (band t_fh) = run_cols R ->
  0 <= run_rows R -> 0 <= run_cols R ->
  shape0 (strip_overlap new_data (Chunk.f2 ch)) = 0
  /\ shape1 (strip_overlap new_data (Chunk.f2 ch)) = 0
  /\ 0 < Chunk.y_end ch - Chunk.y_start ch
  /\ 0 < Chunk.x_end ch - Chunk.x_start ch
  /\ write_back ch super_array new_data w = (Ok tt, w).
Proof.
  intros -> Hf2 Hrows Hcols Hiter Hch Hfile Hs0 Hs1 Hr0 Hc0.
  destruct (Z.le_gt_cases chunk_size 0) as [Hle|Hpos].
  { rewrite (chunks_of_nonpos R chunk_size iterables Hle Hr0 Hc0 Hiter) in Hch.
    by apply elem_of_nil in Hch. }
  destruct (chunk_fields R chunk_size iterables Hpos ltac:(lia) ltac:(lia)
              Hiter ch Hch)
    as (Hf & _ & _ & _ & _ & Hout & ?).
  rewrite Hf, Hf2. change (2 * 0) with 0.
  split; [apply strip_overlap_zero|]. split; [apply strip_overlap_zero|].
  split; [lia|]. split; [lia|].
  apply (write_back_zero_overlap _ _ _ _ t_fh); [lia | by rewrite Hout | lia..].
Qed.

(** ** A complete run

    With filters that return their input, a run over the 6 by 6 raster in
    chunks of 4 with [overlap = 1] reproduces the source in the target. *)
Lemma identity_run_copies_source :
  let '(res, w') :=
    ParallelRCP demo_env "in.tif" "out.tif" 4 1 "hillshade"
                {[ "az" := VInt 315; "alt" := VInt 45 ]} 1 false
                demo_grid_world in
  res = Ok tt
  /\ (to_rows <$> (band <$> files w' !! "out.tif")) = Some demo_grid.
Proof. vm_compute. split; reflexivity. Qed.

(** * Further properties *)

(** ** The population of the super array *)

Lemma read_super_array_of (ch : Chunk.t) (w : world) (s_fh : raster) :
  files w !! Chunk.in_dem_path ch = Some s_fh ->
  read_super_array ch w = (super_array_of ch s_fh, w).
Proof.
  intros Hfile. unfold read_super_array, super_array_of, bindM, gdal_Open, liftR.
  rewrite Hfile.
  destruct (ReadAsArray _ _ _ _ _) as [read_array|e]; [|reflexivity].
  simpl. destruct (np_full _ _ _) as [super_array|e]; reflexivity.
Qed.

(** One axis of the edge logic when the resolved read lies inside the
    raster: the slice of the super array that receives the read has the
    extent of the read, and the three branches are as follows. *)
Lemma edge_logic_fits (start end_ f2 dim ro rs ss se : Z) :
  0 <= f2 ->
  edge_logic start end_ f2 dim = (ro, rs, ss, se) ->
  0 <= ro -> 1 <= rs -> ro + rs <= dim ->
  exists lo,
    slice_range (end_ - start + 2 * f2) ss se = (lo, lo + rs)
    /\ 0 <= lo /\ lo + rs <= end_ - start + 2 * f2
    /\ ((start < f2 /\ lo = f2 /\ ro = 0 /\ rs = end_ - start + f2)
        \/ (f2 <= start /\ dim < end_ + f2 /\ 0 < f2 /\ lo = 0
            /\ ro = start - f2 /\ rs = end_ - start + f2)
        \/ (f2 <= start /\ end_ + f2 <= dim /\ lo = 0
            /\ ro = start - f2 /\ rs = end_ - start + 2 * f2)).
Proof.
  intros Hf. unfold edge_logic, slice_range, slice_bound.
  destruct (Z.ltb_spec (start - f2) 0).
  - intros [= <- <- <- <-] Hro Hrs Hdim. exists f2.
    destruct (Z.ltb_spec f2 0); [lia|].
    destruct (Z.ltb_spec (end_ - start + 2 * f2) 0); [lia|].
    split; [f_equal; lia|]. split; [lia|]. split; [lia|]. left. lia.
  - destruct (Z.gtb_spec (start - f2 + (end_ - start + 2 * f2)) dim).
    + intros [= <- <- <- <-] Hro Hrs Hdim. exists 0.
      destruct (Z.ltb_spec 0 0); [lia|].
      destruct (Z.ltb_spec (-1 * f2) 0); [|lia].
      split; [f_equal; lia|]. split; [lia|]. split; [lia|].
      right. left. lia.
    + intros [= <- <- <- <-] Hro Hrs Hdim. exists 0.
      destruct (Z.ltb_spec 0 0); [lia|].
      destruct (Z.ltb_spec (end_ - start + 2 * f2) 0); [lia|].
      split; [f_equal; lia|]. split; [lia|]. split; [lia|].
      right. right. lia.
Qed.

(** The super array in terms of the two axes: inside the pasted slice the
    cells of the read, no-data outside. *)
Lemma super_array_of_axes (ch : Chunk.t) (s_fh : raster)
    (rxo rxs sxs sxe lox ryo rys sys sye loy : Z) :
  shape0 (band s_fh) = Chunk.rows ch -> shape1 (band s_fh) = Chunk.cols ch ->
  edge_logic (Chunk.x_start ch) (Chunk.x_end ch) (Chunk.f2 ch) (Chunk.cols ch)
    = (rxo, rxs, sxs, sxe) ->
  edge_logic (Chunk.y_start ch) (Chunk.y_end ch) (Chunk.f2 ch) (Chunk.rows ch)
    = (ryo, rys, sys, sye) ->
  0 <= rxo -> 1 <= rxs -> rxo + rxs <= Chunk.cols ch ->
  0 <= ryo -> 1 <= rys -> ryo + rys <= Chunk.rows ch ->
  slice_range (Chunk.x_end ch - Chunk.x_start ch + 2 * Chunk.f2 ch) sxs sxe
    = (lox, lox + rxs) ->
  slice_range (Chunk.y_end ch - Chunk.y_start ch + 2 * Chunk.f2 ch) sys sye
    = (loy, loy + rys) ->
  0 <= lox -> 0 <= loy ->
  lox + rxs <= Chunk.x_end ch - Chunk.x_start ch + 2 * Chunk.f2 ch ->
  loy + rys <= Chunk.y_end ch - Chunk.y_start ch + 2 * Chunk.f2 ch ->
  exists super_array,
    super_array_of ch s_fh = Ok super_array
    /\ shape0 super_array
       = Chunk.y_end ch - Chunk.y_start ch + 2 * Chunk.f2 ch
    /\ shape1 super_array
       = Chunk.x_end ch - Chunk.x_start ch + 2 * Chunk.f2 ch
    /\ forall r c,
         item super_array r c =
           if (loy <=? r) && (r <? loy + rys)
              && (lox <=? c) && (c <? lox + rxs)
           then item (band s_fh) (ryo + (r - loy)) (rxo + (c - lox))
           else Chunk.s_nodata ch.
Proof.
  intros Hs0 Hs1 Hex Hey Hx0 Hx1 Hx2 Hy0 Hy1 Hy2 Hsx Hsy Hlx Hly Hhx Hhy.
  unfold super_array_of. rewrite super_array_geometry_axes, Hex, Hey.
  cbn [x_size y_size read_x_off read_y_off read_x_size
    read_y_size sa_x_start sa_x_end sa_y_start sa_y_end].
  rewrite ReadAsArray_fits by lia. cbn [bindR].
  unfold np_full.
  destruct (Z.ltb_spec (Chunk.y_end ch - Chunk.y_start ch + 2 * Chunk.f2 ch) 0);
    [lia|].
  destruct (Z.ltb_spec (Chunk.x_end ch - Chunk.x_start ch + 2 * Chunk.f2 ch) 0);
    [lia|].
  cbn [orb bindR]. unfold setitem_slice. cbn [shape0 shape1 item].
  rewrite Hsx, Hsy. unfold broadcastable.
  replace (loy + rys - loy) with rys by lia.
  replace (lox + rxs - lox) with rxs by lia.
  rewrite !Z.eqb_refl. cbn [orb andb].
  eexists. split; [reflexivity|]. cbn [shape0 shape1 item].
  split; [done|]. split; [done|].
  intros r c.
  destruct ((loy <=? r) && (r <? loy + rys) && (lox <=? c)
            && (c <? lox + rxs)) eqn:Hin; [|done].
  rewrite !broadcast_index_same by lia. done.
Qed.

(** On a regular axis the resolved read lies inside the raster. *)
Lemma edge_logic_regular (start end_ f2 dim ro rs ss se : Z) :
  0 <= f2 -> axis_regular start end_ f2 dim ->
  edge_logic start end_ f2 dim = (ro, rs, ss, se) ->
  0 <= ro /\ 1 <= rs /\ ro + rs <= dim.
Proof.
  intros Hf (H0 & H1 & H2 & H3). unfold edge_logic.
  destruct (Z.ltb_spec (start - f2) 0).
  - intros [= <- <- <- <-]. lia.
  - destruct (Z.gtb_spec (start - f2 + (end_ - start + 2 * f2)) dim);
      intros [= <- <- <- <-]; lia.
Qed.

(** On a regular axis, the cell [i] of the super array stands for the cell
    [start - f2 + i] of the raster; it is pasted exactly when that cell is
    among those read. *)
Lemma axis_regular_window (start end_ f2 dim ro rs lo i : Z) :
  0 <= f2 -> axis_regular start end_ f2 dim ->
  ((start < f2 /\ lo = f2 /\ ro = 0 /\ rs = end_ - start + f2)
   \/ (f2 <= start /\ dim < end_ + f2 /\ 0 < f2 /\ lo = 0
       /\ ro = start - f2 /\ rs = end_ - start + f2)
   \/ (f2 <= start /\ end_ + f2 <= dim /\ lo = 0
       /\ ro = start - f2 /\ rs = end_ - start + 2 * f2)) ->
  0 <= i < end_ - start + 2 * f2 ->
  (lo <=? i) && (i <? lo + rs)
  = (axis_read_lo start f2 <=? start - f2 + i)
    && (start - f2 + i <? axis_read_hi end_ f2 dim)
  /\ ((lo <=? i) && (i <? lo + rs) = true -> ro + (i - lo) = start - f2 + i).
Proof.
  intros Hf (H0 & H1 & H2 & H3) Hcase Hi.
  unfold axis_read_lo, axis_read_hi.
  destruct (Z.leb_spec (end_ + f2) dim);
    destruct (Z.leb_spec lo i), (Z.ltb_spec i (lo + rs)),
      (Z.leb_spec (Z.max 0 (start - f2)) (start - f2 + i));
    cbn [andb];
    try (destruct (Z.ltb_spec (start - f2 + i) (end_ + f2)));
    try (destruct (Z.ltb_spec (start - f2 + i) end_));
    split; try done; try lia.
Qed.

(** The super array of a regular chunk, in raster coordinates. *)
Lemma super_array_of_regular (ch : Chunk.t) (s_fh : raster) :
  0 <= Chunk.f2 ch ->
  shape0 (band s_fh) = Chunk.rows ch -> shape1 (band s_fh) = Chunk.cols ch ->
  axis_regular (Chunk.x_start ch) (Chunk.x_end ch) (Chunk.f2 ch)
               (Chunk.cols ch) ->
  axis_regular (Chunk.y_start ch) (Chunk.y_end ch) (Chunk.f2 ch)
               (Chunk.rows ch) ->
  exists super_array,
    super_array_of ch s_fh = Ok super_array
    /\ shape0 super_array
       = Chunk.y_end ch - Chunk.y_start ch + 2 * Chunk.f2 ch
    /\ shape1 super_array
       = Chunk.x_end ch - Chunk.x_start ch + 2 * Chunk.f2 ch
    /\ forall r c,
         0 <= r < shape0 super_array -> 0 <= c < shape1 super_array ->
         item super_array r c =
           if (axis_read_lo (Chunk.y_start ch) (Chunk.f2 ch)
                 <=? Chunk.y_start ch - Chunk.f2 ch + r)
              && (Chunk.y_start ch - Chunk.f2 ch + r
                    <? axis_read_hi (Chunk.y_end ch) (Chunk.f2 ch)
                                    (Chunk.rows ch))
              && ((axis_read_lo (Chunk.x_start ch) (Chunk.f2 ch)
                     <=? Chunk.x_start ch - Chunk.f2 ch + c)
                  && (Chunk.x_start ch - Chunk.f2 ch + c
                        <? axis_read_hi (Chunk.x_end ch) (Chunk.f2 ch)
                                        (Chunk.cols ch)))
           then item (band s_fh) (Chunk.y_start ch - Chunk.f2 ch + r)
                                 (Chunk.x_start ch - Chunk.f2 ch + c)
           else Chunk.s_nodata ch.
Proof.
  intros Hf Hs0 Hs1 Hrx Hry.
  destruct (edge_logic (Chunk.x_start ch) (Chunk.x_end ch) (Chunk.f2 ch)
              (Chunk.cols ch)) as [[[rxo rxs] sxs] sxe] eqn:Hex.
  destruct (edge_logic (Chunk.y_start ch) (Chunk.y_end ch) (Chunk.f2 ch)
              (Chunk.rows ch)) as [[[ryo rys] sys] sye] eqn:Hey.
  destruct (edge_logic_regular _ _ _ _ _ _ _ _ Hf Hrx Hex) as (Hx0 & Hx1 & Hx2).
  destruct (edge_logic_regular _ _ _ _ _ _ _ _ Hf Hry Hey) as (Hy0 & Hy1 & Hy2).
  destruct (edge_logic_fits _ _ _ _ _ _ _ _ Hf Hex Hx0 Hx1 Hx2)
    as (lox & Hsx & Hlx & Hhx & Hcx).
  destruct (edge_logic_fits _ _ _ _ _ _ _ _ Hf Hey Hy0 Hy1 Hy2)
    as (loy & Hsy & Hly & Hhy & Hcy).
  destruct (super_array_of_axes ch s_fh rxo rxs sxs sxe lox ryo rys sys sye loy)
    as (sa & Hsa & H0 & H1 & Hcells); try done.
  exists sa. split; [done|]. split; [done|]. split; [done|].
  intros r c Hr Hc. rewrite Hcells.
  destruct (axis_regular_window _ _ _ _ _ _ _ r Hf Hry Hcy ltac:(lia))
    as [Hby Hiy].
  destruct (axis_regular_window _ _ _ _ _ _ _ c Hf Hrx Hcx ltac:(lia))
    as [Hbx Hix].
  rewrite <- Hby, <- Hbx, <- andb_assoc.
  destruct ((loy <=? r) && (r <? loy + rys)) eqn:Hyb; [|done].
  destruct ((lox <=? c) && (c <? lox + rxs)) eqn:Hxb; [|done].
  cbn [andb]. by rewrite Hiy, Hix.
Qed.

(** X1. For a chunk whose two axes are regular (inside the raster, and
    either at least [f2] away from the start of the axis or starting there
    with [f2] cells to spare behind its end), the read and the paste
    complete, the super array has the chunk's extent plus [f2] on every side,
    and its cell [(r, c)] is the raster's cell [(y_start - f2 + r,
    x_start - f2 + c)] wherever that cell is among those read, and the
    no-data value everywhere else. *)
Theorem regular_tile_population (ch : Chunk.t) (w : world) (s_fh : raster) :
  0 <= Chunk.f2 ch ->
  files w !! Chunk.in_dem_path ch = Some s_fh ->
  shape0 (band s_fh) = Chunk.rows ch -> shape1 (band s_fh) = Chunk.cols ch ->
  axis_regular (Chunk.x_start ch) (Chunk.x_end ch) (Chunk.f2 ch)
               (Chunk.cols ch) ->
  axis_regular (Chunk.y_start ch) (Chunk.y_end ch) (Chunk.f2 ch)
               (Chunk.rows ch) ->
  exists super_array,
    read_super_array ch w = (Ok super_array, w)
    /\ shape0 super_array
       = Chunk.y_end ch - Chunk.y_start ch + 2 * Chunk.f2 ch
    /\ shape1 super_array
       = Chunk.x_end ch - Chunk.x_start ch + 2 * Chunk.f2 ch
    /\ forall r c,
         0 <= r < shape0 super_array -> 0 <= c < shape1 super_array ->
         item super_array r c =
           if (axis_read_lo (Chunk.y_start ch) (Chunk.f2 ch)
                 <=? Chunk.y_start ch - Chunk.f2 ch + r)
              && (Chunk.y_start ch - Chunk.f2 ch + r
                    <? axis_read_hi (Chunk.y_end ch) (Chunk.f2 ch)
                                    (Chunk.rows ch))
              && ((axis_read_lo (Chunk.x_start ch) (Chunk.f2 ch)
                     <=? Chunk.x_start ch - Chunk.f2 ch + c)
                  && (Chunk.x_start ch - Chunk.f2 ch + c
                        <? axis_read_hi (Chunk.x_end ch) (Chunk.f2 ch)
                                        (Chunk.cols ch)))
           then item (band s_fh) (Chunk.y_start ch - Chunk.f2 ch + r)
                                 (Chunk.x_start ch - Chunk.f2 ch + c)
           else Chunk.s_nodata ch.
Proof.
  intros Hf Hfile Hs0 Hs1 Hrx Hry.
  rewrite (read_super_array_of ch w s_fh Hfile).
  destruct (super_array_of_regular ch s_fh Hf Hs0 Hs1 Hrx Hry)
    as (sa & -> & Hrest).
  by exists sa.
Qed.

Lemma regular_tile_population_witness :
  exists super_array,
    read_super_array demo_grid_chunk demo_grid_world
      = (Ok super_array, demo_grid_world)
    /\ shape0 super_array = 8 /\ shape1 super_array = 6
    /\ item super_array 0 0 = (-9999)%float
    /\ item super_array 2 0 = 13%float
    /\ item super_array 7 3 = 66%float
    /\ item super_array 2 4 = (-9999)%float.
Proof.
  destruct (regular_tile_population demo_grid_chunk demo_grid_world
              (mk_raster (of_rows demo_grid) (Some (-9999)%float) 1%float))
    as (sa & Hread & H0 & H1 & Hcell);
    [simpl; lia | reflexivity | reflexivity | reflexivity
    | unfold axis_regular; simpl; lia | unfold axis_regular; simpl; lia |].
  exists sa. split; [exact Hread|]. split; [exact H0|]. split; [exact H1|].
  rewrite !Hcell by (rewrite ?H0, ?H1; simpl; lia).
  repeat split; reflexivity.
Defined.

(** The geometry of a chunk that is at least [f2] away from both ends of
    both axes. *)
Lemma interior_geometry (ch : Chunk.t) :
  0 <= Chunk.f2 ch ->
  Chunk.f2 ch <= Chunk.x_start ch ->
  Chunk.x_end ch + Chunk.f2 ch <= Chunk.cols ch ->
  Chunk.f2 ch <= Chunk.y_start ch ->
  Chunk.y_end ch + Chunk.f2 ch <= Chunk.rows ch ->
  super_array_geometry ch =
    mk_geometry
      (Chunk.x_end ch - Chunk.x_start ch + 2 * Chunk.f2 ch)
      (Chunk.y_end ch - Chunk.y_start ch + 2 * Chunk.f2 ch)
      (Chunk.x_start ch - Chunk.f2 ch) (Chunk.y_start ch - Chunk.f2 ch)
      (Chunk.x_end ch - Chunk.x_start ch + 2 * Chunk.f2 ch)
      (Chunk.y_end ch - Chunk.y_start ch + 2 * Chunk.f2 ch)
      0 (Chunk.x_end ch - Chunk.x_start ch + 2 * Chunk.f2 ch)
      0 (Chunk.y_end ch - Chunk.y_start ch + 2 * Chunk.f2 ch).
Proof.
  intros Hf Hx0 Hx1 Hy0 Hy1. rewrite super_array_geometry_axes.
  unfold edge_logic.
  destruct (Z.ltb_spec (Chunk.x_start ch - Chunk.f2 ch) 0); [lia|].
  destruct (Z.ltb_spec (Chunk.y_start ch - Chunk.f2 ch) 0); [lia|].
  repeat match goal with
         | |- context [Z.gtb ?a ?b] => destruct (Z.gtb_spec a b); [lia|]
         end.
  reflexivity.
Qed.

(** X2. For a chunk that is at least [f2] away from all four edges of the
    raster, nothing is clamped: the resolved read window is the chunk
    extended by [f2] on every side, the paste fills the whole super array,
    and every cell [(r, c)] of the super array is the raster's cell
    [(y_start - f2 + r, x_start - f2 + c)]; no cell is left as no-data by
    the population. *)
Theorem interior_tile_reads_nominal_window (ch : Chunk.t) (w : world)
    (s_fh : raster) :
  0 <= Chunk.f2 ch ->
  files w !! Chunk.in_dem_path ch = Some s_fh ->
  shape0 (band s_fh) = Chunk.rows ch -> shape1 (band s_fh) = Chunk.cols ch ->
  Chunk.f2 ch <= Chunk.x_start ch -> Chunk.x_start ch < Chunk.x_end ch ->
  Chunk.x_end ch + Chunk.f2 ch <= Chunk.cols ch ->
  Chunk.f2 ch <= Chunk.y_start ch -> Chunk.y_start ch < Chunk.y_end ch ->
  Chunk.y_end ch + Chunk.f2 ch <= Chunk.rows ch ->
  let g := super_array_geometry ch in
  (read_x_off g, read_y_off g) =
    (Chunk.x_start ch - Chunk.f2 ch, Chunk.y_start ch - Chunk.f2 ch)
  /\ (read_x_size g, read_y_size g) = (x_size g, y_size g)
  /\ (sa_x_start g, sa_x_end g, sa_y_start g, sa_y_end g)
     = (0, x_size g, 0, y_size g)
  /\ exists super_array,
       read_super_array ch w = (Ok super_array, w)
       /\ shape0 super_array = y_size g /\ shape1 super_array = x_size g
       /\ forall r c,
            0 <= r < shape0 super_array -> 0 <= c < shape1 super_array ->
            item super_array r c =
              item (band s_fh) (Chunk.y_start ch - Chunk.f2 ch + r)
                               (Chunk.x_start ch - Chunk.f2 ch + c).
Proof.
  intros Hf Hfile Hs0 Hs1 Hx0 Hx1 Hx2 Hy0 Hy1 Hy2 g. subst g.
  rewrite interior_geometry by done. cbn [x_size y_size read_x_off read_y_off
    read_x_size read_y_size sa_x_start sa_x_end sa_y_start sa_y_end].
  split; [done|]. split; [done|]. split; [done|].
  rewrite (read_super_array_of ch w s_fh Hfile).
  destruct (super_array_of_regular ch s_fh Hf Hs0 Hs1)
    as (sa & -> & H0 & H1 & Hcell); [unfold axis_regular; lia..|].
  exists sa. split; [done|]. split; [done|]. split; [done|].
  intros r c Hr Hc. rewrite Hcell by done.
  unfold axis_read_lo, axis_read_hi.
  destruct (Z.leb_spec (Chunk.y_end ch + Chunk.f2 ch) (Chunk.rows ch)); [|lia].
  destruct (Z.leb_spec (Chunk.x_end ch + Chunk.f2 ch) (Chunk.cols ch)); [|lia].
  destruct (Z.leb_spec (Z.max 0 (Chunk.y_start ch - Chunk.f2 ch))
              (Chunk.y_start ch - Chunk.f2 ch + r)); [|lia].
  destruct (Z.leb_spec (Z.max 0 (Chunk.x_start ch - Chunk.f2 ch))
              (Chunk.x_start ch - Chunk.f2 ch + c)); [|lia].
  destruct (Z.ltb_spec (Chunk.y_start ch - Chunk.f2 ch + r)
              (Chunk.y_end ch + Chunk.f2 ch)); [|lia].
  destruct (Z.ltb_spec (Chunk.x_start ch - Chunk.f2 ch + c)
              (Chunk.x_end ch + Chunk.f2 ch)); [|lia].
  reflexivity.
Qed.

Lemma interior_tile_reads_nominal_window_witness :
  let ch := ramp_chunk 4 4 8 8 2 12 12 in
  (read_x_off (super_array_geometry ch), read_y_off (super_array_geometry ch),
   read_x_size (super_array_geometry ch), read_y_size (super_array_geometry ch))
  = (2, 2, 8, 8)
  /\ exists super_array,
       read_super_array ch (ramp_world 12 12)
         = (Ok super_array, ramp_world 12 12)
       /\ item super_array 0 0 = 202%float
       /\ item super_array 7 7 = 909%float.
Proof.
  destruct (interior_tile_reads_nominal_window (ramp_chunk 4 4 8 8 2 12 12)
              (ramp_world 12 12) (ramp_raster 12 12))
    as (_ & _ & _ & sa & Hread & H0 & H1 & Hcell);
    [simpl; lia | reflexivity | reflexivity | reflexivity
    | simpl; lia | simpl; lia | simpl; lia | simpl; lia | simpl; lia
    | simpl; lia |].
  split; [reflexivity|].
  exists sa. split; [exact Hread|].
  rewrite !Hcell by (rewrite ?H0, ?H1; by vm_compute).
  split; reflexivity.
Defined.

(** Case analysis on every integer comparison of the goal. *)
Ltac case_cmp :=
  repeat match goal with
         | |- context [Z.leb ?a ?b] => destruct (Z.leb_spec a b)
         | |- context [Z.ltb ?a ?b] => destruct (Z.ltb_spec a b)
         | |- context [Z.gtb ?a ?b] => destruct (Z.gtb_spec a b)
         end;
  cbn [andb orb]; try reflexivity; try lia.

(** The branch of the edge logic for an axis whose far end is nearer than
    [f2] to the end of the raster. *)
Lemma edge_logic_far_edge (start end_ f2 dim : Z) :
  f2 <= start -> dim < end_ + f2 ->
  edge_logic start end_ f2 dim
  = (start - f2, end_ - start + 2 * f2 - f2, 0, -1 * f2).
Proof.
  intros H0 H1. unfold edge_logic.
  destruct (Z.ltb_spec (start - f2) 0); [lia|].
  destruct (Z.gtb_spec (start - f2 + (end_ - start + 2 * f2)) dim); [|lia].
  reflexivity.
Qed.

(** X3. For a chunk at least [f2] away from the start of the columns whose
    end is nearer than [f2] to the last column (rows regular): the read stops
    at the chunk's own end, [f2] columns short of the super array, and the
    last [f2] columns of the super array are the no-data value, also where
    the raster has columns between the chunk's end and its last column; the
    columns before them hold the raster's cells on the chunk's own rows. *)
Theorem far_edge_halo_is_sentinel (ch : Chunk.t) (w : world) (s_fh : raster) :
  files w !! Chunk.in_dem_path ch = Some s_fh ->
  shape0 (band s_fh) = Chunk.rows ch -> shape1 (band s_fh) = Chunk.cols ch ->
  Chunk.f2 ch <= Chunk.x_start ch -> Chunk.x_start ch < Chunk.x_end ch ->
  Chunk.x_end ch <= Chunk.cols ch ->
  Chunk.cols ch < Chunk.x_end ch + Chunk.f2 ch ->
  axis_regular (Chunk.y_start ch) (Chunk.y_end ch) (Chunk.f2 ch)
               (Chunk.rows ch) ->
  let g := super_array_geometry ch in
  (read_x_off g, read_x_off g + read_x_size g)
  = (Chunk.x_start ch - Chunk.f2 ch, Chunk.x_end ch)
  /\ exists super_array,
       read_super_array ch w = (Ok super_array, w)
       /\ shape0 super_array = y_size g /\ shape1 super_array = x_size g
       /\ forall r c,
            0 <= r < y_size g -> 0 <= c < x_size g ->
            (x_size g - Chunk.f2 ch <= c ->
             item super_array r c = Chunk.s_nodata ch)
            /\ (c < x_size g - Chunk.f2 ch ->
                Chunk.f2 ch <= r < y_size g - Chunk.f2 ch ->
                item super_array r c =
                  item (band s_fh) (Chunk.y_start ch - Chunk.f2 ch + r)
                                   (Chunk.x_start ch - Chunk.f2 ch + c)).
Proof.
  intros Hfile Hs0 Hs1 Hx0 Hx1 Hx2 Hx3 Hry g. subst g.
  assert (0 < Chunk.f2 ch) as Hf by lia.
  destruct (super_array_size ch) as [Hxs Hys]. rewrite Hxs, Hys.
  split.
  { rewrite super_array_geometry_axes, edge_logic_far_edge by done.
    destruct (edge_logic (Chunk.y_start ch) _ _ _) as [[[? ?] ?] ?].
    cbn [read_x_off read_x_size]. f_equal. lia. }
  rewrite (read_super_array_of ch w s_fh Hfile).
  destruct (super_array_of_regular ch s_fh ltac:(lia) Hs0 Hs1)
    as (sa & -> & H0 & H1 & Hcell); [unfold axis_regular; lia | done |].
  exists sa. split; [done|]. split; [done|]. split; [done|].
  intros r c Hr Hc. rewrite Hcell by lia.
  destruct Hry as (Hy0 & Hy1 & Hy2 & Hy3).
  unfold axis_read_lo, axis_read_hi.
  destruct (Z.leb_spec (Chunk.x_end ch + Chunk.f2 ch) (Chunk.cols ch)); [lia|].
  split.
  - intros Hc'.
    destruct (Z.ltb_spec (Chunk.x_start ch - Chunk.f2 ch + c) (Chunk.x_end ch));
      [lia|].
    by rewrite !andb_false_r.
  - intros Hc' Hr'.
    destruct (Z.ltb_spec (Chunk.x_start ch - Chunk.f2 ch + c) (Chunk.x_end ch));
      [|lia].
    destruct (Z.leb_spec (Z.max 0 (Chunk.x_start ch - Chunk.f2 ch))
                (Chunk.x_start ch - Chunk.f2 ch + c)); [|lia].
    destruct (Z.leb_spec (Z.max 0 (Chunk.y_start ch - Chunk.f2 ch))
                (Chunk.y_start ch - Chunk.f2 ch + r)); [|lia].
    case_cmp.
Qed.

Lemma far_edge_halo_is_sentinel_witness :
  let ch := ramp_chunk 4 4 8 8 2 12 9 in
  exists super_array,
    read_super_array ch (ramp_world 12 9) = (Ok super_array, ramp_world 12 9)
    /\ item (band (ramp_raster 12 9)) 4 8 = 408%float
    /\ item super_array 2 6 = (-9999)%float
    /\ item super_array 2 5 = 407%float.
Proof.
  destruct (far_edge_halo_is_sentinel (ramp_chunk 4 4 8 8 2 12 9)
              (ramp_world 12 9) (ramp_raster 12 9))
    as (_ & sa & Hread & _ & _ & Hcell);
    [reflexivity | reflexivity | reflexivity | simpl; lia | simpl; lia
    | simpl; lia | simpl; lia | unfold axis_regular; simpl; lia |].
  exists sa. split; [exact Hread|]. split; [reflexivity|].
  split.
  - apply (Hcell 2 6); by vm_compute.
  - apply (Hcell 2 5); by vm_compute.
Defined.

Lemma edge_logic_interior (start end_ f2 dim : Z) :
  f2 <= start -> end_ + f2 <= dim ->
  edge_logic start end_ f2 dim
  = (start - f2, end_ - start + 2 * f2, 0, end_ - start + 2 * f2).
Proof. intros. unfold edge_logic. case_cmp. Qed.

Lemma edge_logic_near_edge (start end_ f2 dim : Z) :
  start < f2 ->
  edge_logic start end_ f2 dim
  = (0, end_ - start + 2 * f2 - f2, f2, end_ - start + 2 * f2).
Proof. intros. unfold edge_logic. case_cmp. Qed.

Lemma slice_range_whole n : 0 <= n -> slice_range n 0 n = (0, 0 + n).
Proof. intros. unfold slice_range, slice_bound. case_cmp; f_equal; lia. Qed.

Lemma slice_range_tail n f2 :
  0 <= f2 -> f2 <= n -> slice_range n f2 n = (f2, f2 + (n - f2)).
Proof. intros. unfold slice_range, slice_bound. case_cmp; f_equal; lia. Qed.

(** X4. For a chunk that starts after the first column but nearer than [f2]
    to it (rows at least [f2] away from both edges): the edge logic clamps
    the read offset to column 0 and pastes the read behind the first [f2]
    columns, as it does for a chunk that starts at column 0.  The column [c]
    of the super array, which stands for the raster's column
    [x_start - f2 + c], therefore holds the raster's column [c - f2]: the
    data is [x_start] columns off. *)
Theorem offset_near_edge_chunk_is_shifted (ch : Chunk.t) (w : world)
    (s_fh : raster) :
  files w !! Chunk.in_dem_path ch = Some s_fh ->
  shape0 (band s_fh) = Chunk.rows ch -> shape1 (band s_fh) = Chunk.cols ch ->
  0 < Chunk.x_start ch -> Chunk.x_start ch < Chunk.f2 ch ->
  Chunk.x_start ch < Chunk.x_end ch ->
  Chunk.x_end ch - Chunk.x_start ch + Chunk.f2 ch <= Chunk.cols ch ->
  Chunk.f2 ch <= Chunk.y_start ch -> Chunk.y_start ch < Chunk.y_end ch ->
  Chunk.y_end ch + Chunk.f2 ch <= Chunk.rows ch ->
  let g := super_array_geometry ch in
  (read_x_off g, read_x_size g)
  = (0, Chunk.x_end ch - Chunk.x_start ch + Chunk.f2 ch)
  /\ exists super_array,
       read_super_array ch w = (Ok super_array, w)
       /\ shape0 super_array = y_size g /\ shape1 super_array = x_size g
       /\ forall r c,
            0 <= r < y_size g -> 0 <= c < x_size g ->
            item super_array r c =
              if c <? Chunk.f2 ch then Chunk.s_nodata ch
              else item (band s_fh) (Chunk.y_start ch - Chunk.f2 ch + r)
                                    (c - Chunk.f2 ch).
Proof.
  intros Hfile Hs0 Hs1 Hx0 Hx1 Hx2 Hx3 Hy0 Hy1 Hy2 g. subst g.
  destruct (super_array_size ch) as [Hxs Hys]. rewrite Hxs, Hys.
  pose proof (edge_logic_near_edge (Chunk.x_start ch) (Chunk.x_end ch)
                (Chunk.f2 ch) (Chunk.cols ch) Hx1) as Hex.
  pose proof (edge_logic_interior (Chunk.y_start ch) (Chunk.y_end ch)
                (Chunk.f2 ch) (Chunk.rows ch) Hy0 Hy2) as Hey.
  split.
  { rewrite super_array_geometry_axes, Hex, Hey.
    cbn [read_x_off read_x_size]. f_equal. lia. }
  rewrite (read_super_array_of ch w s_fh Hfile).
  destruct (super_array_of_axes ch s_fh _ _ _ _ (Chunk.f2 ch) _ _ _ _ 0
              Hs0 Hs1 Hex Hey)
    as (sa & -> & H0 & H1 & Hcell); try lia.
  { rewrite slice_range_tail by lia. f_equal; lia. }
  { apply slice_range_whole. lia. }
  exists sa. split; [done|]. split; [done|]. split; [done|].
  intros r c Hr Hc. rewrite Hcell. case_cmp.
  f_equal; lia.
Qed.

Lemma offset_near_edge_chunk_is_shifted_witness :
  let ch := ramp_chunk 1 4 3 8 2 12 12 in
  exists super_array,
    read_super_array ch (ramp_world 12 12)
      = (Ok super_array, ramp_world 12 12)
    /\ item (band (ramp_raster 12 12)) 4 1 = 401%float
    /\ item super_array 2 2 = 400%float.
Proof.
  destruct (offset_near_edge_chunk_is_shifted (ramp_chunk 1 4 3 8 2 12 12)
              (ramp_world 12 12) (ramp_raster 12 12))
    as (_ & sa & Hread & _ & _ & Hcell);
    [reflexivity | reflexivity | reflexivity | simpl; lia | simpl; lia
    | simpl; lia | simpl; lia | simpl; lia | simpl; lia | simpl; lia |].
  exists sa. split; [exact Hread|]. split; [reflexivity|].
  rewrite (Hcell 2 2) by (by vm_compute). reflexivity.
Defined.

(** ** The reads of a whole partition *)

(** With an overlap that does not exceed the chunk size and a first chunk
    that leaves room for it, every chunk of an axis is regular. *)
Lemma axis_breaks_regular (dim chunk_size f2 : Z) (breaks : list Z) (i : nat) :
  0 < chunk_size -> chunk_size < dim ->
  splits dim chunk_size = Ok breaks ->
  Z.of_nat i < tiles_along dim chunk_size ->
  0 <= f2 -> f2 <= chunk_size -> chunk_size + f2 <= dim ->
  axis_regular (breaks !!! i) (breaks !!! S i) f2 dim.
Proof.
  intros Hc Hd Hb Hi Hf0 Hf1 Hf2.
  rewrite (breaks_lookup dim chunk_size breaks Hc ltac:(lia) Hb i Hi).
  rewrite (breaks_lookup_next dim chunk_size breaks Hc ltac:(lia) Hb i Hi).
  pose proof (tiles_along_bounds dim chunk_size Hc ltac:(lia))
    as (Hk & Hlo & Hhi).
  unfold axis_regular.
  destruct (Z.ltb_spec (Z.of_nat i + 1) (tiles_along dim chunk_size)).
  - split; [lia|]. split; [lia|]. split; [nia|].
    intros Hlt. assert (i = 0%nat) as -> by nia. lia.
  - split; [lia|]. split; [nia|]. split; [lia|].
    intros Hlt. assert (i = 0%nat) as -> by nia. nia.
Qed.

Lemma chunks_regular (R : run_info) (chunk_size : Z) (iterables : list Chunk.t)
    (ch : Chunk.t) :
  0 < chunk_size -> chunk_size < run_rows R -> chunk_size < run_cols R ->
  0 <= run_f2 R -> run_f2 R <= chunk_size ->
  chunk_size + run_f2 R <= run_rows R ->
  chunk_size + run_f2 R <= run_cols R ->
  chunks_of R chunk_size = Ok iterables -> ch ∈ iterables ->
  axis_regular (Chunk.x_start ch) (Chunk.x_end ch) (Chunk.f2 ch)
               (Chunk.cols ch)
  /\ axis_regular (Chunk.y_start ch) (Chunk.y_end ch) (Chunk.f2 ch)
                  (Chunk.rows ch).
Proof.
  intros Hc Hr Hcl Hf0 Hf1 Hfr Hfc Hiter (p & Hp)%list_elem_of_lookup.
  apply (chunks_of_lookup R chunk_size iterables Hc ltac:(lia) ltac:(lia) Hiter)
    in Hp as (i & j & rs & cs & Hrs & Hcs & Hi & Hj & _ & ->).
  cbn [chunk_at make_chunk Chunk.x_start Chunk.x_end Chunk.y_start Chunk.y_end
       Chunk.f2 Chunk.rows Chunk.cols].
  split; by apply (axis_breaks_regular _ chunk_size).
Qed.

(** The read window of a regular chunk lies inside the raster. *)
Lemma regular_read_window (ch : Chunk.t) :
  0 <= Chunk.f2 ch ->
  axis_regular (Chunk.x_start ch) (Chunk.x_end ch) (Chunk.f2 ch)
               (Chunk.cols ch) ->
  axis_regular (Chunk.y_start ch) (Chunk.y_end ch) (Chunk.f2 ch)
               (Chunk.rows ch) ->
  let g := super_array_geometry ch in
  (0 <= read_x_off g /\ 1 <= read_x_size g
   /\ read_x_off g + read_x_size g <= Chunk.cols ch)
  /\ (0 <= read_y_off g /\ 1 <= read_y_size g
      /\ read_y_off g + read_y_size g <= Chunk.rows ch).
Proof.
  intros Hf Hrx Hry g. subst g. rewrite super_array_geometry_axes.
  destruct (edge_logic (Chunk.x_start ch) _ _ _) as [[[rxo rxs] sxs] sxe] eqn:Hex.
  destruct (edge_logic (Chunk.y_start ch) _ _ _) as [[[ryo rys] sys] sye] eqn:Hey.
  cbn [read_x_off read_x_size read_y_off read_y_size].
  split; [by apply (edge_logic_regular _ _ _ _ _ _ _ _ Hf Hrx Hex)
         |by apply (edge_logic_regular _ _ _ _ _ _ _ _ Hf Hry Hey)].
Qed.

(** X5. When the doubled overlap [f2] is not negative and not above the
    chunk size, and the first chunk of each axis extended by [f2] still lies
    inside the raster ([chunk_size + f2 <= rows, cols]), every chunk of the
    partition is regular: its resolved read window lies inside the raster
    and its read and paste complete, with a super array of the padded
    shape. *)
Theorem partition_reads_fit (R : run_info) (chunk_size : Z)
    (iterables : list Chunk.t) (ch : Chunk.t) (w : world) (s_fh : raster) :
  0 < chunk_size -> chunk_size < run_rows R -> chunk_size < run_cols R ->
  0 <= run_f2 R -> run_f2 R <= chunk_size ->
  chunk_size + run_f2 R <= run_rows R ->
  chunk_size + run_f2 R <= run_cols R ->
  chunks_of R chunk_size = Ok iterables -> ch ∈ iterables ->
  files w !! run_in_dem_path R = Some s_fh ->
  shape0 (band s_fh) = run_rows R -> shape1 (band s_fh) = run_cols R ->
  let g := super_array_geometry ch in
  (0 <= read_x_off g /\ read_x_off g + read_x_size g <= run_cols R)
  /\ (0 <= read_y_off g /\ read_y_off g + read_y_size g <= run_rows R)
  /\ exists super_array,
       read_super_array ch w = (Ok super_array, w)
       /\ padded_shape ch super_array.
Proof.
  intros Hc Hr Hcl Hf0 Hf1 Hfr Hfc Hiter Hch Hfile Hs0 Hs1 g. subst g.
  destruct (chunk_fields R chunk_size iterables Hc ltac:(lia) ltac:(lia)
              Hiter ch Hch) as (Hf & Hrows & Hcols & _ & Hin & _).
  destruct (chunks_regular R chunk_size iterables ch Hc Hr Hcl Hf0 Hf1 Hfr Hfc
              Hiter Hch) as [Hrx Hry].
  destruct (regular_read_window ch ltac:(lia) Hrx Hry) as [Hwx Hwy].
  split; [lia|]. split; [lia|].
  rewrite (read_super_array_of ch w s_fh) by (by rewrite Hin).
  destruct (super_array_of_regular ch s_fh ltac:(lia) ltac:(lia) ltac:(lia)
              Hrx Hry) as (sa & -> & H0 & H1 & _).
  exists sa. split; [done|].
  destruct (super_array_size ch) as [Hxs Hys].
  split; lia.
Qed.

Lemma partition_reads_fit_witness :
  exists iterables,
    chunks_of (demo_run 9 9 2) 4 = Ok iterables
    /\ length iterables = 9%nat
    /\ forall ch, ch ∈ iterables ->
         exists super_array,
           read_super_array ch (demo_world 9 9)
             = (Ok super_array, demo_world 9 9)
           /\ padded_shape ch super_array.
Proof.
  destruct (chunks_of (demo_run 9 9 2) 4) as [iterables|] eqn:Hiter;
    [|discriminate Hiter].
  exists iterables. split; [reflexivity|].
  split; [by injection Hiter as <-|].
  intros ch Hch.
  apply (partition_reads_fit (demo_run 9 9 2) 4 iterables ch (demo_world 9 9)
           (flat_raster 9 9 5%float));
    [lia | simpl; lia | simpl; lia | simpl; lia | simpl; lia | simpl; lia
    | simpl; lia | exact Hiter | exact Hch | reflexivity | reflexivity
    | reflexivity].
Defined.

(** ** One chunk from the read to the write *)

Lemma containsb_spec ch r c : containsb ch r c = true <-> contains ch r c.
Proof. unfold containsb, contains. case_cmp; split; (lia || done). Qed.

Lemma written_item (ch : Chunk.t) (t_fh : raster) (temp_array : ndarray float)
    r c :
  shape0 temp_array = Chunk.y_end ch - Chunk.y_start ch ->
  shape1 temp_array = Chunk.x_end ch - Chunk.x_start ch ->
  item (band (written t_fh temp_array (Chunk.x_start ch) (Chunk.y_start ch)))
       r c
  = if containsb ch r c
    then item temp_array (r - Chunk.y_start ch) (c - Chunk.x_start ch)
    else item (band t_fh) r c.
Proof.
  intros H0 H1. unfold written, containsb. cbn [band item]. rewrite H0, H1.
  replace (Chunk.y_start ch + (Chunk.y_end ch - Chunk.y_start ch))
    with (Chunk.y_end ch) by lia.
  replace (Chunk.x_start ch + (Chunk.x_end ch - Chunk.x_start ch))
    with (Chunk.x_end ch) by lia.
  reflexivity.
Qed.

(** A ready chunk whose method acts as [op] is read, processed and written
    in one go. *)
Lemma ProcessSuperArray_tile (E : env)
    (op : Chunk.t -> ndarray float -> ndarray float) (inp outp : string)
    (ch : Chunk.t) (w : world) (s_fh t_fh : raster) :
  tile_ready inp outp (shape0 (band s_fh)) (shape1 (band s_fh)) ch ->
  acts_as E op ch ->
  files w !! inp = Some s_fh -> files w !! outp = Some t_fh ->
  shape0 (band t_fh) = shape0 (band s_fh) ->
  shape1 (band t_fh) = shape1 (band s_fh) ->
  exists temp_array,
    tile_output op ch s_fh = Ok temp_array
    /\ shape0 temp_array = Chunk.y_end ch - Chunk.y_start ch
    /\ shape1 temp_array = Chunk.x_end ch - Chunk.x_start ch
    /\ ProcessSuperArray E ch w =
         (Ok tt,
          mk_world (<[outp := written t_fh temp_array (Chunk.x_start ch)
                                      (Chunk.y_start ch)]> (files w))
                   (exe_log w)).
Proof.
  intros (Hin & Hout & Hrows & Hcols & Hf & Hrx & Hry) Hop Hfin Hfout Ht0 Ht1.
  rewrite <- Hcols in Hrx. rewrite <- Hrows in Hry.
  destruct (super_array_of_regular ch s_fh ltac:(lia) ltac:(lia) ltac:(lia)
              Hrx Hry) as (sa & Hsa & H0 & H1 & _).
  destruct (Hop sa w) as (Happ & Hn0 & Hn1).
  destruct Hrx as (Hx0 & Hx1 & Hx2 & _). destruct Hry as (Hy0 & Hy1 & Hy2 & _).
  destruct (trim_and_mask_same_shape (Chunk.f2 ch) (Chunk.s_nodata ch)
              sa (op ch sa))
    as (temp & Heq & _ & _ & Hshape & _); [lia..|].
  destruct Hshape as [Hs0 Hs1]; [lia..|].
  exists temp. unfold tile_output. rewrite Hsa. cbn [bindR].
  split; [done|]. split; [lia|]. split; [lia|].
  unfold ProcessSuperArray, bindM.
  rewrite (read_super_array_of ch w s_fh) by (by rewrite Hin).
  rewrite Hsa, Happ.
  rewrite (write_back_unfold ch sa (op ch sa) temp t_fh w Heq)
    by (by rewrite Hout).
  rewrite Hout. apply WriteArray_ok; lia.
Qed.

(** ** A whole run *)

Lemma world_eta (w : world) : mk_world (files w) (exe_log w) = w.
Proof. by destruct w. Qed.

(** The loop over a list of ready chunks that share no cell, whatever their
    order. *)
Lemma for_each_tiles (E : env)
    (op : Chunk.t -> ndarray float -> ndarray float) (inp outp : string)
    (s_fh : raster) (l : list Chunk.t) :
  inp <> outp ->
  forall (w : world) (t_fh : raster),
    NoDup l -> tiles_disjoint l ->
    (forall ch, ch ∈ l ->
       tile_ready inp outp (shape0 (band s_fh)) (shape1 (band s_fh)) ch
       /\ acts_as E op ch) ->
    files w !! inp = Some s_fh -> files w !! outp = Some t_fh ->
    shape0 (band t_fh) = shape0 (band s_fh) ->
    shape1 (band t_fh) = shape1 (band s_fh) ->
    exists t',
      for_each (ProcessSuperArray E) l w
        = (Ok tt, mk_world (<[outp := t']> (files w)) (exe_log w))
      /\ tiles_written op l s_fh t_fh t'.
Proof.
  intros Hne. induction l as [|ch l IH];
    intros w t_fh Hnd Hdis Hready Hfin Hfout Ht0 Ht1.
  - exists t_fh. split.
    + cbn [for_each]. unfold ret. by rewrite insert_id, world_eta.
    + repeat split; try done. intros ch Hch. by apply elem_of_nil in Hch.
  - apply NoDup_cons in Hnd as [Hnotin Hnd].
    destruct (Hready ch (list_elem_of_here _ _)) as [Hrdy Hop].
    destruct (ProcessSuperArray_tile E op inp outp ch w s_fh t_fh
                Hrdy Hop Hfin Hfout Ht0 Ht1)
      as (temp & Hout & Hs0 & Hs1 & Hrun).
    set (t1 := written t_fh temp (Chunk.x_start ch) (Chunk.y_start ch)) in *.
    destruct (IH (mk_world (<[outp := t1]> (files w)) (exe_log w)) t1)
      as (t' & Hrest & Hsh0 & Hsh1 & Hnv & Hpx & Hcells).
    + done.
    + intros a b r c Ha Hb. apply Hdis; by apply list_elem_of_further.
    + intros ch' Hch'. apply Hready. by apply list_elem_of_further.
    + cbn [files]. by rewrite lookup_insert_ne.
    + cbn [files]. by rewrite lookup_insert_eq.
    + done.
    + done.
    + exists t'. split.
      * cbn [for_each]. unfold bindM. rewrite Hrun, Hrest.
        cbn [files exe_log]. by rewrite insert_insert_eq.
      * split; [done|]. split; [done|]. split; [done|]. split; [done|].
        intros r c. destruct (Hcells r c) as [Hin Hno]. split.
        -- intros ch0 [->|Hch0]%elem_of_cons Hc0.
           ++ exists temp. split; [done|].
              rewrite Hno.
              ** unfold t1. rewrite written_item by done.
                 by rewrite (proj2 (containsb_spec ch r c) Hc0).
              ** intros ch' Hch' Hc'.
                 assert (ch = ch') as <-; [|done].
                 apply (Hdis ch ch' r c); try done;
                   [apply list_elem_of_here | by apply list_elem_of_further].
           ++ by apply Hin.
        -- intros Hnone. rewrite Hno.
           ++ unfold t1. rewrite written_item by done.
              destruct (containsb ch r c) eqn:Hb; [|done].
              apply containsb_spec in Hb.
              by destruct (Hnone ch (list_elem_of_here _ _)).
           ++ intros ch' Hch'. apply Hnone. by apply list_elem_of_further.
Qed.

(** The chunks of a partition are pairwise different, share no cell, and are
    all ready when the overlap fits the chunk size and the raster. *)
Lemma partition_ready (R : run_info) (chunk_size : Z)
    (iterables : list Chunk.t) :
  0 < chunk_size -> chunk_size < run_rows R -> chunk_size < run_cols R ->
  0 < run_f2 R -> run_f2 R <= chunk_size ->
  chunk_size + run_f2 R <= run_rows R ->
  chunk_size + run_f2 R <= run_cols R ->
  chunks_of R chunk_size = Ok iterables ->
  NoDup iterables /\ tiles_disjoint iterables
  /\ forall ch, ch ∈ iterables ->
       tile_ready (run_in_dem_path R) (run_out_dem_path R)
                  (run_rows R) (run_cols R) ch.
Proof.
  intros Hc Hr Hcl Hf0 Hf1 Hfr Hfc Hiter.
  destruct (chunks_partition R chunk_size iterables Hc ltac:(lia) ltac:(lia)
              Hiter) as (Hidx & _ & _).
  pose proof (chunk_fields R chunk_size iterables Hc ltac:(lia) ltac:(lia)
                Hiter) as Hfields.
  assert (forall p q a, iterables !! p = Some a -> iterables !! q = Some a ->
                        p = q) as Hinj.
  { intros p q a Hp Hq.
    destruct (Hfields a) as (_ & _ & _ & _ & _ & _ & ?);
      [by apply list_elem_of_lookup; exists p|].
    apply (Hidx p q a a (Chunk.y_start a) (Chunk.x_start a) Hp Hq);
      unfold contains; lia. }
  split; [|split].
  - apply NoDup_alt. intros p q a. apply Hinj.
  - intros a b r c (p & Hp)%list_elem_of_lookup (q & Hq)%list_elem_of_lookup
      Ha Hb.
    assert (p = q) as -> by (by apply (Hidx p q a b r c)).
    congruence.
  - intros ch Hch.
    destruct (Hfields ch Hch) as (Hf & Hrows & Hcols & _ & Hin & Hout & _).
    destruct (chunks_regular R chunk_size iterables ch Hc Hr Hcl ltac:(lia)
                Hf1 Hfr Hfc Hiter Hch) as [Hrx Hry].
    rewrite Hcols in Hrx. rewrite Hrows in Hry. rewrite Hf in Hrx, Hry.
    unfold tile_ready. rewrite Hf. split_and!; try done; lia.
Qed.

(** X6. A chunk that is regular on both axes, with a positive [f2] and a
    method that acts as a shape-preserving function [op] of the super array,
    is processed without an exception: [ProcessSuperArray] changes the
    target file only, to the target with the chunk's trimmed and masked
    result on the rectangle of the chunk and its former cells everywhere
    else. *)
Theorem chunk_is_processed_onto_its_rectangle (E : env)
    (op : Chunk.t -> ndarray float -> ndarray float) (ch : Chunk.t)
    (w : world) (s_fh t_fh : raster) :
  tile_ready (Chunk.in_dem_path ch) (Chunk.out_dem_path ch)
             (shape0 (band s_fh)) (shape1 (band s_fh)) ch ->
  acts_as E op ch ->
  files w !! Chunk.in_dem_path ch = Some s_fh ->
  files w !! Chunk.out_dem_path ch = Some t_fh ->
  shape0 (band t_fh) = shape0 (band s_fh) ->
  shape1 (band t_fh) = shape1 (band s_fh) ->
  exists temp_array t',
    tile_output op ch s_fh = Ok temp_array
    /\ shape0 temp_array = Chunk.y_end ch - Chunk.y_start ch
    /\ shape1 temp_array = Chunk.x_end ch - Chunk.x_start ch
    /\ ProcessSuperArray E ch w =
         (Ok tt,
          mk_world (<[Chunk.out_dem_path ch := t']> (files w)) (exe_log w))
    /\ forall r c,
         item (band t') r c =
           if containsb ch r c
           then item temp_array (r - Chunk.y_start ch) (c - Chunk.x_start ch)
           else item (band t_fh) r c.
Proof.
  intros Hrdy Hop Hfin Hfout Ht0 Ht1.
  destruct (ProcessSuperArray_tile E op _ _ ch w s_fh t_fh
              Hrdy Hop Hfin Hfout Ht0 Ht1)
    as (temp & Hout & Hs0 & Hs1 & Hrun).
  exists temp, (written t_fh temp (Chunk.x_start ch) (Chunk.y_start ch)).
  split; [done|]. split; [done|]. split; [done|]. split; [done|].
  intros r c. by apply written_item.
Qed.

(** In the demonstration environment the hillshade filter returns its
    input. *)
Lemma demo_hillshade_acts_as (ch : Chunk.t) :
  Chunk.method ch = "hillshade" -> Chunk.options ch = hillshade_options ->
  acts_as demo_env (fun _ a => a) ch.
Proof.
  intros Hm Ho super_array w. split; [|done].
  unfold apply_method. rewrite Hm, Ho. reflexivity.
Qed.

Lemma chunk_is_processed_onto_its_rectangle_witness :
  exists w' t',
    ProcessSuperArray demo_env grid_tile grid_pair_world = (Ok tt, w')
    /\ files w' !! "out.tif" = Some t'
    /\ item (band t') 0 4 = 15%float
    /\ item (band t') 3 5 = 46%float
    /\ item (band t') 0 3 = 0%float
    /\ item (band t') 4 4 = 0%float.
Proof.
  destruct (chunk_is_processed_onto_its_rectangle demo_env (fun _ a => a)
              grid_tile grid_pair_world grid_source (flat_raster 6 6 0%float))
    as (temp & t' & Hout & _ & _ & Hrun & Hcell);
    [unfold tile_ready, axis_regular; simpl; split_and!; (reflexivity || lia)
    | by apply demo_hillshade_acts_as
    | reflexivity | reflexivity | reflexivity | reflexivity |].
  eexists _, t'. split; [exact Hrun|]. split; [reflexivity|].
  rewrite !Hcell. vm_compute in Hout. injection Hout as <-.
  repeat split; reflexivity.
Defined.

(** X7. On a raster whose dimensions exceed the chunk size, with
    [0 < f2 <= chunk_size] and [chunk_size + f2 <= rows, cols], and a method
    that acts as a shape-preserving function [op]: in whatever order the
    chunks of the partition are processed, the loop of [ProcessSuperArray]
    completes, changes the target file only, and leaves in every cell of the
    target the value that the one chunk holding the cell computes for it
    from the source. *)
Theorem target_is_independent_of_order (E : env)
    (op : Chunk.t -> ndarray float -> ndarray float) (R : run_info)
    (chunk_size : Z) (iterables l : list Chunk.t) (w : world)
    (s_fh t_fh : raster) :
  0 < chunk_size -> chunk_size < run_rows R -> chunk_size < run_cols R ->
  0 < run_f2 R -> run_f2 R <= chunk_size ->
  chunk_size + run_f2 R <= run_rows R ->
  chunk_size + run_f2 R <= run_cols R ->
  chunks_of R chunk_size = Ok iterables -> l ≡ₚ iterables ->
  (forall ch, ch ∈ iterables -> acts_as E op ch) ->
  run_in_dem_path R <> run_out_dem_path R ->
  files w !! run_in_dem_path R = Some s_fh ->
  files w !! run_out_dem_path R = Some t_fh ->
  shape0 (band s_fh) = run_rows R -> shape1 (band s_fh) = run_cols R ->
  shape0 (band t_fh) = run_rows R -> shape1 (band t_fh) = run_cols R ->
  exists t',
    for_each (ProcessSuperArray E) l w
      = (Ok tt,
         mk_world (<[run_out_dem_path R := t']> (files w)) (exe_log w))
    /\ shape0 (band t') = run_rows R /\ shape1 (band t') = run_cols R
    /\ forall r c,
         0 <= r < run_rows R -> 0 <= c < run_cols R ->
         exists ch temp_array,
           ch ∈ iterables /\ contains ch r c
           /\ (forall ch', ch' ∈ iterables -> contains ch' r c -> ch' = ch)
           /\ tile_output op ch s_fh = Ok temp_array
           /\ item (band t') r c
              = item temp_array (r - Chunk.y_start ch) (c - Chunk.x_start ch).
Proof.
  intros Hc Hr Hcl Hf0 Hf1 Hfr Hfc Hiter Hperm Hop Hne Hfin Hfout
    Hs0 Hs1 Ht0 Ht1.
  destruct (partition_ready R chunk_size iterables Hc Hr Hcl Hf0 Hf1 Hfr Hfc
              Hiter) as (Hnd & Hdis & Hrdy).
  destruct (chunks_partition R chunk_size iterables Hc ltac:(lia) ltac:(lia)
              Hiter) as (_ & Hcover & _).
  destruct (for_each_tiles E op (run_in_dem_path R) (run_out_dem_path R)
              s_fh l Hne w t_fh)
    as (t' & Hrun & Hsh0 & Hsh1 & _ & _ & Hcells).
  - by rewrite Hperm.
  - intros a b r c Ha Hb. apply Hdis; by rewrite <- Hperm.
  - intros ch Hch. rewrite Hperm in Hch. rewrite Hs0, Hs1. auto.
  - done.
  - done.
  - lia.
  - lia.
  - exists t'. split; [done|]. split; [lia|]. split; [lia|].
    intros r c Hrr Hcc.
    destruct (Hcover r c Hrr Hcc) as (ch & Hch & Hin).
    destruct (Hcells r c) as [Hval _].
    destruct (Hval ch ltac:(by rewrite Hperm) Hin) as (temp & Hout & Hitem).
    exists ch, temp. split; [done|]. split; [done|].
    split; [|done]. intros ch' Hch' Hin'. by apply (Hdis ch' ch r c).
Qed.

Lemma target_is_independent_of_order_witness :
  exists iterables t',
    chunks_of grid_run 4 = Ok iterables
    /\ for_each (ProcessSuperArray demo_env) (reverse iterables)
                grid_pair_world
       = (Ok tt,
          mk_world (<["out.tif" := t']> (files grid_pair_world)) [])
    /\ forall r c, 0 <= r < 6 -> 0 <= c < 6 ->
         exists ch temp_array,
           ch ∈ iterables /\ contains ch r c
           /\ tile_output (fun _ a => a) ch grid_source = Ok temp_array
           /\ item (band t') r c
              = item temp_array (r - Chunk.y_start ch) (c - Chunk.x_start ch).
Proof.
  destruct (chunks_of grid_run 4) as [iterables|] eqn:Hiter;
    [|discriminate Hiter].
  destruct (target_is_independent_of_order demo_env (fun _ a => a) grid_run 4
              iterables (reverse iterables) grid_pair_world grid_source
              (flat_raster 6 6 0%float))
    as (t' & Hrun & _ & _ & Hcells);
    [lia | simpl; lia | simpl; lia | simpl; lia | simpl; lia | simpl; lia
    | simpl; lia | exact Hiter | apply reverse_Permutation | |
    | reflexivity | reflexivity | reflexivity | reflexivity | reflexivity
    | reflexivity |].
  - intros ch Hch. apply demo_hillshade_acts_as.
    + injection Hiter as <-. revert ch Hch. by apply Forall_forall; repeat constructor.
    + injection Hiter as <-. revert ch Hch. by apply Forall_forall; repeat constructor.
  - discriminate.
  - exists iterables, t'. split; [reflexivity|]. split; [exact Hrun|].
    intros r c Hr Hc.
    destruct (Hcells r c Hr Hc) as (ch & temp & Hch & Hin & _ & Hout & Hitem).
    by exists ch, temp.
Defined.

(** ** The checks and the dispatch *)

Lemma require_options_Ok (opts : list string) (options : gmap string optval)
    (k : string) :
  require_options opts options = Ok tt -> k ∈ opts ->
  exists v, options !! k = Some v /\ getopt options k = Ok v.
Proof.
  unfold require_options.
  destruct (forallb _ opts) eqn:Hall; [|done]. intros _ Hk.
  rewrite forallb_forall in Hall.
  specialize (Hall k (proj1 (list_elem_of_In _ _) Hk)).
  apply bool_decide_eq_true in Hall as [v Hv].
  exists v. unfold getopt. by rewrite Hv.
Qed.

Lemma require_options_cases (opts : list string)
    (options : gmap string optval) :
  require_options opts options = Ok tt
  \/ require_options opts options = Raise ValueError.
Proof. unfold require_options. destruct (forallb _ opts); auto. Qed.

(** Every chunk carries the method, the options and the no-data value of
    the run. *)
Lemma chunk_method_of_run (R : run_info) (chunk_size : Z) iterables ch :
  chunks_of R chunk_size = Ok iterables -> ch ∈ iterables ->
  Chunk.method ch = run_method R /\ Chunk.options ch = run_options R
  /\ Chunk.s_nodata ch = run_s_nodata R
  /\ Chunk.cell_size ch = run_cell_size R.
Proof.
  unfold chunks_of.
  destruct (splits (run_rows R) chunk_size) as [row_splits|]; [|done].
  destruct (splits (run_cols R) chunk_size) as [col_splits|]; [|done].
  simpl. intros [= <-]. rewrite make_iterables_grid.
  intros (i & j & _ & _ & ->)%elem_of_grid. done.
Qed.

Ltac args_in_options :=
  let v := fresh "v" in
  let Hv := fresh "Hv" in
  intros v Hv;
  repeat (apply elem_of_cons in Hv as [->|Hv]; [by eauto|]);
  by apply elem_of_nil in Hv.

(** For every method but [mdenoise], a chunk whose options pass the checks
    of [ParallelRCP] (and hold the luminance lines for [skymodel]) reaches
    its filter: no option is missing and the method is implemented. *)
Lemma apply_method_kernel (E : env) (ch : Chunk.t)
    (overlap used : Z) :
  method_checks (Chunk.method ch) (Chunk.options ch) overlap = Ok used ->
  Chunk.method ch <> "mdenoise" ->
  (Chunk.method ch = "skymodel" ->
   is_Some (Chunk.options ch !! "lum_lines")) ->
  exists args,
    (forall v, v ∈ args -> exists k, Chunk.options ch !! k = Some v)
    /\ forall super_array w,
         apply_method E ch super_array w =
           (kernel E (Chunk.method ch) (Chunk.s_nodata ch)
                   (Chunk.cell_size ch) args super_array, w).
Proof.
  unfold method_checks, apply_method. intros Hchecks Hmd Hsky.
  cbv zeta. revert Hchecks.
  repeat match goal with
         | |- context [String.eqb ?m ?s] =>
             let Heq := fresh "Heq" in
             destruct (String.eqb_spec m s) as [Heq|Heq]; cbv iota
         end;
    intros Hchecks; try congruence;
    match type of Hchecks with
    | bindR (require_options ?opts ?o) _ = _ =>
        destruct (require_options_cases opts o) as [Hreq|Hreq];
        rewrite Hreq in Hchecks; [|done];
        pose proof (require_options_Ok opts o) as Hget
    end.
  - destruct (Hget "filter_size" Hreq) as (fs & Hfs & ->); [set_solver|].
    exists [fs]. split; [|done].
    args_in_options.
  - destruct (Hget "filter_size" Hreq) as (fs & Hfs & ->); [set_solver|].
    destruct (Hget "clip_limit" Hreq) as (clip & Hclip & ->); [set_solver|].
    exists [fs; clip]. split; [|done].
    args_in_options.
  - destruct (Hget "filter_size" Hreq) as (fs & Hfs & ->); [set_solver|].
    exists [fs]. split; [|done].
    args_in_options.
  - destruct (Hget "filter_size" Hreq) as (fs & Hfs & ->); [set_solver|].
    exists [fs]. split; [|done].
    args_in_options.
  - destruct (Hget "az" Hreq) as (az & Haz & ->); [set_solver|].
    destruct (Hget "alt" Hreq) as (alt & Halt & ->); [set_solver|].
    exists [az; alt]. split; [|done].
    args_in_options.
  - match goal with
    | H : Chunk.method ch = "skymodel" |- _ =>
        destruct (Hsky H) as [lines Hlines]
    end.
    exists [lines]. split.
    + args_in_options.
    + intros. unfold getopt. by rewrite Hlines.
Qed.

(** ** A run with filters that return their input *)


(** The chunks of a run with a positive chunk size on a raster with cells. *)
Lemma chunks_of_Ok (R : run_info) (chunk_size : Z) :
  0 < chunk_size -> 0 < run_rows R -> 0 < run_cols R ->
  exists iterables, chunks_of R chunk_size = Ok iterables.
Proof.
  intros Hc Hr Hcl. unfold chunks_of.
  rewrite !splits_pos by done. simpl. eauto.
Qed.

(** The head of [ParallelRCP] for a method other than [skymodel] whose checks
    pass, on a source with a no-data value and a target that does not exist,
    when both dimensions exceed the chunk size: the target is created and
    the chunks are processed one after the other. *)
Lemma ParallelRCP_tiling (E : env) (in_dem_path out_dem_path : string)
    (chunk_size overlap used : Z) (method : string)
    (options : gmap string optval) (num_threads : Z) (verbose : bool)
    (w : world) (s_fh : raster) (s_nodata : float) :
  method_checks method options overlap = Ok used ->
  method <> "skymodel" ->
  files w !! in_dem_path = Some s_fh ->
  nodata_value s_fh = Some s_nodata ->
  files w !! out_dem_path = None ->
  chunk_size < shape0 (band s_fh) -> chunk_size < shape1 (band s_fh) ->
  ParallelRCP E in_dem_path out_dem_path chunk_size overlap method options
              num_threads verbose w
  = bindM (liftR (chunks_of
                    (mk_run_info s_nodata (PrimFloat.abs (pixel_height s_fh))
                       in_dem_path out_dem_path (2 * used)
                       (shape0 (band s_fh)) (shape1 (band s_fh))
                       method options verbose) chunk_size))
          (for_each (ProcessSuperArray E))
          (mk_world
             (<[out_dem_path :=
                  mk_raster (mk_ndarray (shape0 (band s_fh))
                                        (shape1 (band s_fh))
                                        (fun _ _ => created_cell E))
                            (Some s_nodata) (pixel_height s_fh)]> (files w))
             (exe_log w)).
Proof.
  intros Hchecks Hsky Hfin Hnd Hfout Hr Hc.
  unfold ParallelRCP, bindM, liftR, gdal_Open.
  rewrite Hchecks, Hfin, Hnd. cbn [ret].
  rewrite Hfout.
  rewrite bool_decide_eq_false_2 by (by intros [? ?]).
  destruct (String.eqb_spec method "skymodel"); [done|]. cbn [ret].
  destruct (Z.gtb_spec (shape0 (band s_fh)) chunk_size); [|lia].
  destruct (Z.gtb_spec (shape1 (band s_fh)) chunk_size); [|lia].
  reflexivity.
Qed.



(** ** Runs that end before the tiling *)

Lemma require_options_missing (opts : list string)
    (options : gmap string optval) (k : string) :
  k ∈ opts -> options !! k = None ->
  require_options opts options = Raise ValueError.
Proof.
  intros Hk Hnone. unfold require_options.
  destruct (forallb _ opts) eqn:Hall; [|done].
  rewrite forallb_forall in Hall.
  specialize (Hall k (proj1 (list_elem_of_In _ _) Hk)).
  apply bool_decide_eq_true in Hall as [v Hv]. congruence.
Qed.

(** X9. An output path that already holds a file is never written: whatever
    the method, the options and the source, the run ends with an exception
    and every file is as it was.  This covers a run whose output path is its
    input path. *)
Theorem existing_target_is_never_overwritten (E : env)
    (in_dem_path out_dem_path : string) (chunk_size overlap : Z)
    (method : string) (options : gmap string optval) (num_threads : Z)
    (verbose : bool) (w : world) (t_fh : raster) :
  files w !! out_dem_path = Some t_fh ->
  exists e,
    ParallelRCP E in_dem_path out_dem_path chunk_size overlap method options
                num_threads verbose w = (Raise e, w).
Proof.
  intros Hout. unfold ParallelRCP, bindM, liftR, gdal_Open.
  destruct (method_checks method options overlap) as [used|e]; [|eauto].
  destruct (files w !! in_dem_path) as [s_fh|]; [|eauto].
  destruct (nodata_value s_fh) as [s_nodata|]; cbn [ret raise]; [|eauto].
  rewrite Hout.
  rewrite bool_decide_eq_true_2 by eauto. eauto.
Qed.

Lemma existing_target_is_never_overwritten_witness :
  exists e,
    ParallelRCP demo_env "in.tif" "out.tif" 4 1 "hillshade" hillshade_options
                1 false grid_pair_world = (Raise e, grid_pair_world).
Proof.
  apply (existing_target_is_never_overwritten demo_env "in.tif" "out.tif" 4 1
           "hillshade" hillshade_options 1 false grid_pair_world
           (flat_raster 6 6 0%float)).
  reflexivity.
Defined.

(** X10. A method name that the checks do not know ends the run with
    [NotImplementedError] before any file is opened: every file is as it
    was, and it does not matter whether the source exists. *)
Theorem unknown_method_is_refused (E : env)
    (in_dem_path out_dem_path : string) (chunk_size overlap : Z)
    (method : string) (options : gmap string optval) (num_threads : Z)
    (verbose : bool) (w : world) :
  required_opts method = None ->
  ParallelRCP E in_dem_path out_dem_path chunk_size overlap method options
              num_threads verbose w = (Raise NotImplementedError, w).
Proof.
  unfold required_opts, ParallelRCP, bindM, liftR, method_checks.
  repeat match goal with
         | |- context [String.eqb ?m ?s] =>
             destruct (String.eqb m s); cbv iota; [discriminate|]
         end.
  reflexivity.
Qed.

Lemma unknown_method_is_refused_witness :
  ParallelRCP demo_env "in.tif" "out.tif" 4 1 "fftconvolve"
              {[ "filter_size" := VInt 3 ]} 1 false (ramp_world 6 6)
  = (Raise NotImplementedError, ramp_world 6 6).
Proof.
  apply (unknown_method_is_refused demo_env "in.tif" "out.tif" 4 1
           "fftconvolve" {[ "filter_size" := VInt 3 ]} 1 false
           (ramp_world 6 6)).
  reflexivity.
Defined.

(** X11. A required option of the method that is missing from the options
    ends the run with [ValueError] before any file is opened: every file is
    as it was. *)
Theorem missing_option_is_refused (E : env)
    (in_dem_path out_dem_path : string) (chunk_size overlap : Z)
    (method : string) (options : gmap string optval) (num_threads : Z)
    (verbose : bool) (w : world) (opts : list string) (k : string) :
  required_opts method = Some opts -> k ∈ opts -> options !! k = None ->
  ParallelRCP E in_dem_path out_dem_path chunk_size overlap method options
              num_threads verbose w = (Raise ValueError, w).
Proof.
  intros Hopts Hk Hnone.
  unfold ParallelRCP, bindM, liftR.
  assert (method_checks method options overlap = Raise ValueError) as ->;
    [|done].
  revert Hopts. unfold required_opts, method_checks.
  repeat match goal with
         | |- context [String.eqb ?m ?s] =>
             destruct (String.eqb m s); cbv iota;
             [intros [= <-];
              by rewrite (require_options_missing _ options k Hk Hnone)|]
         end.
  done.
Qed.

Lemma missing_option_is_refused_witness :
  ParallelRCP demo_env "in.tif" "out.tif" 4 1 "hillshade"
              {[ "az" := VInt 315 ]} 1 false (ramp_world 6 6)
  = (Raise ValueError, ramp_world 6 6).
Proof.
  apply (missing_option_is_refused demo_env "in.tif" "out.tif" 4 1
           "hillshade" {[ "az" := VInt 315 ]} 1 false (ramp_world 6 6)
           ["alt"; "az"] "alt");
    [reflexivity | set_solver | reflexivity].
Defined.

(** X12. A source that cannot be opened, or that has no no-data value set,
    ends a run whose checks pass before the target is created: the first
    with the error of the raster library, the second with [Exception], and
    every file is as it was. *)
Theorem unusable_source_creates_nothing (E : env)
    (in_dem_path out_dem_path : string) (chunk_size overlap used : Z)
    (method : string) (options : gmap string optval) (num_threads : Z)
    (verbose : bool) (w : world) :
  method_checks method options overlap = Ok used ->
  (files w !! in_dem_path = None ->
   ParallelRCP E in_dem_path out_dem_path chunk_size overlap method options
               num_threads verbose w = (Raise RuntimeError, w))
  /\ (forall s_fh,
        files w !! in_dem_path = Some s_fh -> nodata_value s_fh = None ->
        ParallelRCP E in_dem_path out_dem_path chunk_size overlap method
                    options num_threads verbose w = (Raise Exception, w)).
Proof.
  intros Hchecks. unfold ParallelRCP, bindM, liftR, gdal_Open.
  rewrite Hchecks. split.
  - by intros ->.
  - intros s_fh -> ->. done.
Qed.

Lemma unusable_source_creates_nothing_witness :
  ParallelRCP demo_env "in.tif" "out.tif" 4 1 "hillshade" hillshade_options
              1 false
              (mk_world {[ "in.tif" :=
                             mk_raster (of_rows demo_grid) None 1%float ]} [])
  = (Raise Exception,
     mk_world {[ "in.tif" := mk_raster (of_rows demo_grid) None 1%float ]} []).
Proof.
  apply (proj2 (unusable_source_creates_nothing demo_env "in.tif" "out.tif"
                  4 1 1 "hillshade" hillshade_options 1 false _ eq_refl)
           (mk_raster (of_rows demo_grid) None 1%float));
    reflexivity.
Defined.

(** ** Chunk sizes that are not positive *)

(** X13. A chunk size of zero is found out only after the target has been
    created: for a method other than [skymodel] whose checks pass, on a
    source with cells and a no-data value and a target that does not exist,
    the run ends with the [ValueError] of [range], and the newly created
    target, without any sample written, is left behind. *)
Theorem zero_chunk_size_leaves_blank_target (E : env)
    (in_dem_path out_dem_path : string) (overlap used : Z)
    (method : string) (options : gmap string optval) (num_threads : Z)
    (verbose : bool) (w : world) (s_fh : raster) (s_nodata : float) :
  method_checks method options overlap = Ok used ->
  method <> "skymodel" ->
  files w !! in_dem_path = Some s_fh ->
  nodata_value s_fh = Some s_nodata ->
  files w !! out_dem_path = None ->
  0 < shape0 (band s_fh) -> 0 < shape1 (band s_fh) ->
  ParallelRCP E in_dem_path out_dem_path 0 overlap method options
              num_threads verbose w
  = (Raise ValueError,
     mk_world (<[out_dem_path := created_target E s_fh s_nodata]> (files w))
              (exe_log w)).
Proof.
  intros Hchecks Hsky Hfin Hnd Hfout Hr Hc.
  by rewrite (ParallelRCP_tiling E in_dem_path out_dem_path 0 overlap used
                method options num_threads verbose w s_fh s_nodata).
Qed.

Lemma zero_chunk_size_leaves_blank_target_witness :
  ParallelRCP demo_env "in.tif" "out.tif" 0 1 "hillshade" hillshade_options
              1 false (ramp_world 6 6)
  = (Raise ValueError,
     mk_world (<["out.tif" :=
                   created_target demo_env (ramp_raster 6 6) (-9999)%float]>
                 (files (ramp_world 6 6))) []).
Proof.
  apply (zero_chunk_size_leaves_blank_target demo_env "in.tif" "out.tif" 1 1
           "hillshade" hillshade_options 1 false (ramp_world 6 6)
           (ramp_raster 6 6) (-9999)%float);
    try reflexivity; try done.
Defined.

(** X14. A negative chunk size is not rejected: both dimensions exceed it,
    [range] yields no break, and no chunk is built.  For a method other than
    [skymodel] whose checks pass, with at least one worker process, on a
    source with a no-data value and a target that does not exist, the run
    ends without an exception and leaves
    the newly created target without any sample written. *)
Theorem negative_chunk_size_processes_nothing (E : env)
    (in_dem_path out_dem_path : string) (chunk_size overlap used : Z)
    (method : string) (options : gmap string optval) (num_threads : Z)
    (verbose : bool) (w : world) (s_fh : raster) (s_nodata : float) :
  chunk_size < 0 -> 1 <= num_threads ->
  method_checks method options overlap = Ok used ->
  method <> "skymodel" ->
  files w !! in_dem_path = Some s_fh ->
  nodata_value s_fh = Some s_nodata ->
  files w !! out_dem_path = None ->
  0 <= shape0 (band s_fh) -> 0 <= shape1 (band s_fh) ->
  ParallelRCP E in_dem_path out_dem_path chunk_size overlap method options
              num_threads verbose w
  = (Ok tt,
     mk_world (<[out_dem_path := created_target E s_fh s_nodata]> (files w))
              (exe_log w)).
Proof.
  intros Hneg _ Hchecks Hsky Hfin Hnd Hfout Hr Hc.
  rewrite (ParallelRCP_tiling E in_dem_path out_dem_path chunk_size overlap
             used method options num_threads verbose w s_fh s_nodata)
    by (try done; lia).
  unfold bindM, liftR, chunks_of, splits, py_range. cbn [run_rows run_cols].
  destruct (Z.eqb_spec chunk_size 0); [lia|].
  destruct (Z.ltb_spec 0 chunk_size); [lia|].
  destruct (Z.ltb_spec (shape0 (band s_fh)) 0); [lia|].
  destruct (Z.ltb_spec (shape1 (band s_fh)) 0); [lia|].
  reflexivity.
Qed.

Lemma negative_chunk_size_processes_nothing_witness :
  ParallelRCP demo_env "in.tif" "out.tif" (-4) 1 "hillshade"
              hillshade_options 1 false (ramp_world 6 6)
  = (Ok tt,
     mk_world (<["out.tif" :=
                   created_target demo_env (ramp_raster 6 6) (-9999)%float]>
                 (files (ramp_world 6 6))) []).
Proof.
  apply (negative_chunk_size_processes_nothing demo_env "in.tif" "out.tif"
           (-4) 1 1 "hillshade" hillshade_options 1 false (ramp_world 6 6)
           (ramp_raster 6 6) (-9999)%float);
    try reflexivity; try done; simpl; lia.
Defined.

(** ** What a run leaves alone *)

Lemma only_changes_refl path w : only_changes path w w.
Proof. by split. Qed.

Lemma only_changes_trans path w1 w2 w3 :
  only_changes path w1 w2 -> only_changes path w2 w3 ->
  only_changes path w1 w3.
Proof.
  intros [Hl1 Hf1] [Hl2 Hf2]. split; [congruence|].
  intros q Hq. by rewrite Hf2, Hf1.
Qed.

Lemma only_changes_insert path r w :
  only_changes path w (mk_world (<[path := r]> (files w)) (exe_log w)).
Proof.
  split; [done|]. intros q Hq. cbn [files]. by rewrite lookup_insert_ne.
Qed.

Lemma read_super_array_world ch w : (read_super_array ch w).2 = w.
Proof.
  unfold read_super_array, bindM, gdal_Open, liftR.
  destruct (files w !! Chunk.in_dem_path ch); [|done].
  destruct (ReadAsArray _ _ _ _ _); [|done].
  destruct (np_full _ _ _); done.
Qed.

Lemma apply_method_world (E : env) ch super_array w :
  Chunk.method ch <> "mdenoise" ->
  (apply_method E ch super_array w).2 = w.
Proof.
  intros Hmd. unfold apply_method. cbv zeta.
  repeat match goal with
         | |- context [String.eqb ?m ?s] =>
             destruct (String.eqb_spec m s); cbv iota; [try done|]
         end; done.
Qed.

Lemma write_back_only_changes ch super_array new_data w res w' :
  write_back ch super_array new_data w = (res, w') ->
  only_changes (Chunk.out_dem_path ch) w w'.
Proof.
  unfold write_back, bindM, liftR, gdal_Open, WriteArray.
  destruct (trim_and_mask _ _ _ _) as [temp|];
    [|intros [= _ <-]; apply only_changes_refl].
  destruct (files w !! Chunk.out_dem_path ch) as [t_fh|];
    [|intros [= _ <-]; apply only_changes_refl].
  repeat match goal with
         | |- context [if ?b then _ else _] =>
             destruct b; [intros [= _ <-]; apply only_changes_refl|]
         end.
  intros [= _ <-]. apply only_changes_insert.
Qed.

Lemma ProcessSuperArray_only_changes (E : env) ch w res w' :
  Chunk.method ch <> "mdenoise" ->
  ProcessSuperArray E ch w = (res, w') ->
  only_changes (Chunk.out_dem_path ch) w w'.
Proof.
  intros Hmd. unfold ProcessSuperArray, bindM.
  pose proof (read_super_array_world ch w) as Hread.
  destruct (read_super_array ch w) as [[sa|e] w1]; cbn [snd] in Hread;
    subst w1; [|intros [= _ <-]; apply only_changes_refl].
  pose proof (apply_method_world E ch sa w Hmd) as Happ.
  destruct (apply_method E ch sa w) as [[new_data|e] w1]; cbn [snd] in Happ;
    subst w1; [|intros [= _ <-]; apply only_changes_refl].
  apply write_back_only_changes.
Qed.

Lemma for_each_only_changes (E : env) (path : string) (l : list Chunk.t) :
  (forall ch, ch ∈ l ->
     Chunk.method ch <> "mdenoise" /\ Chunk.out_dem_path ch = path) ->
  forall w res w',
    for_each (ProcessSuperArray E) l w = (res, w') ->
    only_changes path w w'.
Proof.
  induction l as [|ch l IH]; intros Hall w res w'.
  - intros [= _ <-]. apply only_changes_refl.
  - cbn [for_each]. unfold bindM.
    destruct (Hall ch (list_elem_of_here _ _)) as [Hmd Hout].
    destruct (ProcessSuperArray E ch w) as [[[]|e] w1] eqn:Hrun;
      apply ProcessSuperArray_only_changes in Hrun; try done;
      rewrite Hout in Hrun.
    + intros Hrest. apply (only_changes_trans _ _ w1); [done|].
      apply (IH (fun ch' Hch' => Hall ch' (list_elem_of_further _ _ _ Hch'))
                w1 res w' Hrest).
    + by intros [= _ <-].
Qed.

Lemma chunk_out_of_run (R : run_info) (chunk_size : Z) iterables ch :
  chunks_of R chunk_size = Ok iterables -> ch ∈ iterables ->
  Chunk.out_dem_path ch = run_out_dem_path R.
Proof.
  unfold chunks_of.
  destruct (splits (run_rows R) chunk_size) as [row_splits|]; [|done].
  destruct (splits (run_cols R) chunk_size) as [col_splits|]; [|done].
  simpl. intros [= <-]. rewrite make_iterables_grid.
  intros (i & j & _ & _ & ->)%elem_of_grid. done.
Qed.

(** X15. Whatever happens in a run with a method other than [mdenoise],
    success or exception at any point, chunks written or not: the external
    program is not run, and no file but the one at the output path differs
    afterwards.  With an output path other than the input path, the source
    is never changed. *)
Theorem only_the_target_is_ever_changed (E : env)
    (in_dem_path out_dem_path : string) (chunk_size overlap : Z)
    (method : string) (options : gmap string optval) (num_threads : Z)
    (verbose : bool) (w w' : world) (res : result unit) :
  method <> "mdenoise" ->
  ParallelRCP E in_dem_path out_dem_path chunk_size overlap method options
              num_threads verbose w = (res, w') ->
  exe_log w' = exe_log w
  /\ forall path, path <> out_dem_path -> files w' !! path = files w !! path.
Proof.
  intros Hmd. change (?P /\ ?Q) with (only_changes out_dem_path w w').
  unfold ParallelRCP, bindM, liftR, gdal_Open.
  destruct (method_checks method options overlap) as [used|e];
    [|intros [= _ <-]; apply only_changes_refl].
  destruct (files w !! in_dem_path) as [s_fh|];
    [|intros [= _ <-]; apply only_changes_refl].
  destruct (nodata_value s_fh) as [s_nodata|]; cbn [ret raise];
    [|intros [= _ <-]; apply only_changes_refl].
  destruct (bool_decide (is_Some (files w !! out_dem_path)));
    [intros [= _ <-]; apply only_changes_refl|].
  set (w1 := mk_world _ (exe_log w)).
  assert (only_changes out_dem_path w w1) as Hw1
    by apply only_changes_insert.
  destruct (if String.eqb method "skymodel" then _ else _)
    as [[options'|e] w2] eqn:Hopt.
  - assert (w2 = w1) as ->.
    { destruct (String.eqb method "skymodel"); by injection Hopt as _ <-. }
    destruct ((shape0 (band s_fh) >? chunk_size)
              && (shape1 (band s_fh) >? chunk_size));
      [|by intros [= _ <-]].
    destruct (chunks_of _ chunk_size) as [iterables|e] eqn:Hiter;
      [|by intros [= _ <-]].
    intros Hrun. apply (only_changes_trans _ _ w1); [done|].
    apply (for_each_only_changes E out_dem_path iterables) in Hrun; [done|].
    intros ch Hch. split.
    + by rewrite (proj1 (chunk_method_of_run _ _ _ ch Hiter Hch)).
    + by rewrite (chunk_out_of_run _ _ _ ch Hiter Hch).
  - assert (w2 = w1) as ->.
    { destruct (String.eqb method "skymodel"); by injection Hopt as _ <-. }
    by intros [= _ <-].
Qed.

Lemma only_the_target_is_ever_changed_witness :
  exists res w',
    ParallelRCP demo_env "in.tif" "out.tif" 4 0 "hillshade"
                hillshade_options 1 false (ramp_world 6 6) = (res, w')
    /\ exe_log w' = []
    /\ files w' !! "in.tif" = Some (ramp_raster 6 6).
Proof.
  destruct (ParallelRCP demo_env "in.tif" "out.tif" 4 0 "hillshade"
              hillshade_options 1 false (ramp_world 6 6)) as [res w'] eqn:Hrun.
  destruct (only_the_target_is_ever_changed demo_env "in.tif" "out.tif" 4 0
              "hillshade" hillshade_options 1 false (ramp_world 6 6) w' res
              ltac:(done) Hrun) as [Hlog Hfiles].
  exists res, w'. split; [reflexivity|]. split; [exact Hlog|].
  by rewrite Hfiles.
Defined.

(** ** The list of chunks *)

(** X16. The chunks of a run are numbered row by row.  With a positive chunk
    size on a raster with cells, the list holds one chunk for every pair of a
    row band and a column band; the chunk at position [p] carries the
    progress number [p + 1], the length of the list as its total, the tile
    name made of its row and column numbers, and starts at the multiples of
    the chunk size that these numbers give. *)
Theorem chunks_are_numbered_row_by_row (R : run_info) (chunk_size : Z)
    (iterables : list Chunk.t) :
  0 < chunk_size -> 0 < run_rows R -> 0 < run_cols R ->
  chunks_of R chunk_size = Ok iterables ->
  Z.of_nat (length iterables)
  = tiles_along (run_rows R) chunk_size * tiles_along (run_cols R) chunk_size
  /\ forall (p : nat) (ch : Chunk.t),
       iterables !! p = Some ch ->
       Chunk.progress ch = Z.of_nat p + 1
       /\ Chunk.total_chunks ch = Z.of_nat (length iterables)
       /\ Chunk.tile ch
          = pretty (Z.of_nat p / tiles_along (run_cols R) chunk_size)
            +:+ "-"
            +:+ pretty (Z.of_nat p `mod` tiles_along (run_cols R) chunk_size)
       /\ Chunk.y_start ch
          = Z.of_nat p / tiles_along (run_cols R) chunk_size * chunk_size
       /\ Chunk.x_start ch
          = Z.of_nat p `mod` tiles_along (run_cols R) chunk_size * chunk_size.
Proof.
  intros Hc Hr Hcl Hiter.
  pose proof (tiles_along_bounds (run_rows R) chunk_size Hc Hr) as (Hki & _).
  pose proof (tiles_along_bounds (run_cols R) chunk_size Hc Hcl) as (Hkj & _).
  assert (Z.of_nat (length iterables)
          = tiles_along (run_rows R) chunk_size
            * tiles_along (run_cols R) chunk_size) as Hlen.
  { destruct (chunks_of_grid R chunk_size iterables Hc Hr Hcl Hiter)
      as (rs & cs & _ & _ & ->).
    rewrite grid_length. lia. }
  split; [exact Hlen|].
  intros p ch Hp.
  destruct (chunks_of_lookup R chunk_size iterables Hc Hr Hcl Hiter p ch Hp)
    as (i & j & rs & cs & Hrs & Hcs & Hi & Hj & -> & ->).
  pose proof (breaks_length _ _ _ Hc Hr Hrs) as Hlr.
  pose proof (breaks_length _ _ _ Hc Hcl Hcs) as Hlc.
  assert (Z.of_nat (i * Z.to_nat (tiles_along (run_cols R) chunk_size) + j)
          = Z.of_nat i * tiles_along (run_cols R) chunk_size + Z.of_nat j)
    as Hpz by lia.
  assert (Z.of_nat (i * Z.to_nat (tiles_along (run_cols R) chunk_size) + j)
            / tiles_along (run_cols R) chunk_size = Z.of_nat i) as Hdiv.
  { rewrite Hpz. symmetry.
    apply (Z.div_unique _ _ _ (Z.of_nat j)); lia. }
  assert (Z.of_nat (i * Z.to_nat (tiles_along (run_cols R) chunk_size) + j)
            `mod` tiles_along (run_cols R) chunk_size = Z.of_nat j) as Hmod.
  { rewrite Hpz. symmetry.
    apply (Z.mod_unique _ _ (Z.of_nat i)); lia. }
  rewrite Hdiv, Hmod, Hlen.
  cbn [chunk_at make_chunk Chunk.progress Chunk.total_chunks Chunk.tile
       Chunk.y_start Chunk.x_start].
  rewrite Hlr, Hlc.
  rewrite (breaks_lookup _ _ _ Hc Hr Hrs i Hi).
  rewrite (breaks_lookup _ _ _ Hc Hcl Hcs j Hj).
  split_and!; try done; lia.
Qed.

Lemma chunks_are_numbered_row_by_row_witness :
  exists iterables,
    chunks_of (demo_run 9 9 2) 4 = Ok iterables
    /\ Z.of_nat (length iterables) = 9
    /\ forall ch, iterables !! 5%nat = Some ch ->
         Chunk.progress ch = 6 /\ Chunk.total_chunks ch = 9
         /\ Chunk.tile ch = "1-2"
         /\ Chunk.y_start ch = 4 /\ Chunk.x_start ch = 8.
Proof.
  destruct (chunks_of_Ok (demo_run 9 9 2) 4) as [iterables Hiter];
    [lia | simpl; lia | simpl; lia |].
  exists iterables. split; [exact Hiter|].
  destruct (chunks_are_numbered_row_by_row (demo_run 9 9 2) 4 iterables)
    as [Hlen Hat]; [lia | simpl; lia | simpl; lia | exact Hiter |].
  split; [exact Hlen|].
  intros ch Hch. destruct (Hat 5%nat ch Hch) as (H1 & H2 & H3 & H4 & H5).
  rewrite Hlen in H2. split_and!; [exact H1 | exact H2 | exact H3 | exact H4 | exact H5].
Defined.

Lemma axis_break_end (dim chunk_size : Z) (breaks : list Z) (i : nat) :
  0 < chunk_size -> 0 < dim ->
  splits dim chunk_size = Ok breaks ->
  Z.of_nat i < tiles_along dim chunk_size ->
  breaks !!! S i = Z.min (breaks !!! i + chunk_size) dim
  /\ (breaks !!! i) `mod` chunk_size = 0.
Proof.
  intros Hc Hd Hb Hi.
  rewrite (breaks_lookup dim chunk_size breaks Hc Hd Hb i Hi).
  rewrite (breaks_lookup_next dim chunk_size breaks Hc Hd Hb i Hi).
  pose proof (tiles_along_bounds dim chunk_size Hc Hd) as (Hk & Hlo & Hhi).
  split; [|by apply Z.mod_mul; lia].
  destruct (Z.ltb_spec (Z.of_nat i + 1) (tiles_along dim chunk_size)); nia.
Qed.

(** X17. Every chunk starts at a multiple of the chunk size on both axes
    and ends one chunk size further, or at the edge of the raster if that
    comes first: only the chunks of the last row band and of the last column
    band can be smaller than the chunk size, and none is larger. *)
Theorem chunks_end_at_next_break_or_edge (R : run_info) (chunk_size : Z)
    (iterables : list Chunk.t) (ch : Chunk.t) :
  0 < chunk_size -> 0 < run_rows R -> 0 < run_cols R ->
  chunks_of R chunk_size = Ok iterables -> ch ∈ iterables ->
  Chunk.x_start ch `mod` chunk_size = 0
  /\ Chunk.y_start ch `mod` chunk_size = 0
  /\ Chunk.x_end ch = Z.min (Chunk.x_start ch + chunk_size) (run_cols R)
  /\ Chunk.y_end ch = Z.min (Chunk.y_start ch + chunk_size) (run_rows R).
Proof.
  intros Hc Hr Hcl Hiter (p & Hp)%list_elem_of_lookup.
  destruct (chunks_of_lookup R chunk_size iterables Hc Hr Hcl Hiter p ch Hp)
    as (i & j & rs & cs & Hrs & Hcs & Hi & Hj & _ & ->).
  cbn [chunk_at make_chunk Chunk.x_start Chunk.x_end Chunk.y_start
       Chunk.y_end].
  destruct (axis_break_end _ _ _ i Hc Hr Hrs Hi) as [Hye Hys].
  destruct (axis_break_end _ _ _ j Hc Hcl Hcs Hj) as [Hxe Hxs].
  done.
Qed.

Lemma chunks_end_at_next_break_or_edge_witness :
  Chunk.x_start demo_chunk `mod` 4 = 0
  /\ Chunk.y_start demo_chunk `mod` 4 = 0
  /\ Chunk.x_end demo_chunk = Z.min (Chunk.x_start demo_chunk + 4) 9
  /\ Chunk.y_end demo_chunk = Z.min (Chunk.y_start demo_chunk + 4) 9.
Proof.
  destruct demo_chunk_is_first as [rest Hrest].
  apply (chunks_end_at_next_break_or_edge (demo_run 9 9 2) 4
           (demo_chunk :: rest) demo_chunk);
    [lia | simpl; lia | simpl; lia | exact Hrest | apply list_elem_of_here].
Defined.

(** ** The temporary files of [mdenoise] on the paths without a failing
    executable *)

(** [mdenoise] up to the end of the external program, when that exits with
    status 0. *)
Lemma mdenoise_after_exe (E : env) s_nodata cell_size in_array t n v tile w
    fs :
  PrimFloat.eqb (np_mean in_array) s_nodata = false ->
  run_mdenoise E
    (mk_call mdenoise_path (mesh_paths E tile).1 t n v (mesh_paths E tile).2)
    (<[(mesh_paths E tile).1 := mk_raster in_array (Some s_nodata) cell_size]>
       (files w)) = (0, fs) ->
  mdenoise E s_nodata cell_size in_array t n v tile w
  = (let* temp_t_fh := gdal_Open (mesh_paths E tile).2 in
     let* _ := suppress FileNotFoundError
                 (let* _ := os_remove (mesh_paths E tile).1 in
                  os_remove (mesh_paths E tile).2) in
     ret (band temp_t_fh))
      (mk_world fs
         (exe_log w
          ++ [mk_call mdenoise_path (mesh_paths E tile).1 t n v
                      (mesh_paths E tile).2])).
Proof.
  intros Hmean. unfold mdenoise. rewrite Hmean.
  destruct (mesh_paths E tile) as [temp_s_path temp_t_path]. cbn [fst snd].
  intros Hrun.
  unfold bindM at 1. unfold WriteASC at 1.
  unfold bindM at 1. unfold check_output at 1. cbn [files exe_log].
  rewrite Hrun. reflexivity.
Qed.

(** X18. When the executable exits with status 0 and both temporary files
    exist afterwards, [mdenoise] returns the samples of the file the
    executable wrote, has run the executable once, and has removed both
    temporary files: every other file is as the executable left it. *)
Theorem denoise_success_cleans_up (E : env) (s_nodata cell_size : float)
    (in_array : ndarray float) (t n v : optval) (tile : option string)
    (w : world) (fs : gmap string raster) (s_file t_file : raster) :
  PrimFloat.eqb (np_mean in_array) s_nodata = false ->
  run_mdenoise E
    (mk_call mdenoise_path (mesh_paths E tile).1 t n v (mesh_paths E tile).2)
    (<[(mesh_paths E tile).1 := mk_raster in_array (Some s_nodata) cell_size]>
       (files w)) = (0, fs) ->
  fs !! (mesh_paths E tile).1 = Some s_file ->
  fs !! (mesh_paths E tile).2 = Some t_file ->
  (mesh_paths E tile).1 <> (mesh_paths E tile).2 ->
  mdenoise E s_nodata cell_size in_array t n v tile w
  = (Ok (band t_file),
     mk_world (delete (mesh_paths E tile).2 (delete (mesh_paths E tile).1 fs))
              (exe_log w
               ++ [mk_call mdenoise_path (mesh_paths E tile).1 t n v
                           (mesh_paths E tile).2])).
Proof.
  intros Hmean Hrun Hs Ht Hne.
  rewrite (mdenoise_after_exe E s_nodata cell_size in_array t n v tile w fs
             Hmean Hrun).
  unfold bindM, gdal_Open, suppress, os_remove, ret. cbn [files exe_log].
  rewrite Ht. cbn [files exe_log]. rewrite Hs. cbn [files exe_log].
  by rewrite lookup_delete_ne, Ht.
Qed.

Lemma denoise_success_cleans_up_witness :
  exists w',
    mdenoise copying_env (-9999)%float 1%float
             (of_rows [[1; 2]; [3; 4]]%float)
             (VFloat 0.5%float) (VInt 50) (VInt 50) (Some "0-0")
             (demo_world 9 9)
      = (Ok (of_rows [[1; 2]; [3; 4]]%float), w')
    /\ files w' !! "/tmp/mesh_source_0-0.asc" = None
    /\ files w' !! "/tmp/mesh_target_0-0.asc" = None
    /\ length (exe_log w') = 1%nat.
Proof.
  eexists. split.
  - apply (denoise_success_cleans_up copying_env (-9999)%float 1%float
             (of_rows [[1; 2]; [3; 4]]%float)
             (VFloat 0.5%float) (VInt 50) (VInt 50) (Some "0-0")
             (demo_world 9 9)
             (<["/tmp/mesh_target_0-0.asc" :=
                  mk_raster (of_rows [[1; 2]; [3; 4]]%float)
                            (Some (-9999)%float) 1%float]>
                (<["/tmp/mesh_source_0-0.asc" :=
                     mk_raster (of_rows [[1; 2]; [3; 4]]%float)
                               (Some (-9999)%float) 1%float]>
                   (files (demo_world 9 9))))
             (mk_raster (of_rows [[1; 2]; [3; 4]]%float)
                        (Some (-9999)%float) 1%float)
             (mk_raster (of_rows [[1; 2]; [3; 4]]%float)
                        (Some (-9999)%float) 1%float));
      [reflexivity | by vm_compute | by vm_compute | by vm_compute | done].
  - split; [reflexivity|]. split; reflexivity.
Defined.

(** X19. When the executable exits with status 0 but the temporary source
    file is gone afterwards, the first [os.remove] raises
    [FileNotFoundError] inside the [suppress] block, which ends the block:
    [mdenoise] still returns the samples the executable wrote, and the files
    are exactly those the executable left, the temporary target file among
    them. *)
Theorem vanished_temp_source_skips_cleanup (E : env)
    (s_nodata cell_size : float) (in_array : ndarray float) (t n v : optval)
    (tile : option string) (w : world) (fs : gmap string raster)
    (t_file : raster) :
  PrimFloat.eqb (np_mean in_array) s_nodata = false ->
  run_mdenoise E
    (mk_call mdenoise_path (mesh_paths E tile).1 t n v (mesh_paths E tile).2)
    (<[(mesh_paths E tile).1 := mk_raster in_array (Some s_nodata) cell_size]>
       (files w)) = (0, fs) ->
  fs !! (mesh_paths E tile).1 = None ->
  fs !! (mesh_paths E tile).2 = Some t_file ->
  mdenoise E s_nodata cell_size in_array t n v tile w
  = (Ok (band t_file),
     mk_world fs
       (exe_log w
        ++ [mk_call mdenoise_path (mesh_paths E tile).1 t n v
                    (mesh_paths E tile).2])).
Proof.
  intros Hmean Hrun Hs Ht.
  rewrite (mdenoise_after_exe E s_nodata cell_size in_array t n v tile w fs
             Hmean Hrun).
  unfold bindM, gdal_Open, suppress, os_remove, ret. cbn [files exe_log].
  rewrite Ht. cbn [files exe_log]. rewrite Hs. cbn [files exe_log].
  by rewrite bool_decide_eq_true_2.
Qed.

Lemma vanished_temp_source_skips_cleanup_witness :
  exists w',
    mdenoise moving_env (-9999)%float 1%float
             (of_rows [[1; 2]; [3; 4]]%float)
             (VFloat 0.5%float) (VInt 50) (VInt 50) (Some "0-0")
             (demo_world 9 9)
      = (Ok (of_rows [[1; 2]; [3; 4]]%float), w')
    /\ (band <$> files w' !! "/tmp/mesh_target_0-0.asc")
       = Some (of_rows [[1; 2]; [3; 4]]%float).
Proof.
  eexists. split.
  - apply (vanished_temp_source_skips_cleanup moving_env (-9999)%float
             1%float (of_rows [[1; 2]; [3; 4]]%float)
             (VFloat 0.5%float) (VInt 50) (VInt 50) (Some "0-0")
             (demo_world 9 9)
             (<["/tmp/mesh_target_0-0.asc" :=
                  mk_raster (of_rows [[1; 2]; [3; 4]]%float)
                            (Some (-9999)%float) 1%float]>
                (files (demo_world 9 9)))
             (mk_raster (of_rows [[1; 2]; [3; 4]]%float)
                        (Some (-9999)%float) 1%float));
      [reflexivity | by vm_compute | by vm_compute | by vm_compute].
  - reflexivity.
Defined.

(** X20. When the executable exits with status 0 without leaving the file
    it was to write, opening that file fails: [mdenoise] ends with the error
    of the raster library and removes nothing, so that the temporary source
    file, if the executable left it, stays behind. *)
Theorem denoise_without_output_fails (E : env) (s_nodata cell_size : float)
    (in_array : ndarray float) (t n v : optval) (tile : option string)
    (w : world) (fs : gmap string raster) :
  PrimFloat.eqb (np_mean in_array) s_nodata = false ->
  run_mdenoise E
    (mk_call mdenoise_path (mesh_paths E tile).1 t n v (mesh_paths E tile).2)
    (<[(mesh_paths E tile).1 := mk_raster in_array (Some s_nodata) cell_size]>
       (files w)) = (0, fs) ->
  fs !! (mesh_paths E tile).2 = None ->
  mdenoise E s_nodata cell_size in_array t n v tile w
  = (Raise RuntimeError,
     mk_world fs
       (exe_log w
        ++ [mk_call mdenoise_path (mesh_paths E tile).1 t n v
                    (mesh_paths E tile).2])).
Proof.
  intros Hmean Hrun Ht.
  rewrite (mdenoise_after_exe E s_nodata cell_size in_array t n v tile w fs
             Hmean Hrun).
  unfold bindM, gdal_Open. cbn [files]. by rewrite Ht.
Qed.

Lemma denoise_without_output_fails_witness :
  exists w',
    mdenoise silent_env (-9999)%float 1%float
             (of_rows [[1; 2]; [3; 4]]%float)
             (VFloat 0.5%float) (VInt 50) (VInt 50) (Some "0-0")
             (demo_world 9 9)
      = (Raise RuntimeError, w')
    /\ (band <$> files w' !! "/tmp/mesh_source_0-0.asc")
       = Some (of_rows [[1; 2]; [3; 4]]%float).
Proof.
  eexists. split.
  - apply (denoise_without_output_fails silent_env (-9999)%float 1%float
             (of_rows [[1; 2]; [3; 4]]%float)
             (VFloat 0.5%float) (VInt 50) (VInt 50) (Some "0-0")
             (demo_world 9 9)
             (<["/tmp/mesh_source_0-0.asc" :=
                  mk_raster (of_rows [[1; 2]; [3; 4]]%float)
                            (Some (-9999)%float) 1%float]>
                (files (demo_world 9 9))));
      [reflexivity | by vm_compute | by vm_compute].
  - reflexivity.
Defined.

(** ** The luminance lines of [skymodel] *)

(** X21. For [skymodel] the checks ask for the option [lum_file] only, and
    the dispatch reads [lum_lines]: [ParallelRCP] fills the gap.  With a
    luminance file that can be read, at least one worker process, on a
    source with a no-data value, a target that does not exist and both
    dimensions above the chunk size, the
    run is the loop over the chunks built with the lines stored under
    [lum_lines], and on each of these chunks the dispatch calls the filter
    with exactly these lines and touches no file. *)
Theorem skymodel_lines_reach_every_chunk (E : env)
    (in_dem_path out_dem_path : string) (chunk_size overlap : Z)
    (options : gmap string optval) (num_threads : Z) (verbose : bool)
    (w : world) (s_fh : raster) (s_nodata : float) (lum_file : optval)
    (lines : list (list string)) :
  options !! "lum_file" = Some lum_file ->
  read_csv E lum_file = Ok lines ->
  files w !! in_dem_path = Some s_fh ->
  nodata_value s_fh = Some s_nodata ->
  files w !! out_dem_path = None ->
  1 <= num_threads ->
  chunk_size < shape0 (band s_fh) -> chunk_size < shape1 (band s_fh) ->
  let R := mk_run_info s_nodata (PrimFloat.abs (pixel_height s_fh))
             in_dem_path out_dem_path (2 * overlap)
             (shape0 (band s_fh)) (shape1 (band s_fh)) "skymodel"
             (<["lum_lines" := VLines lines]> options) verbose in
  ParallelRCP E in_dem_path out_dem_path chunk_size overlap "skymodel"
              options num_threads verbose w
  = bindM (liftR (chunks_of R chunk_size)) (for_each (ProcessSuperArray E))
          (mk_world
             (<[out_dem_path := created_target E s_fh s_nodata]> (files w))
             (exe_log w))
  /\ forall iterables ch super_array w0,
       chunks_of R chunk_size = Ok iterables -> ch ∈ iterables ->
       apply_method E ch super_array w0
       = (kernel E "skymodel" s_nodata (PrimFloat.abs (pixel_height s_fh))
                 [VLines lines] super_array, w0).
Proof.
  intros Hlum Hcsv Hfin Hnd Hfout _ Hr Hc R. split.
  - unfold ParallelRCP, bindM, liftR, gdal_Open, method_checks,
      require_options, getopt.
    cbn [String.eqb Ascii.eqb Bool.eqb forallb].
    rewrite Hlum.
    rewrite bool_decide_eq_true_2 by eauto. cbn [andb bindR].
    rewrite Hfin, Hnd. cbn [ret]. rewrite Hfout.
    rewrite bool_decide_eq_false_2 by (by intros [? ?]).
    rewrite Hcsv. cbn [bindR].
    destruct (Z.gtb_spec (shape0 (band s_fh)) chunk_size); [|lia].
    destruct (Z.gtb_spec (shape1 (band s_fh)) chunk_size); [|lia].
    reflexivity.
  - intros iterables ch super_array w0 Hiter Hch.
    destruct (chunk_method_of_run R chunk_size iterables ch Hiter Hch)
      as (Hm & Ho & Hn & Hcs).
    unfold apply_method. cbv zeta. rewrite Hm, Ho, Hn, Hcs.
    cbn [run_method run_options run_s_nodata run_cell_size R
         String.eqb Ascii.eqb Bool.eqb].
    unfold liftR, getopt. by rewrite lookup_insert_eq.
Qed.

Lemma skymodel_lines_reach_every_chunk_witness :
  let R := mk_run_info (-9999)%float 1%float "in.tif" "out.tif" 2 6 6
             "skymodel"
             (<["lum_lines" := VLines []]> {[ "lum_file" := VStr "lum.csv" ]})
             false in
  ParallelRCP demo_env "in.tif" "out.tif" 4 1 "skymodel"
              {[ "lum_file" := VStr "lum.csv" ]} 1 false (ramp_world 6 6)
  = bindM (liftR (chunks_of R 4)) (for_each (ProcessSuperArray demo_env))
          (mk_world
             (<["out.tif" :=
                  created_target demo_env (ramp_raster 6 6) (-9999)%float]>
                (files (ramp_world 6 6))) [])
  /\ forall iterables ch super_array w0,
       chunks_of R 4 = Ok iterables -> ch ∈ iterables ->
       apply_method demo_env ch super_array w0 = (Ok super_array, w0).
Proof.
  pose proof (skymodel_lines_reach_every_chunk demo_env "in.tif" "out.tif"
                4 1 {[ "lum_file" := VStr "lum.csv" ]} 1 false
                (ramp_world 6 6) (ramp_raster 6 6) (-9999)%float
                (VStr "lum.csv") []) as H.
  cbv zeta in H.
  destruct H as [Hrun Hdisp];
    [by vm_compute | reflexivity | by vm_compute | reflexivity
    | by vm_compute | lia | simpl; lia | simpl; lia |].
  split; [exact Hrun|]. intros iterables ch super_array w0 Hiter Hch.
  exact (Hdisp iterables ch super_array w0 Hiter Hch).
Defined.

(** ** From the checks to the filter *)

(** X22. The checks at the head of [ParallelRCP] are enough for the
    dispatch of [ProcessSuperArray].  For a chunk that carries a method
    other than [mdenoise] and options that passed the checks (with the
    luminance lines added for [skymodel]), the dispatch is one call of the
    filter of that method with values taken from the options: no option is
    found missing, the method is implemented, and no file is touched. *)
Theorem checked_options_reach_the_filter (E : env) (ch : Chunk.t)
    (overlap used : Z) :
  method_checks (Chunk.method ch) (Chunk.options ch) overlap = Ok used ->
  Chunk.method ch <> "mdenoise" ->
  (Chunk.method ch = "skymodel" ->
   is_Some (Chunk.options ch !! "lum_lines")) ->
  exists args,
    (forall v, v ∈ args -> exists k, Chunk.options ch !! k = Some v)
    /\ forall super_array w,
         apply_method E ch super_array w =
           (kernel E (Chunk.method ch) (Chunk.s_nodata ch)
                   (Chunk.cell_size ch) args super_array, w).
Proof. apply apply_method_kernel. Qed.

Lemma checked_options_reach_the_filter_witness :
  exists args,
    (forall v, v ∈ args -> exists k, Chunk.options grid_tile !! k = Some v)
    /\ forall super_array w,
         apply_method demo_env grid_tile super_array w =
           (kernel demo_env "hillshade" (-9999)%float 1%float args
                   super_array, w).
Proof.
  apply (checked_options_reach_the_filter demo_env grid_tile 1 1);
    [reflexivity | done | done].
Defined.

(** ** A run with any filter that keeps the shape *)





(** ** The tile names and the temporary files of a run *)

Lemma pretty_N_go_has_char (c : Ascii.ascii) (x : N) (s : string) :
  (forall n, pretty_N_char n <> c) ->
  has_char c s = false -> has_char c (pretty_N_go x s) = false.
Proof.
  intros Hc. revert s.
  induction (N.lt_wf_0 x) as [x _ IH]; intros s Hs.
  destruct (decide (0 < x)%N) as [Hpos|Hzero].
  - rewrite pretty_N_go_step by done. apply IH; [by apply N.div_lt|].
    cbn [has_char]. rewrite Hs, orb_false_r.
    apply Ascii.eqb_neq, Hc.
  - replace x with 0%N by lia. by rewrite pretty_N_go_0.
Qed.

Lemma pretty_nat_no_dash (i : nat) :
  has_char dash (pretty (Z.of_nat i)) = false.
Proof.
  destruct (Z.of_nat i) as [|x|x] eqn:Hi; [done| |lia].
  unfold pretty, pretty_Z, pretty, pretty_positive, pretty, pretty_N.
  destruct (decide (N.pos x = 0%N)); [done|].
  apply pretty_N_go_has_char; [|done].
  intros m. unfold pretty_N_char. by repeat case_match.
Qed.

Lemma append_split_at (c : Ascii.ascii) (s1 t1 s2 t2 : string) :
  has_char c s1 = false -> has_char c s2 = false ->
  s1 +:+ String c t1 = s2 +:+ String c t2 -> s1 = s2 /\ t1 = t2.
Proof.
  revert s2. induction s1 as [|a s1 IH]; intros [|b s2]; cbn [has_char].
  - intros _ _ [= ->]. done.
  - intros _ [Hb _]%orb_false_elim [= <- _].
    by rewrite Ascii.eqb_refl in Hb.
  - intros [Ha _]%orb_false_elim _ [= -> _].
    by rewrite Ascii.eqb_refl in Ha.
  - intros [_ H1]%orb_false_elim [_ H2]%orb_false_elim [= -> Heq].
    destruct (IH s2 H1 H2 Heq) as [-> ->]. done.
Qed.

Lemma append_length (s u : string) :
  String.length (s +:+ u) = (String.length s + String.length u)%nat.
Proof. induction s as [|a s IH]; [done|]. simpl. by rewrite IH. Qed.

Lemma append_inj_r (s1 s2 u : string) : s1 +:+ u = s2 +:+ u -> s1 = s2.
Proof.
  revert s2. induction s1 as [|a s1 IH]; intros [|b s2] Heq.
  - done.
  - apply (f_equal String.length) in Heq.
    rewrite !append_length in Heq. cbn [String.length] in Heq. lia.
  - apply (f_equal String.length) in Heq.
    rewrite !append_length in Heq. cbn [String.length] in Heq. lia.
  - injection Heq as -> Heq. by rewrite (IH s2 Heq).
Qed.

Lemma tile_name_inj (i j i' j' : nat) :
  pretty (Z.of_nat i) +:+ "-" +:+ pretty (Z.of_nat j)
  = pretty (Z.of_nat i') +:+ "-" +:+ pretty (Z.of_nat j') ->
  i = i' /\ j = j'.
Proof.
  intros Heq.
  apply append_split_at in Heq as [Hi Hj]; [|apply pretty_nat_no_dash..].
  apply (inj pretty) in Hi. apply (inj pretty) in Hj. lia.
Qed.

(** X24. The chunks of a run have tile names of their own, and so, when
    joining a directory and a file name loses nothing of the file name,
    temporary files of their own: no temporary source or target file of one
    chunk is the temporary source or target file of another. *)
Theorem chunks_have_temp_files_of_their_own (E : env) (R : run_info)
    (chunk_size : Z) (iterables : list Chunk.t) (p q : nat) (a b : Chunk.t) :
  0 < chunk_size -> 0 < run_rows R -> 0 < run_cols R ->
  chunks_of R chunk_size = Ok iterables ->
  (forall d f g, path_join E d f = path_join E d g -> f = g) ->
  iterables !! p = Some a -> iterables !! q = Some b -> p <> q ->
  Chunk.tile a <> Chunk.tile b
  /\ (mesh_paths E (Some (Chunk.tile a))).1
     <> (mesh_paths E (Some (Chunk.tile b))).1
  /\ (mesh_paths E (Some (Chunk.tile a))).1
     <> (mesh_paths E (Some (Chunk.tile b))).2
  /\ (mesh_paths E (Some (Chunk.tile a))).2
     <> (mesh_paths E (Some (Chunk.tile b))).1
  /\ (mesh_paths E (Some (Chunk.tile a))).2
     <> (mesh_paths E (Some (Chunk.tile b))).2.
Proof.
  intros Hc Hr Hcl Hiter Hjoin Ha Hb Hpq.
  destruct (chunks_of_lookup R chunk_size iterables Hc Hr Hcl Hiter p a Ha)
    as (i & j & rs & cs & Hrs & Hcs & Hi & Hj & -> & ->).
  destruct (chunks_of_lookup R chunk_size iterables Hc Hr Hcl Hiter q b Hb)
    as (i' & j' & rs' & cs' & Hrs' & Hcs' & Hi' & Hj' & -> & ->).
  cbn [chunk_at make_chunk Chunk.tile].
  assert (pretty (Z.of_nat i) +:+ "-" +:+ pretty (Z.of_nat j)
          <> pretty (Z.of_nat i') +:+ "-" +:+ pretty (Z.of_nat j')) as Hne.
  { intros [-> ->]%tile_name_inj. done. }
  assert (forall s t : string, s +:+ "-" +:+ t <> "") as Hnonempty.
  { intros [|x s] t; discriminate. }
  split; [exact Hne|].
  unfold mesh_paths.
  rewrite !bool_decide_eq_false_2 by apply Hnonempty.
  cbn [fst snd].
  split_and!; intros Heq%Hjoin; simpl in Heq;
    try discriminate Heq;
    injection Heq as Heq; exact (Hne (append_inj_r _ _ ".asc" Heq)).
Qed.

Lemma demo_chunks_first_two :
  exists rest,
    chunks_of (demo_run 9 9 2) 4 = Ok (demo_chunk :: demo_chunk_next :: rest).
Proof. eexists. reflexivity. Qed.

Lemma chunks_have_temp_files_of_their_own_witness :
  Chunk.tile demo_chunk <> Chunk.tile demo_chunk_next
  /\ (mesh_paths demo_env (Some (Chunk.tile demo_chunk))).1
     <> (mesh_paths demo_env (Some (Chunk.tile demo_chunk_next))).1
  /\ (mesh_paths demo_env (Some (Chunk.tile demo_chunk))).1
     <> (mesh_paths demo_env (Some (Chunk.tile demo_chunk_next))).2
  /\ (mesh_paths demo_env (Some (Chunk.tile demo_chunk))).2
     <> (mesh_paths demo_env (Some (Chunk.tile demo_chunk_next))).1
  /\ (mesh_paths demo_env (Some (Chunk.tile demo_chunk))).2
     <> (mesh_paths demo_env (Some (Chunk.tile demo_chunk_next))).2.
Proof.
  destruct demo_chunks_first_two as [rest Hrest].
  apply (chunks_have_temp_files_of_their_own demo_env (demo_run 9 9 2) 4
           (demo_chunk :: demo_chunk_next :: rest) 0 1);
    [lia | simpl; lia | simpl; lia | exact Hrest | | reflexivity
    | reflexivity | lia].
  intros d f g Heq. cbn [path_join demo_env] in Heq.
  by apply (inj (String.append d)), (inj (String.append "/")) in Heq.
Defined.

(** ** C10: a zero overlap, through the whole run *)

(** A chunk with [f2 = 0] and a method other than [mdenoise] leaves every
    file as it was, whatever its outcome. *)
Lemma ProcessSuperArray_zero_overlap (E : env) (ch : Chunk.t) (w : world)
    (t_fh : raster) :
  Chunk.f2 ch = 0 -> Chunk.method ch <> "mdenoise" ->
  files w !! Chunk.out_dem_path ch = Some t_fh ->
  Chunk.x_start ch <= shape1 (band t_fh) ->
  Chunk.y_start ch <= shape0 (band t_fh) ->
  exists res, ProcessSuperArray E ch w = (res, w).
Proof.
  intros Hf Hmd Hfile Hx Hy. unfold ProcessSuperArray, bindM.
  pose proof (read_super_array_world ch w) as Hread.
  destruct (read_super_array ch w) as [[sa|e] w1]; cbn [snd] in Hread;
    subst w1; [|eauto].
  pose proof (apply_method_world E ch sa w Hmd) as Happ.
  destruct (apply_method E ch sa w) as [[new_data|e] w1]; cbn [snd] in Happ;
    subst w1; [|eauto].
  rewrite (write_back_zero_overlap ch sa new_data w t_fh Hf Hfile Hx Hy).
  eauto.
Qed.

Lemma for_each_zero_overlap (E : env) (path : string) (t_fh : raster)
    (l : list Chunk.t) (w : world) :
  (forall ch, ch ∈ l ->
     Chunk.f2 ch = 0 /\ Chunk.method ch <> "mdenoise"
     /\ Chunk.out_dem_path ch = path
     /\ Chunk.x_start ch <= shape1 (band t_fh)
     /\ Chunk.y_start ch <= shape0 (band t_fh)) ->
  files w !! path = Some t_fh ->
  exists res, for_each (ProcessSuperArray E) l w = (res, w).
Proof.
  intros Hall Hfile. induction l as [|ch l IH].
  - by exists (Ok tt).
  - cbn [for_each]. unfold bindM.
    destruct (Hall ch (list_elem_of_here _ _)) as (Hf & Hmd & Hout & Hx & Hy).
    destruct (ProcessSuperArray_zero_overlap E ch w t_fh Hf Hmd
                ltac:(by rewrite Hout) Hx Hy) as [[[]|e] ->]; [|eauto].
    apply IH. intros ch' Hch'. apply Hall. by apply list_elem_of_further.
Qed.

(** The claim as it is worded fails for the methods whose overlap the checks
    raise.  A [blur_mean] run with [overlap = 0] and a filter size of 1 over
    a 12 by 12 raster in chunks of 4 uses the overlap 2: its chunks are
    written, and the target holds the sample 1 of the source at row 0,
    column 1, which is not the sample it was created with. *)
Lemma zero_overlap_run_writes_tiles :
  ~ zero_overlap_claim demo_env "in.tif" "out.tif" 4 "blur_mean"
      {[ "filter_size" := VInt 1 ]} 1 false (ramp_world 12 12).
Proof.
  intros Hclaim.
  assert (match ParallelRCP demo_env "in.tif" "out.tif" 4 0 "blur_mean"
                  {[ "filter_size" := VInt 1 ]} 1 false (ramp_world 12 12)
          with
          | (_, w') =>
              match files w' !! "out.tif" with
              | Some t' => PrimFloat.eqb (item (band t') 0 1) 1%float
              | None => false
              end
          end = true) as Hcell by (by vm_compute).
  destruct (ParallelRCP demo_env "in.tif" "out.tif" 4 0 "blur_mean"
              {[ "filter_size" := VInt 1 ]} 1 false (ramp_world 12 12))
    as [res w'] eqn:Hrun.
  destruct (files w' !! "out.tif") as [t'|] eqn:Hout; [|discriminate Hcell].
  rewrite (Hclaim (ramp_raster 12 12) t' res w' ltac:(reflexivity)
             ltac:(simpl; lia) ltac:(simpl; lia) Hrun Hout 0 1) in Hcell.
  vm_compute in Hcell. discriminate Hcell.
Qed.

(** C10, with the overlap taken after the checks.  For a call whose checks
    leave the overlap at 0 (an overlap of 0 with [mdenoise], [hillshade] or
    [skymodel]; for [blur_gauss], [blur_mean], [clahe] and [TPI] the checks
    raise it to twice the filter size), on a source with a no-data value
    whose dimensions exceed the chunk size and a target that does not
    exist: the run is the loop over chunks that all carry [f2 = 0]; for
    every such chunk and whatever the operation returned, the stripped
    array [new_data[f2:-1*f2, f2:-1*f2]] has shape [(0, 0)] although the
    chunk is not empty, and the end of [ProcessSuperArray] completes without
    an exception and writes nothing; and for a method other than
    [mdenoise], whatever the filters return, the run ends with every file as
    it was and the target exactly as it was created. *)
Theorem zero_overlap_loses_every_tile (E : env)
    (in_dem_path out_dem_path : string) (chunk_size overlap : Z)
    (method : string) (options : gmap string optval) (num_threads : Z)
    (verbose : bool) (w : world) (s_fh : raster) (s_nodata : float) :
  method_checks method options overlap = Ok 0 ->
  files w !! in_dem_path = Some s_fh ->
  nodata_value s_fh = Some s_nodata ->
  files w !! out_dem_path = None ->
  shape0 (band s_fh) > chunk_size -> shape1 (band s_fh) > chunk_size ->
  0 <= shape0 (band s_fh) -> 0 <= shape1 (band s_fh) ->
  let w1 :=
    mk_world (<[out_dem_path := created_target E s_fh s_nodata]> (files w))
             (exe_log w) in
  let R := fun options' =>
    mk_run_info s_nodata (PrimFloat.abs (pixel_height s_fh))
      in_dem_path out_dem_path (2 * 0)
      (shape0 (band s_fh)) (shape1 (band s_fh)) method options' verbose in
  (method <> "skymodel" ->
   ParallelRCP E in_dem_path out_dem_path chunk_size overlap method options
               num_threads verbose w
   = bindM (liftR (chunks_of (R options) chunk_size))
           (for_each (ProcessSuperArray E)) w1)
  /\ (forall options' iterables ch super_array new_data w0 t_fh,
        chunks_of (R options') chunk_size = Ok iterables -> ch ∈ iterables ->
        files w0 !! out_dem_path = Some t_fh ->
        shape0 (band t_fh) = shape0 (band s_fh) ->
        shape1 (band t_fh) = shape1 (band s_fh) ->
        shape0 (strip_overlap new_data (Chunk.f2 ch)) = 0
        /\ shape1 (strip_overlap new_data (Chunk.f2 ch)) = 0
        /\ 0 < Chunk.y_end ch - Chunk.y_start ch
        /\ 0 < Chunk.x_end ch - Chunk.x_start ch
        /\ write_back ch super_array new_data w0 = (Ok tt, w0))
  /\ (method <> "mdenoise" ->
      exists res,
        ParallelRCP E in_dem_path out_dem_path chunk_size overlap method
                    options num_threads verbose w = (res, w1)).
Proof.
  intros Hchecks Hfin Hnd Hfout Hr Hc Hr0 Hc0 w1 R.
  split; [|split].
  - intros Hsky.
    apply (ParallelRCP_tiling E in_dem_path out_dem_path chunk_size overlap 0
             method options num_threads verbose w s_fh s_nodata);
      try done; lia.
  - intros options' iterables ch super_array new_data w0 t_fh Hiter Hch
      Hfile Hs0 Hs1.
    apply (zero_f2_chunk_loses_its_tile (R options') chunk_size 0 iterables ch
             super_array new_data w0 t_fh); try done.
  - intros Hmd. unfold ParallelRCP, bindM, liftR, gdal_Open.
    rewrite Hchecks, Hfin, Hnd. cbn [ret]. rewrite Hfout.
    rewrite bool_decide_eq_false_2 by (by intros [? ?]).
    fold (created_target E s_fh s_nodata). fold w1.
    destruct (if String.eqb method "skymodel" then _ else _)
      as [[options'|e] w2] eqn:Hopt.
    + assert (w2 = w1) as ->.
      { destruct (String.eqb method "skymodel"); by injection Hopt as _ <-. }
      destruct (Z.gtb_spec (shape0 (band s_fh)) chunk_size); [|lia].
      destruct (Z.gtb_spec (shape1 (band s_fh)) chunk_size); [|lia].
      cbn [andb]. change (chunks_of _ chunk_size)
        with (chunks_of (R options') chunk_size).
      destruct (chunks_of (R options') chunk_size) as [iterables|e] eqn:Hiter;
        [|eauto].
      apply (for_each_zero_overlap E out_dem_path
               (created_target E s_fh s_nodata)).
      * intros ch Hch.
        destruct (chunk_method_of_run _ _ _ ch Hiter Hch) as (Hm & _).
        pose proof (chunk_out_of_run _ _ _ ch Hiter Hch) as Hout.
        pose proof (chunk_f2_of_run _ _ _ ch Hiter Hch) as Hf.
        destruct (Z.le_gt_cases chunk_size 0) as [Hle|Hpos].
        { rewrite (chunks_of_nonpos (R options') chunk_size iterables Hle
                     Hr0 Hc0 Hiter) in Hch.
          by apply elem_of_nil in Hch. }
        destruct (chunk_fields (R options') chunk_size iterables Hpos
                    ltac:(simpl; lia) ltac:(simpl; lia) Hiter ch Hch)
          as (_ & _ & _ & _ & _ & _ & ? & ? & ? & ? & ? & ?).
        subst R.
        cbn [run_rows run_cols run_f2 run_method run_out_dem_path] in *.
        split_and!; rewrite ?Hm; try done;
          cbn [created_target band shape0 shape1]; lia.
      * unfold w1. cbn [files]. by rewrite lookup_insert_eq.
    + assert (w2 = w1) as ->.
      { destruct (String.eqb method "skymodel"); by injection Hopt as _ <-. }
      eauto.
Qed.

Lemma zero_overlap_loses_every_tile_witness :
  exists res,
    ParallelRCP demo_env "in.tif" "out.tif" 4 0 "hillshade"
                hillshade_options 1 false (ramp_world 6 6)
    = (res,
       mk_world (<["out.tif" :=
                     created_target demo_env (ramp_raster 6 6) (-9999)%float]>
                   (files (ramp_world 6 6))) []).
Proof.
  pose proof (zero_overlap_loses_every_tile demo_env "in.tif" "out.tif" 4 0
                "hillshade" hillshade_options 1 false (ramp_world 6 6)
                (ramp_raster 6 6) (-9999)%float) as H.
  cbv zeta in H.
  destruct H as (_ & _ & Hrun);
    [reflexivity | reflexivity | reflexivity | reflexivity
    | simpl; lia | simpl; lia | simpl; lia | simpl; lia |].
  apply Hrun. done.
Defined.

(** ** The samples the target holds exactly *)

(** The integers up to [2^24] and the usual no-data value are held exactly;
    [2^24 + 1], the double nearest to 0.1, and the doubles beyond the range
    of the 32-bit type are not. *)
Lemma is_float32_examples :
  is_float32 16777216%float = true
  /\ is_float32 (-9999)%float = true
  /\ is_float32 0x1p-149%float = true
  /\ is_float32 0x1.fffffep127%float = true
  /\ is_float32 16777217%float = false
  /\ is_float32 0x1.999999999999ap-4%float = false
  /\ is_float32 0x1p-150%float = false
  /\ is_float32 0x1p128%float = false.
Proof. by vm_compute. Qed.

(** Every sample of the 6 by 6 ramp raster is held exactly, so that an
    identity run over it reproduces each of its cells. *)
Lemma ramp_samples_are_float32 (r c : Z) :
  0 <= r < 6 -> 0 <= c < 6 ->
  is_float32 (masked (item (band (ramp_raster 6 6)) r c) (-9999)%float)
  = true.
Proof.
  intros Hr Hc.
  assert (r = 0 \/ r = 1 \/ r = 2 \/ r = 3 \/ r = 4 \/ r = 5) as Hrs by lia.
  assert (c = 0 \/ c = 1 \/ c = 2 \/ c = 3 \/ c = 4 \/ c = 5) as Hcs by lia.
  destruct Hrs as [->|[->|[->|[->|[->| ->]]]]];
    destruct Hcs as [->|[->|[->|[->|[->| ->]]]]]; by vm_compute.
Qed.
